(** * Soup Cookoff voice assistant

    A shallow embedding of the ticketing service ([src/services/payments.ts]),
    the tool registry ([src/realtime/toolRegistry.ts]) and the realtime model
    session client ([OpenAIRealtimeClient]), with the properties the design
    document states about them.

    Conventions.
    - JavaScript numbers that hold counts are [Z]; prices and confidence
      scores are exact rationals [Q] (no rounding error, no NaN).
    - Promises are modelled by their settlement: a [Completion] is either a
      normal value or a thrown [JsError].
    - Strings are the strings of the standard library and stand for text
      within ASCII, where they agree with JavaScript's strings character for
      character; free text whose length matters is kept as UTF-16 code
      units.
    - The Prisma store is an explicit [Db] value threaded through the
      operations; it is always reachable, and the only Prisma fault kept is
      an update of a row that does not exist.
    - Collaborators outside the repository (Stripe, the knowledge base, SMS and
      Slack delivery, the clock, the uuid source, date formatting) are
      section variables or explicit arguments. *)

From Stdlib Require Import ZArith QArith Qround String Ascii List DecimalString Lia.
From Stdlib Require Import DecimalPos.
From stdpp Require Import gmap strings list sorting.

Set Warnings "-register-all".

Local Open Scope Z_scope.

(* ===================================================================== *)
(** * JavaScript values, errors and the state-and-exception monad *)
(* ===================================================================== *)

Module Js.

(** The values tools receive and return. An object is its list of own
    properties in insertion order. *)
Inductive JsValue : Type :=
| JUndefined
| JNull
| JBool (b : bool)
| JNum (q : Q)
| JStr (s : string)
| JArr (items : list JsValue)
| JObj (fields : list (string * JsValue)).

(** ToBoolean. *)
Definition truthy (v : JsValue) : bool :=
  match v with
  | JUndefined | JNull => false
  | JBool b => b
  | JNum q => negb (Qeq_bool q 0)
  | JStr s => negb (String.eqb s "")
  | JArr _ | JObj _ => true
  end.

Fixpoint getField (k : string) (fields : list (string * JsValue)) : JsValue :=
  match fields with
  | [] => JUndefined
  | (k', v) :: rest => if String.eqb k k' then v else getField k rest
  end.

(** [v.k] on a value that is known not to be nullish. *)
Definition get (k : string) (v : JsValue) : JsValue :=
  match v with
  | JObj fields => getField k fields
  | _ => JUndefined
  end.

Fixpoint hasField (k : string) (fields : list (string * JsValue)) : bool :=
  match fields with
  | [] => false
  | (k', _) :: rest => String.eqb k k' || hasField k rest
  end.

(** [o.k = v]: an existing key keeps its position, a new key goes last. *)
Fixpoint setField (k : string) (v : JsValue) (fields : list (string * JsValue))
  : list (string * JsValue) :=
  match fields with
  | [] => [(k, v)]
  | (k', v') :: rest =>
      if String.eqb k k' then (k, v) :: rest else (k', v') :: setField k v rest
  end.

(** [{...base, k1: v1, ..., kn: vn}]. *)
Definition spread (base extra : list (string * JsValue)) : list (string * JsValue) :=
  fold_left (fun acc kv => setField (fst kv) (snd kv) acc) extra base.

Definition JInt (z : Z) : JsValue := JNum (inject_Z z).

(** Template-literal rendering of an integral number. *)
Definition numberToString (z : Z) : string :=
  NilZero.string_of_int (Z.to_int z).

(** [a || b] on strings. *)
Definition orElse (a b : string) : string :=
  if String.eqb a "" then b else a.

(** [Math.round] on an exact rational: halves go up. *)
Definition Math_round (q : Q) : Z := Qfloor (q + (1 # 2)).

Definition upperAscii (c : ascii) : ascii :=
  let n := nat_of_ascii c in
  if (Nat.leb 97 n && Nat.leb n 122)%bool then ascii_of_nat (n - 32) else c.

Fixpoint toUpperCase (s : string) : string :=
  match s with
  | EmptyString => EmptyString
  | String c rest => String (upperAscii c) (toUpperCase rest)
  end.

Definition lowerAscii (c : ascii) : ascii :=
  let n := nat_of_ascii c in
  if (Nat.leb 65 n && Nat.leb n 90)%bool then ascii_of_nat (n + 32) else c.

Fixpoint toLowerCase (s : string) : string :=
  match s with
  | EmptyString => EmptyString
  | String c rest => String (lowerAscii c) (toLowerCase rest)
  end.

(** [/\s/] restricted to the ASCII white space characters. *)
Definition isSpace (c : ascii) : bool :=
  let n := nat_of_ascii c in
  (Nat.eqb n 32 || (Nat.leb 9 n && Nat.leb n 13))%bool.

Fixpoint removeSpaces (s : string) : string :=
  match s with
  | EmptyString => EmptyString
  | String c rest =>
      if isSpace c then removeSpaces rest else String c (removeSpaces rest)
  end.

(** [hay.includes(needle)], which is also Prisma's [contains] filter. *)
Fixpoint includes (needle hay : string) : bool :=
  String.prefix needle hay ||
  match hay with
  | EmptyString => false
  | String _ rest => includes needle rest
  end.

(** An [Error] object: its constructor name and its message. *)
Record JsError : Type := mkError { errName : string; message : string }.

Definition TypeError (msg : string) : JsError := mkError "TypeError" msg.

(** [String(e)] for an [Error]. *)
Definition errorToString (e : JsError) : string :=
  if String.eqb (message e) "" then errName e
  else (errName e ++ ": " ++ message e)%string.

(** How an awaited call settles. *)
Inductive Completion (A : Type) : Type :=
| Normal (a : A)
| Throw (e : JsError).
Arguments Normal {A} a.
Arguments Throw {A} e.

(** Code that reads and writes a store [S] and may throw. Writes made before
    a throw stay in the store. *)
Definition M (S A : Type) : Type := S -> Completion A * S.

Definition ret {S A} (a : A) : M S A := fun s => (Normal a, s).

Definition throw {S A} (e : JsError) : M S A := fun s => (Throw e, s).

Definition bind {S A B} (c : M S A) (k : A -> M S B) : M S B :=
  fun s =>
    match c s with
    | (Normal a, s') => k a s'
    | (Throw e, s') => (Throw e, s')
    end.

(** [try { body } catch (e) { handler }]. *)
Definition tryCatch {S A} (body : M S A) (handler : JsError -> M S A) : M S A :=
  fun s =>
    match body s with
    | (Normal a, s') => (Normal a, s')
    | (Throw e, s') => handler e s'
    end.

(** Awaiting a collaborator that does not touch the store. *)
Definition await {S A} (c : Completion A) : M S A := fun s => (c, s).

Definition gets {S A} (f : S -> A) : M S A := fun s => (Normal (f s), s).

Definition modify {S} (f : S -> S) : M S unit := fun s => (Normal tt, f s).

End Js.

Import Js.

Declare Scope js_scope.
Delimit Scope js_scope with js.
Notation "'do' x <- c ; k" := (bind c (fun x => k))
  (at level 10, x name, c at level 100, k at level 200) : js_scope.
Notation "'exec' c ; k" := (bind c (fun _ => k))
  (at level 10, c at level 100, k at level 200) : js_scope.

Local Open Scope js_scope.

(* ===================================================================== *)
(** * The Prisma store *)
(* ===================================================================== *)

Module Prisma.

Inductive TicketType : Type := GA | VIP.

Definition ticketTypeName (t : TicketType) : string :=
  match t with GA => "GA" | VIP => "VIP" end.

(** A row of the [Event] table; the row id is the key of the table. Dates are
    milliseconds since the epoch. *)
Record Event : Type := mkEvent {
  name : string;
  date : Z;
  location : string;
  address : option string;
  gaPriceOnline : Q;
  gaPriceGate : Q;
  vipPriceOnline : Q;
  vipPriceGate : Q;
  gaCapacity : Z;
  vipCapacity : Z;
  gaSold : Z;
  vipSold : Z;
  active : bool
}.

Record TicketPurchase : Type := mkTicketPurchase {
  tp_eventId : string;
  tp_ticketType : TicketType;
  tp_quantity : Z;
  tp_unitPrice : Q;
  tp_totalPrice : Q;
  tp_customerName : string;
  tp_customerEmail : string;
  tp_customerPhone : string;
  tp_stripePaymentId : string;
  tp_paymentStatus : string;
  tp_confirmationCode : string;
  tp_callLogId : option string
}.

(** [kbMinConfidence] and [lowConfidenceAction] are read with [??], so both
    may be absent from a row. *)
Record BusinessConfig : Type := mkBusinessConfig {
  kbMinConfidence : option Q;
  lowConfidenceAction : option string
}.

Record CallLog : Type := mkCallLog { callLog_id : string; callSid : string }.

Record IntentLog : Type := mkIntentLog { intent : string; meta : JsValue }.

Record CitationsLog : Type := mkCitationsLog {
  cl_callLogId : option string;
  cl_callSid : option string;
  cl_question : string;
  cl_language : string;
  cl_sources : JsValue
}.

Record SponsorInquiry : Type := mkSponsorInquiry {
  si_contactName : string;
  si_companyName : option string;
  si_phone : string;
  si_email : option string;
  si_interestedTier : option string;
  si_notes : option string
}.

Record Db : Type := mkDb {
  event : gmap string Event;
  ticketPurchase : list TicketPurchase;
  businessConfig : list BusinessConfig;
  callLog : list CallLog;
  intentLog : list IntentLog;
  citationsLog : list CitationsLog;
  sponsorInquiry : list SponsorInquiry
}.

Definition with_event (f : gmap string Event -> gmap string Event) (db : Db) : Db :=
  mkDb (f (event db)) (ticketPurchase db) (businessConfig db) (callLog db)
       (intentLog db) (citationsLog db) (sponsorInquiry db).

Definition with_ticketPurchase (f : list TicketPurchase -> list TicketPurchase) (db : Db) : Db :=
  mkDb (event db) (f (ticketPurchase db)) (businessConfig db) (callLog db)
       (intentLog db) (citationsLog db) (sponsorInquiry db).

Definition with_intentLog (f : list IntentLog -> list IntentLog) (db : Db) : Db :=
  mkDb (event db) (ticketPurchase db) (businessConfig db) (callLog db)
       (f (intentLog db)) (citationsLog db) (sponsorInquiry db).

Definition with_citationsLog (f : list CitationsLog -> list CitationsLog) (db : Db) : Db :=
  mkDb (event db) (ticketPurchase db) (businessConfig db) (callLog db)
       (intentLog db) (f (citationsLog db)) (sponsorInquiry db).

Definition with_sponsorInquiry (f : list SponsorInquiry -> list SponsorInquiry) (db : Db) : Db :=
  mkDb (event db) (ticketPurchase db) (businessConfig db) (callLog db)
       (intentLog db) (citationsLog db) (f (sponsorInquiry db)).

(** [prisma.event.findUnique({ where: { id } })]. *)
Definition event_findUnique (id : string) : M Db (option Event) :=
  gets (fun db => event db !! id).

(** [prisma.event.update({ where: { id }, data })]: fails on a missing row. *)
Definition event_update (id : string) (data : Event -> Event) : M Db unit :=
  fun db =>
    match event db !! id with
    | Some e => (Normal tt, with_event (insert id (data e)) db)
    | None => (Throw (mkError "PrismaClientKnownRequestError"
                              "Record to update not found."), db)
    end.

Definition incrementSold (t : TicketType) (n : Z) (e : Event) : Event :=
  match t with
  | VIP => mkEvent (name e) (date e) (location e) (address e)
             (gaPriceOnline e) (gaPriceGate e) (vipPriceOnline e) (vipPriceGate e)
             (gaCapacity e) (vipCapacity e) (gaSold e) (vipSold e + n) (active e)
  | GA => mkEvent (name e) (date e) (location e) (address e)
            (gaPriceOnline e) (gaPriceGate e) (vipPriceOnline e) (vipPriceGate e)
            (gaCapacity e) (vipCapacity e) (gaSold e + n) (vipSold e) (active e)
  end.

Definition ticketPurchase_create (row : TicketPurchase) : M Db unit :=
  modify (with_ticketPurchase (fun rows => rows ++ [row])).

Definition businessConfig_findFirst : M Db (option BusinessConfig) :=
  gets (fun db => head (businessConfig db)).

Definition callLog_findUnique (sid : string) : M Db (option CallLog) :=
  gets (fun db => find (fun c => String.eqb (callSid c) sid) (callLog db)).

(** Rows with their ids. *)
Definition EventRow : Type := string * Event.

Definition date_le (a b : EventRow) : Prop := date (snd a) <= date (snd b).

#[global] Instance date_le_dec (a b : EventRow) : Decision (date_le a b).
Proof. unfold date_le. apply _. Defined.

(** [where: { active: true, date: { gte: now }, name: { contains } }]; the
    name clause is present only when a name is given. *)
Definition upcomingWhere (now : Z) (nameContains : option string) (row : EventRow) : bool :=
  active (snd row) && (now <=? date (snd row)) &&
  match nameContains with
  | Some n => includes n (name (snd row))
  | None => true
  end.

(** [findMany({ where, orderBy: { date: 'asc' } })]. The order among rows of
    equal date is the store's own. *)
Definition event_findUpcoming (now : Z) (nameContains : option string) (db : Db)
  : list EventRow :=
  merge_sort date_le (List.filter (upcomingWhere now nameContains) (map_to_list (event db))).

Definition event_findMany (now : Z) (nameContains : option string) (take : nat)
  : M Db (list EventRow) :=
  gets (fun db => firstn take (event_findUpcoming now nameContains db)).

Definition event_findFirst (now : Z) : M Db (option EventRow) :=
  gets (fun db => head (event_findUpcoming now None db)).

End Prisma.

Import Prisma.

(* ===================================================================== *)
(** * Ticket payments ([src/services/payments.ts]) *)
(* ===================================================================== *)

Module Payments.

Record TicketPurchaseRequest : Type := mkRequest {
  eventId : string;
  ticketType : TicketType;
  quantity : Z;
  customerName : string;
  customerEmail : string;
  customerPhone : string;
  callLogId : option string
}.

(** The card fields [processVoicePayment] takes next to the request. *)
Record CardDetails : Type := mkCard {
  cardNumber : string;
  expMonth : string;
  expYear : string;
  cvc : string
}.

Record PaymentResult : Type := mkResult {
  success : bool;
  confirmationCode : option string;
  error : option string;
  clientSecret : option string;
  paymentIntentId : option string
}.

Definition failed (msg : string) : PaymentResult :=
  mkResult false None (Some msg) None None.

(** ** The Stripe client *)

(** The card as handed to [paymentMethods.create]; the month and year are the
    strings [parseInt] is applied to. *)
Record StripeCard : Type := mkStripeCard {
  number : string;
  exp_month : string;
  exp_year : string;
  card_cvc : string
}.

Record PaymentIntentParams : Type := mkParams {
  amount : Z;
  payment_method : option string;
  confirm : bool;
  metadata : list (string * string);
  receipt_email : string;
  description : string
}.

Record PaymentIntent : Type := mkIntent {
  pi_id : string;
  status : string;
  client_secret : option string
}.

Record Stripe : Type := mkStripe {
  paymentMethods_create : StripeCard -> Completion string;
  paymentIntents_create : PaymentIntentParams -> Completion PaymentIntent
}.

Definition unitPriceOf (t : TicketType) (e : Event) : Q :=
  match t with VIP => vipPriceOnline e | GA => gaPriceOnline e end.

Definition soldOf (t : TicketType) (e : Event) : Z :=
  match t with VIP => vipSold e | GA => gaSold e end.

Definition capacityOf (t : TicketType) (e : Event) : Z :=
  match t with VIP => vipCapacity e | GA => gaCapacity e end.

(** [`SCO-${uuidv4().slice(0, 8).toUpperCase()}`]. *)
Definition makeConfirmationCode (uuid : string) : string :=
  ("SCO-" ++ toUpperCase (String.substring 0 8 uuid))%string.

Definition ticketDescription (r : TicketPurchaseRequest) (e : Event) : string :=
  (numberToString (quantity r) ++ "x " ++ ticketTypeName (ticketType r)
     ++ " Ticket(s) - " ++ name e)%string.

Definition purchaseRow (r : TicketPurchaseRequest) (e : Event) (pi : PaymentIntent)
  (paymentStatus code : string) : TicketPurchase :=
  let unitPrice := unitPriceOf (ticketType r) e in
  mkTicketPurchase (eventId r) (ticketType r) (quantity r)
    unitPrice (unitPrice * inject_Z (quantity r))
    (customerName r) (customerEmail r) (customerPhone r)
    (pi_id pi) paymentStatus code (callLogId r).

Section WithStripe.

Variable stripe : Stripe.

(** [createTicketPaymentIntent]: the web checkout path. [uuid] is the value
    [uuidv4()] returns. *)
Definition createTicketPaymentIntent (uuid : string) (request : TicketPurchaseRequest)
  : M Db PaymentResult :=
  tryCatch
    (do event <- event_findUnique (eventId request);
     match event with
     | None => ret (failed "Event not found")
     | Some event =>
         if negb (active event)
         then ret (failed "Event is not available for ticket sales")
         else
           let unitPrice := unitPriceOf (ticketType request) event in
           let totalPrice := (unitPrice * inject_Z (quantity request))%Q in
           let totalCents := Math_round (totalPrice * 100) in
           let sold := soldOf (ticketType request) event in
           let capacity := capacityOf (ticketType request) event in
           if capacity <? sold + quantity request
           then ret (failed ("Only " ++ numberToString (capacity - sold) ++ " "
                               ++ ticketTypeName (ticketType request)
                               ++ " tickets remaining")%string)
           else
             let confirmationCode := makeConfirmationCode uuid in
             do paymentIntent <- await (paymentIntents_create stripe
                  (mkParams totalCents None false
                     [("eventId", eventId request);
                      ("ticketType", ticketTypeName (ticketType request));
                      ("quantity", numberToString (quantity request));
                      ("customerName", customerName request);
                      ("customerEmail", customerEmail request);
                      ("customerPhone", customerPhone request);
                      ("confirmationCode", confirmationCode)]
                     (customerEmail request)
                     (ticketDescription request event)));
             exec ticketPurchase_create
                    (purchaseRow request event paymentIntent "pending" confirmationCode);
             ret (mkResult true (Some confirmationCode) None
                    (client_secret paymentIntent) (Some (pi_id paymentIntent)))
     end)
    (fun error => ret (failed (orElse (message error) "Payment processing failed"))).

(** [processVoicePayment]: the path the [purchaseTickets] tool takes. *)
Definition processVoicePayment (uuid : string) (args : TicketPurchaseRequest)
  (card : CardDetails) : M Db PaymentResult :=
  tryCatch
    (do event <- event_findUnique (eventId args);
     match event with
     | None => ret (failed "Event not found")
     | Some event =>
         let unitPrice := unitPriceOf (ticketType args) event in
         let totalPrice := (unitPrice * inject_Z (quantity args))%Q in
         let totalCents := Math_round (totalPrice * 100) in
         let confirmationCode := makeConfirmationCode uuid in
         do paymentMethod <- await (paymentMethods_create stripe
              (mkStripeCard (removeSpaces (cardNumber card))
                 (expMonth card)
                 (if Nat.eqb (String.length (expYear card)) 2
                  then ("20" ++ expYear card)%string else expYear card)
                 (cvc card)));
         do paymentIntent <- await (paymentIntents_create stripe
              (mkParams totalCents (Some paymentMethod) true
                 [("eventId", eventId args);
                  ("ticketType", ticketTypeName (ticketType args));
                  ("quantity", numberToString (quantity args));
                  ("confirmationCode", confirmationCode)]
                 (customerEmail args)
                 (ticketDescription args event)));
         if String.eqb (status paymentIntent) "succeeded"
         then
           exec ticketPurchase_create
                  (purchaseRow args event paymentIntent "completed" confirmationCode);
           exec event_update (eventId args)
                  (incrementSold (ticketType args) (quantity args));
           ret (mkResult true (Some confirmationCode) None None None)
         else ret (failed "Payment requires additional action")
     end)
    (fun error => ret (failed (orElse (message error) "Payment declined"))).

End WithStripe.

(** [getTicketPrices]. *)
Record TicketPrices : Type := mkPrices {
  prices_eventId : string;
  prices_event : Event;
  gaOnline : Q;
  gaGate : Q;
  vipOnline : Q;
  vipGate : Q;
  gaAvailable : Z;
  vipAvailable : Z
}.

Definition pricesOf (row : EventRow) : TicketPrices :=
  let e := snd row in
  mkPrices (fst row) e
    (gaPriceOnline e) (gaPriceGate e) (vipPriceOnline e) (vipPriceGate e)
    (gaCapacity e - gaSold e) (vipCapacity e - vipSold e).

(** [now] is the value of [new Date()]. An empty [eventId] is falsy and takes
    the next-event branch. *)
Definition getTicketPrices (now : Z) (eventId : option string)
  : M Db (option TicketPrices) :=
  do event <-
    match eventId with
    | Some id =>
        if String.eqb id "" then event_findFirst now
        else do e <- event_findUnique id; ret (option_map (pair id) e)
    | None => event_findFirst now
    end;
  ret (option_map pricesOf event).

End Payments.

Import Payments.

(* ===================================================================== *)
(** * The realtime model session client ([OpenAIRealtimeClient]) *)
(* ===================================================================== *)

Module Realtime.

Inductive ReadyState : Type := CONNECTING | OPEN | CLOSING | CLOSED.

Inductive Modality : Type := text | audio.

(** The objects handed to [send]. On the wire each is its [JSON.stringify];
    the [output] of a [tool.output] is itself the [JSON.stringify] of the
    value kept here, and an absent [tool_call_id] is dropped. *)
Inductive ClientMessage : Type :=
| session_update (session : JsValue)
| input_audio_buffer_append (b64 : string)
| input_audio_buffer_commit
| response_create (modalities : list Modality)
| tool_output (tool_call_id : option string) (output : JsValue).

(** The [ws] socket: its state and the frames written to it so far. *)
Record WebSocket : Type := mkWs {
  readyState : ReadyState;
  outbox : list ClientMessage
}.

Definition isOpen (w : WebSocket) : bool :=
  match readyState w with OPEN => true | _ => false end.

(** [ws.close()]: an open or connecting socket starts closing; it never
    throws and never re-opens. *)
Definition ws_close (w : WebSocket) : WebSocket :=
  match readyState w with
  | CLOSED => w
  | _ => mkWs CLOSING (outbox w)
  end.

Record Client : Type := mkClient {
  ws : option WebSocket;
  connected : bool;
  pendingBytes : Z;
  heartbeatTimer : bool
}.

(** A client as the constructor leaves it. *)
Definition newClient : Client := mkClient None false 0 false.

Definition socketOpen (c : Client) : bool :=
  match ws c with Some w => isOpen w | None => false end.

(** Everything this client has written to its current socket. *)
Definition sent (c : Client) : list ClientMessage :=
  match ws c with Some w => outbox w | None => [] end.

(** [private send(obj)]. *)
Definition send (obj : ClientMessage) (c : Client) : Client :=
  match ws c with
  | None => c
  | Some w =>
      if isOpen w
      then mkClient (Some (mkWs (readyState w) (outbox w ++ [obj])))
             (connected c) (pendingBytes c) (heartbeatTimer c)
      else c
  end.

Definition stopHeartbeat (c : Client) : Client :=
  if heartbeatTimer c
  then mkClient (ws c) (connected c) (pendingBytes c) false
  else c.

Definition startHeartbeat (c : Client) : Client :=
  let c := stopHeartbeat c in
  mkClient (ws c) (connected c) (pendingBytes c) true.

(** One firing of the keepalive interval at time [now]. *)
Definition heartbeatTick (now : Z) (c : Client) : Client :=
  if heartbeatTimer c
  then if connected c
       then send (session_update (JObj [("keepalive_at", JInt now)])) c
       else c
  else c.

(** [connect()]: a fresh socket, not yet open. *)
Definition connect (c : Client) : Client :=
  mkClient (Some (mkWs CONNECTING [])) (connected c) (pendingBytes c) (heartbeatTimer c).

(** The socket's ['open'] event; [session] is the configuration object. *)
Definition on_open (session : JsValue) (c : Client) : Client :=
  match ws c with
  | Some w =>
      match readyState w with
      | CONNECTING =>
          let c := mkClient (Some (mkWs OPEN (outbox w))) true
                     (pendingBytes c) (heartbeatTimer c) in
          startHeartbeat (send (session_update session) c)
      | _ => c
      end
  | None => c
  end.

(** The socket's ['close'] event. *)
Definition on_close (c : Client) : Client :=
  let c := mkClient (option_map (fun w => mkWs CLOSED (outbox w)) (ws c))
             false (pendingBytes c) (heartbeatTimer c) in
  stopHeartbeat c.

(** [close()]. *)
Definition close (c : Client) : Client :=
  let c := stopHeartbeat c in
  mkClient (option_map ws_close (ws c)) false (pendingBytes c) (heartbeatTimer c).

Definition updateSession (patch : JsValue) (c : Client) : Client :=
  send (session_update patch) c.

(** Node's [Buffer.byteLength(str, 'base64')]: the decoded size computed from
    the length of the text and its trailing padding. *)
Definition endsWithPad (str : string) (bytes : Z) : bool :=
  match String.get (Z.to_nat (bytes - 1)) str with
  | Some c => (0 <? bytes) && Ascii.eqb c "="%char
  | None => false
  end.

Definition base64ByteLength (str : string) : Z :=
  let bytes := Z.of_nat (String.length str) in
  if bytes =? 0 then 0
  else
    let bytes := if endsWithPad str bytes then bytes - 1 else bytes in
    let bytes := if (1 <? bytes) && endsWithPad str bytes then bytes - 1 else bytes in
    Z.shiftr ((bytes * 3) mod 2 ^ 32) 2.

(** [appendAudioBase64]. *)
Definition appendAudioBase64 (b64 : string) (c : Client) : Client :=
  if negb (connected c) then c
  else
    let c := mkClient (ws c) (connected c)
               (pendingBytes c + base64ByteLength b64) (heartbeatTimer c) in
    send (input_audio_buffer_append b64) c.

(** [commitAndRespond(modalities = ['text', 'audio'])]. *)
Definition commitAndRespond (modalities : option (list Modality)) (c : Client) : Client :=
  if negb (connected c) then c
  else
    let modalities := match modalities with Some m => m | None => [text; audio] end in
    let c := send input_audio_buffer_commit c in
    let c := send (response_create modalities) c in
    mkClient (ws c) (connected c) 0 (heartbeatTimer c).

(** [maybeAutoFlush(thresholdBytes = 32000)]. *)
Definition maybeAutoFlush (thresholdBytes : option Z) (c : Client) : Client :=
  let thresholdBytes := match thresholdBytes with Some t => t | None => 32000 end in
  if thresholdBytes <=? pendingBytes c
  then commitAndRespond (Some [text; audio]) c
  else c.

(** A run of appends, and the decoded size of the chunks appended. *)
Definition appendAll (chunks : list string) (c : Client) : Client :=
  fold_left (fun c b64 => appendAudioBase64 b64 c) chunks c.

Definition totalBytes (chunks : list string) : Z :=
  fold_right (fun b64 n => base64ByteLength b64 + n) 0 chunks.

Definition isToolOutput (m : ClientMessage) : bool :=
  match m with tool_output _ _ => true | _ => false end.

(** ** Tool calls *)

Inductive ArgPayload : Type :=
| ArgString (s : string)
| ArgObject (o : JsValue).

Record ToolCallEvent : Type := mkCall {
  id : option string;
  call_name : option string;
  tool_name : option string;
  arguments : option ArgPayload;
  tool_call_id : option string
}.

(** Where [routeEvent] hands an inbound event. *)
Inductive Routed : Type :=
| ToAudioDelta (delta : JsValue)
| ToTextDelta (delta : JsValue)
| ToResponseCompleted
| ToToolCall (call : ToolCallEvent)
| Unrouted.

Definition hasType (evt : JsValue) (t : string) : bool :=
  match get "type" evt with JStr s => String.eqb s t | _ => false end.

(** A field the event type declares as an optional string. *)
Definition stringField (k : string) (evt : JsValue) : option string :=
  match get k evt with JStr s => Some s | _ => None end.

Definition argumentsField (evt : JsValue) : option ArgPayload :=
  match get "arguments" evt with
  | JUndefined => None
  | JStr s => Some (ArgString s)
  | v => Some (ArgObject v)
  end.

(** [private routeEvent(evt)]: a tool call is started and not awaited. *)
Definition routeEvent (evt : JsValue) : Routed :=
  if hasType evt "response.audio.delta" && truthy (get "delta" evt)
  then ToAudioDelta (get "delta" evt)
  else if hasType evt "response.output_text.delta" && truthy (get "delta" evt)
  then ToTextDelta (get "delta" evt)
  else if hasType evt "response.completed"
  then ToResponseCompleted
  else if hasType evt "response.function_call" || hasType evt "tool.call"
  then ToToolCall (mkCall (stringField "id" evt) (stringField "name" evt)
                     (stringField "tool_name" evt) (argumentsField evt)
                     (stringField "tool_call_id" evt))
  else Unrouted.

(** [a || b] on optional strings. *)
Definition orOpt (a b : option string) : option string :=
  match a with
  | Some s => if String.eqb s "" then b else Some s
  | None => b
  end.

(** [`${name}`] for an optional string. *)
Definition showOpt (a : option string) : string :=
  match a with Some s => s | None => "undefined" end.

Section WithRuntime.

(** [JSON.parse]: [None] stands for a thrown [SyntaxError]. *)
Variable JSON_parse : string -> option JsValue.

(** [safeParseJson]. *)
Definition safeParseJson (s : option string) : JsValue :=
  match s with
  | None => JObj []
  | Some s =>
      if String.eqb s "" then JObj []
      else match JSON_parse s with
           | Some v => v
           | None => JObj []
           end
  end.

Definition toolCallName (call : ToolCallEvent) : option string :=
  orOpt (call_name call) (tool_name call).

Definition toolCallArgs (call : ToolCallEvent) : JsValue :=
  match arguments call with
  | Some (ArgString s) => safeParseJson (Some s)
  | Some (ArgObject o) => if truthy o then o else JObj []
  | None => JObj []
  end.

Definition toolCallId (call : ToolCallEvent) : option string :=
  orOpt (tool_call_id call) (id call).

(** [handlers.onToolCall], when set: it receives the call with its arguments
    replaced by the parsed ones, and its promise settles to a [Completion]. *)
Definition OnToolCall : Type := ToolCallEvent -> JsValue -> Completion JsValue.

Definition failure (msg : string) : JsValue :=
  JObj [("ok", JBool false); ("error", JStr msg)].

(** The value of [output] once the [try] block of [handleToolCall] is over. *)
Definition toolCallOutput (onToolCall : option OnToolCall) (call : ToolCallEvent)
  : JsValue :=
  match onToolCall with
  | None => failure ("Unhandled tool " ++ showOpt (toolCallName call))%string
  | Some handler =>
      match handler call (toolCallArgs call) with
      | Normal output => output
      | Throw e => failure (orElse (message e) (errorToString e))
      end
  end.

(** [private async handleToolCall(call)]. The handler is awaited before the
    reply is sent: [c] is the client as it is when the handler settles. *)
Definition handleToolCall (onToolCall : option OnToolCall) (call : ToolCallEvent)
  (c : Client) : Client :=
  send (tool_output (toolCallId call) (toolCallOutput onToolCall call)) c.

(** ** What can happen to a client between two observations *)

Inductive ClientOp : Type :=
| OpAppendAudio (b64 : string)
| OpCommitAndRespond (modalities : option (list Modality))
| OpMaybeAutoFlush (thresholdBytes : option Z)
| OpUpdateSession (patch : JsValue)
| OpHeartbeat (now : Z)
| OpToolCallSettles (call : ToolCallEvent)
| OpSocketClosed
| OpClose.

Definition applyOp (onToolCall : option OnToolCall) (op : ClientOp) (c : Client) : Client :=
  match op with
  | OpAppendAudio b64 => appendAudioBase64 b64 c
  | OpCommitAndRespond m => commitAndRespond m c
  | OpMaybeAutoFlush t => maybeAutoFlush t c
  | OpUpdateSession patch => updateSession patch c
  | OpHeartbeat now => heartbeatTick now c
  | OpToolCallSettles call => handleToolCall onToolCall call c
  | OpSocketClosed => on_close c
  | OpClose => close c
  end.

Definition applyOps (onToolCall : option OnToolCall) (ops : list ClientOp) (c : Client)
  : Client :=
  fold_left (fun c op => applyOp onToolCall op c) ops c.

End WithRuntime.

End Realtime.

Import Realtime.

(* ===================================================================== *)
(** * The tool registry ([src/realtime/toolRegistry.ts]) *)
(* ===================================================================== *)

Module Tools.

(** ** Detached side effects *)

(** The notifications a tool starts with [.catch(...)] and does not await. *)
Inductive SideEffect : Type :=
| sendTicketConfirmation (options : JsValue)
| notifyTicketPurchase (options : JsValue)
| sendSponsorFollowUp (options : JsValue)
| notifySponsorInquiry (options : JsValue)
| notifyTransferRequest (options : JsValue).

(** A promise a tool has started: the call that was made, how it settles,
    and the text its [.catch] handler hands to [console.error]. *)
Record Detached : Type := mkDetached {
  effect : SideEffect;
  outcome : Completion unit;
  onRejected : string
}.

(** What a tool works on: the store, and the promises it has started and
    left running. *)
Record World : Type := mkWorld {
  db : Db;
  spawned : list Detached
}.

Definition onDb {A} (c : M Db A) : M World A :=
  fun w => let (r, d) := c (db w) in (r, mkWorld d (spawned w)).

(** [f(options).catch(err => console.error(label, err))], not awaited. The
    notification functions are collaborators of the tools: [deliver] says how
    the promise of each call settles. The call is made and the tool goes on
    without looking at its promise; a tool that awaited it would run
    [await (deliver e)] instead and take over its rejection. *)
Definition detach (deliver : SideEffect -> Completion unit) (e : SideEffect)
  (label : string) : M World unit :=
  modify (fun w => mkWorld (db w) (spawned w ++ [mkDetached e (deliver e) label])).

(** The event loop settling a started promise after the tool has returned: a
    rejection reaches the console through the [.catch] handler. *)
Definition settle (d : Detached) : option string :=
  match outcome d with
  | Normal _ => None
  | Throw _ => Some (onRejected d)
  end.

Definition drain (w : World) : list string := omap settle (spawned w).

(** One tool invocation followed by the settlement of what it started: the
    tool's result, the world it leaves, and the console lines. *)
Definition invoke {A} (tool : M World A) (w : World)
  : Completion A * World * list string :=
  let (r, w') := tool w in
  (r, w', drain (mkWorld (db w') (skipn (length (spawned w)) (spawned w')))).

(** [logIntent]: a failed write is swallowed. *)
Definition logIntent (intent : string) (meta : JsValue) : M World unit :=
  tryCatch (onDb (modify (with_intentLog (fun rows => rows ++ [mkIntentLog intent meta]))))
           (fun _ => ret tt).

Definition optStr (o : option string) : JsValue :=
  match o with Some s => JStr s | None => JUndefined end.

(** An optional string argument as a condition. *)
Definition given (o : option string) : option string :=
  match o with
  | Some s => if String.eqb s "" then None else Some s
  | None => None
  end.

Definition okFalse (key msg : string) : JsValue :=
  JObj [("ok", JBool false); (key, JStr msg)].

(** [getPolicy]. *)
Definition getPolicy : M World JsValue :=
  do cfg <- onDb businessConfig_findFirst;
  ret (JObj [("kbMinConfidence",
              JNum (default (55 # 100)%Q (cfg ≫= kbMinConfidence)));
             ("lowConfidenceAction",
              JStr (default "ask_clarify" (cfg ≫= lowConfidenceAction)))]).

Section WithFormatting.

(** [Date.prototype.toLocaleDateString('en-US', ...)], with or without the
    year, and the text of a [Decimal] price in a template literal. *)
Variable toLocaleDateString : bool -> Z -> string.
Variable decimalToString : Q -> string.
(** [Number.prototype.toFixed(2)]. *)
Variable toFixed2 : Q -> string.

Definition priceLine (online gate : Q) : string :=
  ("$" ++ decimalToString online ++ " online / $" ++ decimalToString gate ++ " at gate")%string.

(** One entry of [eventList]. *)
Definition eventView (row : EventRow) : JsValue :=
  let e := snd row in
  JObj [("name", JStr (name e));
        ("date", JStr (toLocaleDateString true (date e)));
        ("location", JStr (location e));
        ("address", match address e with Some a => JStr a | None => JNull end);
        ("gaPrice", JStr (priceLine (gaPriceOnline e) (gaPriceGate e)));
        ("vipPrice", JStr (priceLine (vipPriceOnline e) (vipPriceGate e)));
        ("gaAvailable", JInt (gaCapacity e - gaSold e));
        ("vipAvailable", JInt (vipCapacity e - vipSold e))].

Definition eventInfoMeta (eventName : option (option string)) : JsValue :=
  match eventName with
  | None => JUndefined
  | Some n => JObj [("eventName", optStr n)]
  end.

(** [getEventInfo(args?)]: [args] is [None] when the tool is called without
    an argument object; [now] is the value of [new Date()]. *)
Definition getEventInfo (now : Z) (args : option (option string)) : M World JsValue :=
  exec logIntent "getEventInfo" (eventInfoMeta args);
  do events <- onDb (event_findMany now (given (args ≫= (fun n => n))) 3);
  match events with
  | [] => ret (okFalse "message" "No upcoming events found")
  | next :: _ =>
      let eventList := List.map eventView events in
      ret (JObj [("ok", JBool true);
                 ("events", JArr eventList);
                 ("nextEvent", eventView next)])
  end.

(** [getTicketPricing(args?)]. *)
Definition getTicketPricing (now : Z) (args : option (option string)) : M World JsValue :=
  exec logIntent "getTicketPricing"
    (match args with
     | None => JUndefined
     | Some i => JObj [("eventId", optStr i)]
     end);
  do prices <- onDb (getTicketPrices now (args ≫= (fun i => i)));
  match prices with
  | None => ret (okFalse "message" "No events available for ticket purchase")
  | Some prices =>
      ret (JObj
        [("ok", JBool true);
         ("eventName", JStr (name (prices_event prices)));
         ("eventDate", JStr (toLocaleDateString false (date (prices_event prices))));
         ("generalAdmission", JObj
            [("online", JNum (gaOnline prices));
             ("atGate", JNum (gaGate prices));
             ("available", JInt (gaAvailable prices));
             ("includes", JStr "Event entry, tasting spoon, voting card, and program")]);
         ("vip", JObj
            [("online", JNum (vipOnline prices));
             ("atGate", JNum (vipGate prices));
             ("available", JInt (vipAvailable prices));
             ("includes", JStr "Early entry (30 min before GA), commemorative soup bowl, grocery bag, soup tray, spoon, voting card, and program")])])
  end.

(** ** Purchases *)

Record PurchaseTicketsArgs : Type := mkPurchaseArgs {
  a_ticketType : TicketType;
  a_quantity : Z;
  a_customerName : string;
  a_customerEmail : string;
  a_customerPhone : string;
  a_card : CardDetails;
  a_eventId : option string;
  a_callSid : option string
}.

Variable stripe : Stripe.

(** How the promises of the notification calls settle. *)
Variable deliver : SideEffect -> Completion unit.

Definition fallbackPrice (t : TicketType) (event : option Event) : Q :=
  match t, event with
  | VIP, Some e => vipPriceOnline e
  | VIP, None => 35
  | GA, Some e => gaPriceOnline e
  | GA, None => 15
  end.

Definition eventNameOr (event : option Event) : string :=
  match event with Some e => orElse (name e) "Soup Cook Off" | None => "Soup Cook Off" end.

Definition purchaseMessage (code : option string) (email : string) : string :=
  ("Your purchase is complete! Your confirmation code is " ++ showOpt code
     ++ ". I've sent a text message to your phone with all the details. You'll also receive a confirmation email at "
     ++ email ++ ".")%string.

(** [purchaseTickets(args)]; [now] is [new Date()] and [uuid] the value of
    [uuidv4()] inside [processVoicePayment]. *)
Definition purchaseTickets (now : Z) (uuid : string) (args : PurchaseTicketsArgs)
  : M World JsValue :=
  exec logIntent "purchaseTickets"
    (JObj [("ticketType", JStr (ticketTypeName (a_ticketType args)));
           ("quantity", JInt (a_quantity args));
           ("customerEmail", JStr (a_customerEmail args))]);
  do eventId <-
    match given (a_eventId args) with
    | Some i => ret (Some i)
    | None => do nextEvent <- onDb (event_findFirst now); ret (option_map fst nextEvent)
    end;
  match eventId with
  | None => ret (okFalse "error" "No upcoming events available")
  | Some eventId =>
      do callLogId <-
        match given (a_callSid args) with
        | Some sid =>
            do callLog <- onDb (callLog_findUnique sid);
            ret (option_map callLog_id callLog)
        | None => ret None
        end;
      do result <- onDb (processVoicePayment stripe uuid
                           (mkRequest eventId (a_ticketType args) (a_quantity args)
                              (a_customerName args) (a_customerEmail args)
                              (a_customerPhone args) callLogId)
                           (a_card args));
      if success result
      then
        do event <- onDb (event_findUnique eventId);
        let unitPrice := fallbackPrice (a_ticketType args) event in
        let totalPrice :=
          ("$" ++ toFixed2 (unitPrice * inject_Z (a_quantity args)))%string in
        exec detach deliver
          (sendTicketConfirmation
             (JObj [("to", JStr (a_customerPhone args));
                    ("customerName", JStr (a_customerName args));
                    ("eventName", JStr (eventNameOr event));
                    ("eventDate",
                     JStr (match event with
                           | Some e => orElse (toLocaleDateString true (date e)) "TBD"
                           | None => "TBD"
                           end));
                    ("eventLocation",
                     JStr (match event with
                           | Some e => orElse (location e) "TBD"
                           | None => "TBD"
                           end));
                    ("ticketType", JStr (ticketTypeName (a_ticketType args)));
                    ("quantity", JInt (a_quantity args));
                    ("confirmationCode", optStr (confirmationCode result));
                    ("totalPrice", JStr totalPrice)]))
          "SMS send failed:";
        exec detach deliver
          (notifyTicketPurchase
             (JObj [("customerName", JStr (a_customerName args));
                    ("customerPhone", JStr (a_customerPhone args));
                    ("eventName", JStr (eventNameOr event));
                    ("ticketType", JStr (ticketTypeName (a_ticketType args)));
                    ("quantity", JInt (a_quantity args));
                    ("totalPrice", JStr totalPrice);
                    ("confirmationCode", optStr (confirmationCode result))]))
          "Slack notification failed:";
        ret (JObj [("ok", JBool true);
                   ("confirmationCode", optStr (confirmationCode result));
                   ("smsSent", JBool true);
                   ("message",
                    JStr (purchaseMessage (confirmationCode result) (a_customerEmail args)))])
      else ret (JObj [("ok", JBool false); ("error", optStr (error result))])
  end.

(** ** Sponsor inquiries *)

Record SponsorInquiryArgs : Type := mkSponsorArgs {
  contactName : string;
  companyName : option string;
  phone : string;
  email : option string;
  interestedLevel : option string;
  notes : option string;
  s_callSid : option string
}.

Definition sponsorArgsMeta (args : SponsorInquiryArgs) : JsValue :=
  JObj [("contactName", JStr (contactName args));
        ("companyName", optStr (companyName args));
        ("phone", JStr (phone args));
        ("email", optStr (email args));
        ("interestedLevel", optStr (interestedLevel args));
        ("notes", optStr (notes args));
        ("callSid", optStr (s_callSid args))].

Definition sponsorMessage : string :=
  "Thank you for your interest in sponsoring The Soup Cookoff! I've sent you a text message with more information. Our team will contact you within 48 hours.".

(** [captureSponsorInquiry(args)]. *)
Definition captureSponsorInquiry (args : SponsorInquiryArgs) : M World JsValue :=
  exec logIntent "captureSponsorInquiry" (sponsorArgsMeta args);
  exec onDb (modify (with_sponsorInquiry (fun rows => rows ++
         [mkSponsorInquiry (contactName args) (given (companyName args)) (phone args)
            (given (email args)) (given (interestedLevel args)) (given (notes args))])));
  let tier := default "General" (given (interestedLevel args)) in
  exec detach deliver
    (sendSponsorFollowUp
       (JObj [("to", JStr (phone args));
              ("contactName", JStr (contactName args));
              ("companyName", optStr (companyName args));
              ("tier", JStr tier)]))
    "Sponsor SMS send failed:";
  exec detach deliver
    (notifySponsorInquiry
       (JObj [("contactName", JStr (contactName args));
              ("companyName", optStr (companyName args));
              ("phone", JStr (phone args));
              ("email", optStr (email args));
              ("tier", JStr tier)]))
    "Slack notification failed:";
  ret (JObj [("ok", JBool true);
             ("smsSent", JBool true);
             ("message", JStr sponsorMessage)]).

End WithFormatting.

(** ** Confidence-gated answers *)

(** Modelled from the spec: the result type of [askKB], whose module
    ([src/services/kb.ts]) is not among the sources. A retrieval candidate has
    a passage text, a source identifier and a similarity score; the tool reads
    [res.context], [res.sources] and the optional [score] of the first
    source. *)
Record Source : Type := mkSource {
  passage : string;
  sourceId : string;
  score : option Q
}.

Record KBResult : Type := mkKB {
  context : string;
  sources : list Source
}.

Definition sourceJs (s : Source) : JsValue :=
  JObj [("text", JStr (passage s));
        ("source", JStr (sourceId s));
        ("score", match score s with Some q => JNum q | None => JUndefined end)].

Definition kbFields (res : KBResult) : list (string * JsValue) :=
  [("context", JStr (context res));
   ("sources", JArr (List.map sourceJs (sources res)))].

Record AnswerQuestionArgs : Type := mkQuestion {
  question : string;
  language : option string;
  q_callSid : option string
}.

(** [res.sources[0]?.score ?? 0]. *)
Definition topConfidenceOf (res : KBResult) : Q :=
  match sources res with
  | top :: _ => default 0%Q (score top)
  | [] => 0%Q
  end.

(** [a < b] on numbers. *)
Definition lessThan (a b : Q) : bool := negb (Qle_bool b a).

Definition minConfidenceOf (cfg : option BusinessConfig) : Q :=
  default (55 # 100)%Q (cfg ≫= kbMinConfidence).

Definition lowConfidenceActionOf (cfg : option BusinessConfig) : string :=
  default "ask_clarify" (cfg ≫= lowConfidenceAction).

Definition transferMessage : string :=
  "I'm not confident I have the right information for that question. Let me transfer you to someone who can help better.".

Definition voicemailMessage : string :=
  "I'm not sure I have the right answer for that. Would you like to leave a message and we'll get back to you with the correct information?".

Definition clarifyMessage : string :=
  "I'm not entirely sure about that. Could you rephrase your question or ask about something more specific like event dates, ticket prices, or sponsorship opportunities?".

(** The gated reply for a low-confidence retrieval. *)
Definition gatedReply (lowConfidenceAction : string) (res : KBResult) : JsValue :=
  if String.eqb lowConfidenceAction "transfer"
  then JObj [("ok", JBool false);
             ("lowConfidence", JBool true);
             ("action", JStr "TRANSFER");
             ("message", JStr transferMessage)]
  else if String.eqb lowConfidenceAction "voicemail"
  then JObj [("ok", JBool false);
             ("lowConfidence", JBool true);
             ("action", JStr "VOICEMAIL");
             ("message", JStr voicemailMessage)]
  else JObj [("ok", JBool false);
             ("lowConfidence", JBool true);
             ("action", JStr "CLARIFY");
             ("message", JStr clarifyMessage);
             ("partialContext", JStr (context res));
             ("sources", JArr (List.map sourceJs (sources res)))].

(** [{ ...res, ok: true, confidenceOk: true, topConfidence }]. *)
Definition approvedReply (res : KBResult) (topConfidence : Q) : JsValue :=
  JObj (spread (kbFields res)
          [("ok", JBool true);
           ("confidenceOk", JBool true);
           ("topConfidence", JNum topConfidence)]).

Section WithKnowledgeBase.

(** [askKB(question, lang)]. *)
Variable askKB : string -> string -> Completion KBResult.

Definition languageOf (args : AnswerQuestionArgs) : string :=
  toLowerCase (String.substring 0 5 (default "en" (given (language args)))).

(** [answerQuestion(args)]. *)
Definition answerQuestion (args : AnswerQuestionArgs) : M World JsValue :=
  exec logIntent "answerQuestion" (JObj [("question", JStr (question args))]);
  let lang := languageOf args in
  do res <- await (askKB (question args) lang);
  do cfg <- onDb businessConfig_findFirst;
  let minConfidence := minConfidenceOf cfg in
  let lowConfidenceAction := lowConfidenceActionOf cfg in
  exec tryCatch
    (do call <-
       match given (q_callSid args) with
       | Some sid => onDb (callLog_findUnique sid)
       | None => ret None
       end;
     onDb (modify (with_citationsLog (fun rows => rows ++
       [mkCitationsLog (option_map callLog_id call ≫= (fun i => given (Some i)))
          (given (q_callSid args)) (question args) lang
          (JArr (List.map sourceJs (sources res)))]))))
    (fun _ => ret tt);
  let topConfidence := topConfidenceOf res in
  if lessThan topConfidence minConfidence
  then
    exec logIntent "lowConfidenceKB"
      (JObj [("question", JStr (question args));
             ("confidence", JNum topConfidence);
             ("action", JStr lowConfidenceAction)]);
    ret (gatedReply lowConfidenceAction res)
  else ret (approvedReply res topConfidence).

End WithKnowledgeBase.

(** ** Dispatch *)

Section Dispatch.

(** Whatever the registered tools work on. *)
Variable S : Type.

Definition Tool : Type := JsValue -> M S JsValue.

(** The property names every object inherits from [Object.prototype]. *)
Definition objectPrototypeKeys : list string :=
  ["constructor"; "__defineGetter__"; "__defineSetter__"; "hasOwnProperty";
   "__lookupGetter__"; "__lookupSetter__"; "isPrototypeOf";
   "propertyIsEnumerable"; "toString"; "valueOf"; "__proto__"; "toLocaleString"].

(** What [(tools as any)[name]] evaluates to: an own property of the
    registry object, a member inherited through its prototype, or
    [undefined]. *)
Inductive Property : Type :=
| OwnTool (tool : Tool)
| Inherited (key : string)
| Absent.

Definition lookupProperty (tools : gmap string Tool) (name : string) : Property :=
  match tools !! name with
  | Some tool => OwnTool tool
  | None =>
      if bool_decide (name ∈ objectPrototypeKeys) then Inherited name else Absent
  end.

(** The text of the engine's [TypeError] when a built-in of [Object.prototype]
    is called without a receiver. *)
Variable receiverErrorText : string -> string.

(** [tool(args)] when [tool] is an inherited member: a call with [this]
    undefined. [Object(args)] is rendered as [args] itself when it is not
    nullish. *)
Definition callInherited (key : string) (args : JsValue) : Completion JsValue :=
  if String.eqb key "toString" then Normal (JStr "[object Undefined]")
  else if String.eqb key "constructor" then
    Normal (match args with JUndefined | JNull => JObj [] | v => v end)
  else if String.eqb key "isPrototypeOf" then
    match args with
    | JObj _ | JArr _ => Throw (TypeError (receiverErrorText key))
    | _ => Normal (JBool false)
    end
  else if String.eqb key "__proto__" then Throw (TypeError "tool is not a function")
  else Throw (TypeError (receiverErrorText key)).

Definition unknownTool (name : string) : JsValue :=
  JObj [("error", JStr ("Unknown tool: " ++ name)%string)].

Definition toolError (err : JsError) : JsValue :=
  JObj [("error", JStr (orElse (message err) "Tool execution failed"))].

(** [handleToolCall(name, args)]. *)
Definition handleToolCall (tools : gmap string Tool) (name : string) (args : JsValue)
  : M S JsValue :=
  match lookupProperty tools name with
  | Absent => ret (unknownTool name)
  | OwnTool tool => tryCatch (tool args) (fun err => ret (toolError err))
  | Inherited key =>
      tryCatch (await (callInherited key args)) (fun err => ret (toolError err))
  end.

End Dispatch.

End Tools.

Import Tools.

(* ===================================================================== *)
(** * Payment webhooks ([handlePaymentSuccess], [handlePaymentFailed] and
      [src/routes/stripeWebhook.ts]) *)
(* ===================================================================== *)

Module PaymentWebhooks.

Definition isDigit (c : ascii) : bool :=
  let n := nat_of_ascii c in (Nat.leb 48 n && Nat.leb n 57)%bool.

Fixpoint trimStart (s : string) : string :=
  match s with
  | String c rest => if isSpace c then trimStart rest else s
  | EmptyString => EmptyString
  end.

(** The longest run of decimal digits a text starts with. *)
Fixpoint digitPrefix (s : string) : string :=
  match s with
  | String c rest => if isDigit c then String c (digitPrefix rest) else EmptyString
  | EmptyString => EmptyString
  end.

Definition hexValue (c : ascii) : option Z :=
  let n := nat_of_ascii c in
  if (Nat.leb 48 n && Nat.leb n 57)%bool then Some (Z.of_nat (n - 48))
  else if (Nat.leb 97 n && Nat.leb n 102)%bool then Some (Z.of_nat (n - 87))
  else if (Nat.leb 65 n && Nat.leb n 70)%bool then Some (Z.of_nat (n - 55))
  else None.

(** The value of the longest run of hexadecimal digits; [acc] is [None] until
    a first digit is read. *)
Fixpoint parseHex (s : string) (acc : option Z) : option Z :=
  match s with
  | String c rest =>
      match hexValue c with
      | Some v => parseHex rest (Some (default 0 acc * 16 + v))
      | None => acc
      end
  | EmptyString => acc
  end.

Definition parseDecimal (s : string) : option Z :=
  match digitPrefix s with
  | EmptyString => None
  | digits => Z.of_uint <$> NilEmpty.uint_of_string digits
  end.

Definition parseUnsigned (s : string) : option Z :=
  match s with
  | String "0" (String "x" rest) => parseHex rest None
  | String "0" (String "X" rest) => parseHex rest None
  | _ => parseDecimal s
  end.

(** [parseInt(s)] with no radix; [None] is [NaN]. White space is the ASCII
    one. *)
Definition parseInt (s : string) : option Z :=
  match trimStart s with
  | String "-" rest => Z.opp <$> parseUnsigned rest
  | String "+" rest => parseUnsigned rest
  | rest => parseUnsigned rest
  end.

(** The [Stripe.PaymentIntent] a webhook carries: its id and its metadata. *)
Record WebhookIntent : Type := mkWebhookIntent {
  intent_id : string;
  intent_metadata : option (list (string * string))
}.

Fixpoint assoc (k : string) (l : list (string * string)) : option string :=
  match l with
  | [] => None
  | (k', v) :: rest => if String.eqb k k' then Some v else assoc k rest
  end.

(** [metadata?.k]. *)
Definition metadataField (k : string) (pi : WebhookIntent) : option string :=
  intent_metadata pi ≫= assoc k.

Definition setStatus (status : string) (row : TicketPurchase) : TicketPurchase :=
  mkTicketPurchase (tp_eventId row) (tp_ticketType row) (tp_quantity row)
    (tp_unitPrice row) (tp_totalPrice row) (tp_customerName row)
    (tp_customerEmail row) (tp_customerPhone row) (tp_stripePaymentId row)
    status (tp_confirmationCode row) (tp_callLogId row).

(** [prisma.ticketPurchase.updateMany({ where: { stripePaymentId }, data:
    { paymentStatus } })]. *)
Definition ticketPurchase_updateMany (stripePaymentId status : string) : M Db unit :=
  modify (with_ticketPurchase
            (List.map (fun row =>
               if String.eqb (tp_stripePaymentId row) stripePaymentId
               then setStatus status row else row))).

Definition validationError : JsError :=
  mkError "PrismaClientValidationError" "Invalid `prisma.event.update()` invocation".

(** [handlePaymentSuccess(paymentIntent)]. An absent event id or a [NaN]
    increment is refused by the Prisma client before any write. *)
Definition handlePaymentSuccess (paymentIntent : WebhookIntent) : M Db unit :=
  match given (metadataField "confirmationCode" paymentIntent) with
  | None => ret tt
  | Some _ =>
      exec ticketPurchase_updateMany (intent_id paymentIntent) "completed";
      let eventId := metadataField "eventId" paymentIntent in
      let ticketType := metadataField "ticketType" paymentIntent in
      let quantity :=
        parseInt (default "1" (given (metadataField "quantity" paymentIntent))) in
      match eventId, quantity with
      | Some eventId, Some quantity =>
          if bool_decide (ticketType = Some "VIP")
          then event_update eventId (incrementSold VIP quantity)
          else event_update eventId (incrementSold GA quantity)
      | _, _ => throw validationError
      end
  end.

(** [handlePaymentFailed(paymentIntent)]. *)
Definition handlePaymentFailed (paymentIntent : WebhookIntent) : M Db unit :=
  ticketPurchase_updateMany (intent_id paymentIntent) "failed".

(** ** The webhook route *)

Inductive StripeEvent : Type :=
| payment_intent_succeeded (paymentIntent : WebhookIntent)
| payment_intent_payment_failed (paymentIntent : WebhookIntent)
| charge_refunded (chargeId : string)
| other_event (type : string).

Record WebhookRequest : Type := mkWebhookRequest {
  stripe_signature : option string;
  rawBody : string
}.

Record Response : Type := mkResponse {
  statusCode : Z;
  responseBody : JsValue
}.

Section WithStripeWebhooks.

(** [process.env.STRIPE_WEBHOOK_SECRET] and
    [stripe.webhooks.constructEvent(body, sig, secret)]. *)
Variable endpointSecret : option string.
Variable constructEvent : string -> string -> string -> Completion StripeEvent.

(** [router.post('/webhook', ...)]. A thrown error is a rejected handler: no
    response is written. *)
Definition webhook (req : WebhookRequest) : M Db Response :=
  match given (stripe_signature req), given endpointSecret with
  | Some sig, Some secret =>
      match constructEvent (rawBody req) sig secret with
      | Throw err =>
          ret (mkResponse 400 (JStr ("Webhook Error: " ++ message err)%string))
      | Normal event =>
          exec match event with
               | payment_intent_succeeded pi => handlePaymentSuccess pi
               | payment_intent_payment_failed pi => handlePaymentFailed pi
               | charge_refunded _ => ret tt
               | other_event _ => ret tt
               end;
          ret (mkResponse 200 (JObj [("received", JBool true)]))
      end
  | _, _ => ret (mkResponse 400 (JStr "Missing signature"))
  end.

End WithStripeWebhooks.

End PaymentWebhooks.

(* ===================================================================== *)
(** * Text messages ([src/services/sms.ts]) *)
(* ===================================================================== *)

Module Sms.

Record SMSOptions : Type := mkSMS {
  to : string;
  body : string;
  mediaUrl : option (list string)
}.

(** The argument of [twilioClient.messages.create]. *)
Record MessageOptions : Type := mkMessage {
  m_to : string;
  m_body : string;
  m_messagingServiceSid : option string;
  m_from : option string;
  m_mediaUrl : option (list string)
}.

Record SmsResult : Type := mkSmsResult {
  success : bool;
  sid : option string;
  error : option string
}.

Definition smsFailed (msg : string) : SmsResult := mkSmsResult false None (Some msg).

(** [to.replace(/\D/g, '')]. *)
Fixpoint digitsOf (s : string) : string :=
  match s with
  | String c rest =>
      if PaymentWebhooks.isDigit c then String c (digitsOf rest) else digitsOf rest
  | EmptyString => EmptyString
  end.

Definition formatPhone (cleanPhone : string) : string :=
  if String.prefix "1" cleanPhone then ("+" ++ cleanPhone)%string
  else ("+1" ++ cleanPhone)%string.

Definition newline : string := String (ascii_of_nat 10) EmptyString.

Section WithTwilio.

(** [process.env.TWILIO_VOICE_NUMBER] and
    [process.env.TWILIO_MESSAGING_SERVICE_SID]. *)
Variable FROM_NUMBER : option string.
Variable MESSAGING_SERVICE_SID : option string.

(** How Twilio answers [messages.create]: a message sid, or a thrown error. *)
Variable twilio : MessageOptions -> Completion string.

(** [twilioClient.messages.create(options)]; the store is the list of
    requests made to Twilio. *)
Definition messages_create (options : MessageOptions) : M (list MessageOptions) string :=
  fun requests => (twilio options, requests ++ [options]).

(** [sendSMS(options)]. *)
Definition sendSMS (options : SMSOptions) : M (list MessageOptions) SmsResult :=
  let cleanPhone := digitsOf (to options) in
  if Nat.ltb (String.length cleanPhone) 10
  then ret (smsFailed "Invalid phone number")
  else
    let formattedPhone := formatPhone cleanPhone in
    tryCatch
      (let media :=
         match mediaUrl options with
         | Some (u :: us) => Some (u :: us)
         | _ => None
         end in
       match given MESSAGING_SERVICE_SID, given FROM_NUMBER with
       | Some service, _ =>
           do sid <- messages_create
                       (mkMessage formattedPhone (body options) (Some service) None media);
           ret (mkSmsResult true (Some sid) None)
       | None, Some from =>
           do sid <- messages_create
                       (mkMessage formattedPhone (body options) None (Some from) media);
           ret (mkSmsResult true (Some sid) None)
       | None, None => ret (smsFailed "No SMS sender configured")
       end)
      (fun err => ret (mkSmsResult false None (Some (message err)))).

Record TicketConfirmation : Type := mkTicketConfirmation {
  tc_to : string;
  tc_customerName : string;
  tc_eventName : string;
  tc_eventDate : string;
  tc_eventLocation : string;
  tc_ticketType : string;
  tc_quantity : Z;
  tc_confirmationCode : string;
  tc_totalPrice : string
}.

Definition ticketConfirmationBody (o : TicketConfirmation) : string :=
  ("Soup Cook Off Ticket Confirmation" ++ newline ++ newline
   ++ "Hi " ++ tc_customerName o ++ "!" ++ newline ++ newline
   ++ "Your tickets are confirmed:" ++ newline
   ++ "- Event: " ++ tc_eventName o ++ newline
   ++ "- Date: " ++ tc_eventDate o ++ newline
   ++ "- Location: " ++ tc_eventLocation o ++ newline
   ++ "- Tickets: " ++ numberToString (tc_quantity o) ++ "x " ++ tc_ticketType o ++ newline
   ++ "- Total: " ++ tc_totalPrice o ++ newline
   ++ "- Confirmation: " ++ tc_confirmationCode o ++ newline ++ newline
   ++ "Show this text at the door or visit soupcookoff.com/tickets to download."
   ++ newline ++ newline
   ++ "Questions? Reply to this text or call us back." ++ newline ++ newline
   ++ "Thank you for supporting the AKT Foundation!")%string.

(** [sendTicketConfirmation(options)]. *)
Definition sendTicketConfirmation (o : TicketConfirmation)
  : M (list MessageOptions) SmsResult :=
  sendSMS (mkSMS (tc_to o) (ticketConfirmationBody o) None).

Definition sponsorFollowUpBody (contactName : string) (companyName : option string)
  (tier : string) : string :=
  ("Hi " ++ contactName ++ "!" ++ newline ++ newline
   ++ "Thank you for your interest in sponsoring The Soup Cook Off"
   ++ match given companyName with
      | Some c => " on behalf of " ++ c
      | None => ""
      end
   ++ "." ++ newline ++ newline
   ++ "You inquired about our " ++ tier
   ++ " sponsorship package. A member of our team will reach out within 24 hours to discuss the details."
   ++ newline ++ newline
   ++ "In the meantime, visit soupcookoff.com/sponsor for more info."
   ++ newline ++ newline
   ++ "- The Soup Cook Off Team")%string.

(** [sendSponsorFollowUp(options)]. *)
Definition sendSponsorFollowUp (to contactName : string) (companyName : option string)
  (tier : string) : M (list MessageOptions) SmsResult :=
  sendSMS (mkSMS to (sponsorFollowUpBody contactName companyName tier) None).

End WithTwilio.

(** ** The transcript quoted in a voicemail notification *)

(** A transcript is speech put into text and may hold any character, so it
    is kept as JavaScript keeps it: a sequence of UTF-16 code units, which is
    what [length] and [substring] count. *)
Definition Utf16 : Type := list N.

(** The code units of a literal within ASCII. *)
Definition units (s : string) : Utf16 := List.map N_of_ascii (list_ascii_of_string s).

(** [`${transcript.substring(0, 300)}${transcript.length > 300 ? '...' : ''}`]
    in [sendVoicemailNotification]. *)
Definition transcriptExcerpt (transcript : Utf16) : Utf16 :=
  firstn 300 transcript
  ++ (if Nat.ltb 300 (length transcript) then units "..." else []).

End Sms.

(* ===================================================================== *)
(** * Slack notifications ([src/services/notifications.ts]) *)
(* ===================================================================== *)

Module Notifications.

Record SlackMessage : Type := mkSlackMessage {
  text : string;
  username : option string;
  icon_emoji : option string;
  attachments : JsValue
}.

Record SlackResult : Type := mkSlackResult {
  success : bool;
  error : option string
}.

(** What [fetch] resolves to: [response.ok] and [response.status]. *)
Record FetchResponse : Type := mkFetchResponse {
  ok : bool;
  status : Z
}.

(** A request made to the Slack webhook. *)
Record SlackPost : Type := mkSlackPost {
  url : string;
  payload : JsValue
}.

Section WithSlack.

(** [process.env.SLACK_WEBHOOK_URL] and the outcome of [fetch]. *)
Variable SLACK_WEBHOOK_URL : option string.
Variable fetch : SlackPost -> Completion FetchResponse.

Definition post (p : SlackPost) : M (list SlackPost) FetchResponse :=
  fun requests => (fetch p, requests ++ [p]).

(** [sendSlackNotification(message)]; the store is the list of requests made
    to Slack. *)
Definition sendSlackNotification (message : SlackMessage) : M (list SlackPost) SlackResult :=
  match given SLACK_WEBHOOK_URL with
  | None => ret (mkSlackResult true None)
  | Some webhook =>
      tryCatch
        (do response <- post (mkSlackPost webhook
             (JObj [("text", JStr (text message));
                    ("username", JStr (default "Soup Cookoff Bot" (given (username message))));
                    ("icon_emoji",
                     JStr (default ":bowl_with_spoon:" (given (icon_emoji message))));
                    ("attachments", attachments message)]));
         if negb (ok response)
         then throw (mkError "Error"
                       ("Slack returned " ++ numberToString (status response))%string)
         else ret (mkSlackResult true None))
        (fun err => ret (mkSlackResult false (Some (Js.message err))))
  end.

Definition field (title value : string) (short : bool) : JsValue :=
  JObj [("title", JStr title); ("value", JStr value); ("short", JBool short)].

Definition footer (now : Z) : list (string * JsValue) :=
  [("footer", JStr "Soup Cookoff Voice Assistant"); ("ts", JInt (now / 1000))].

(** [notifyTicketPurchase(options)]; [now] is [Date.now()]. *)
Definition notifyTicketPurchase (now : Z)
  (customerName customerPhone eventName ticketType : string) (quantity : Z)
  (totalPrice confirmationCode : string) : M (list SlackPost) unit :=
  exec sendSlackNotification
    (mkSlackMessage "New ticket purchase!" None (Some ":ticket:")
       (JArr [JObj ([("color", JStr "#198754");
                     ("title", JStr (numberToString quantity ++ "x " ++ ticketType
                                       ++ " Tickets Sold")%string);
                     ("fields", JArr [field "Customer" customerName true;
                                      field "Phone" customerPhone true;
                                      field "Event" eventName true;
                                      field "Total" totalPrice true;
                                      field "Confirmation" confirmationCode false])]
                    ++ footer now)]));
  ret tt.

(** [notifySponsorInquiry(options)]. *)
Definition notifySponsorInquiry (now : Z) (contactName : string)
  (companyName : option string) (phone : string) (email : option string)
  (tier : string) : M (list SlackPost) unit :=
  exec sendSlackNotification
    (mkSlackMessage "New sponsorship inquiry!" None (Some ":star:")
       (JArr [JObj ([("color", JStr "#ffc107");
                     ("title", JStr (tier ++ " Sponsorship Interest")%string);
                     ("fields", JArr [field "Contact" contactName true;
                                      field "Company"
                                        (default "Individual" (given companyName)) true;
                                      field "Phone" phone true;
                                      field "Email"
                                        (default "Not provided" (given email)) true])]
                    ++ footer now)]));
  ret tt.

(** [notifyTransferRequest(options)]. *)
Definition notifyTransferRequest (now : Z) (fromNumber : string)
  (callerName reason : option string) : M (list SlackPost) unit :=
  exec sendSlackNotification
    (mkSlackMessage "Call transfer requested - caller wants to speak with a human"
       None (Some ":telephone_receiver:")
       (JArr [JObj ([("color", JStr "#dc3545");
                     ("title", JStr "Transfer Request");
                     ("fields", JArr [field "Caller"
                                        (default "Unknown" (given callerName)) true;
                                      field "Phone" fromNumber true;
                                      field "Reason"
                                        (default "Not specified" (given reason)) false])]
                    ++ footer now)]));
  ret tt.

End WithSlack.

End Notifications.

(* ===================================================================== *)
(** * More of the tool registry *)
(* ===================================================================== *)

Module MoreTools.

(** Running a computation on one half of a paired store. *)
Definition onFst {A B X} (c : M A X) : M (A * B) X :=
  fun s => let (r, a) := c (fst s) in (r, (a, snd s)).

Definition onSnd {A B X} (c : M B X) : M (A * B) X :=
  fun s => let (r, b) := c (snd s) in (r, (fst s, b)).

(** Text within ASCII: there a string of this development and the
    JavaScript string it stands for have the same characters one for one, and
    [toLowerCase] changes nothing but the letters A to Z. *)
Definition isAscii (s : string) : bool :=
  forallb (fun c => Nat.ltb (nat_of_ascii c) 128) (list_ascii_of_string s).

(** [(lang || 'en').substring(0, 5).toLowerCase()], for a language tag
    within ASCII. *)
Definition normalizeLanguage (lang : option string) : string :=
  toLowerCase (String.substring 0 5 (default "en" (given lang))).

(** [setLanguage(args)]; the second store is the [LanguageLog] table, whose
    failed writes are swallowed. *)
Definition setLanguage (lang : option string) : M (World * list string) JsValue :=
  let lang := normalizeLanguage lang in
  exec tryCatch (onSnd (modify (fun rows => rows ++ [lang]))) (fun _ => ret tt);
  exec onFst (logIntent "setLanguage" (JObj [("lang", JStr lang)]));
  ret (JObj [("ok", JBool true); ("lang", JStr lang)]).

Record TransferArgs : Type := mkTransferArgs {
  reason : option string;
  callerPhone : option string;
  callerName : option string
}.

(** [transferToHuman(args)]; [deliver] says how the promise of the Slack
    notification settles. *)
Definition transferToHuman (deliver : SideEffect -> Completion unit)
  (args : TransferArgs) : M World JsValue :=
  exec logIntent "transferToHuman"
    (JObj [("reason", optStr (reason args));
           ("callerPhone", optStr (callerPhone args));
           ("callerName", optStr (callerName args))]);
  exec detach deliver
    (notifyTransferRequest
       (JObj [("fromNumber", JStr (default "Unknown" (given (callerPhone args))));
              ("callerName", optStr (callerName args));
              ("reason", optStr (reason args))]))
    "Slack transfer notification failed:";
  ret (JObj [("ok", JBool true);
             ("reason", JStr (default "unspecified" (given (reason args))));
             ("action", JStr "TRANSFER")]).

Record MessageArgs : Type := mkMessageArgs {
  subject : option string;
  details : option string;
  contact : option string
}.

(** [takeMessage(args)]; [random36] is the text of
    [Math.random().toString(36)]. *)
Definition takeMessage (random36 : string) (args : MessageArgs) : M World JsValue :=
  let captured := JObj [("subject", optStr (subject args));
                        ("details", optStr (details args));
                        ("contact", optStr (contact args))] in
  exec logIntent "takeMessage" captured;
  ret (JObj [("ok", JBool true);
             ("ticketId", JStr ("MSG-" ++ toUpperCase (String.substring 2 6 random36))%string);
             ("captured", captured)]).

Section WithTwilio.

Variable FROM_NUMBER : option string.
Variable MESSAGING_SERVICE_SID : option string.
Variable twilio : Sms.MessageOptions -> Completion string.

(** [sendTextMessage(args)]: the text is sent before the tool answers. *)
Definition sendTextMessage (to message : string)
  : M (World * list Sms.MessageOptions) JsValue :=
  exec onFst (logIntent "sendTextMessage" (JObj [("to", JStr to)]));
  do result <- onSnd (Sms.sendSMS FROM_NUMBER MESSAGING_SERVICE_SID twilio
                        (Sms.mkSMS to message None));
  if Sms.success result
  then ret (JObj [("ok", JBool true);
                  ("message", JStr ("I've sent a text message to " ++ to ++ ".")%string)])
  else ret (JObj [("ok", JBool false);
                  ("error", JStr (default "Failed to send SMS" (given (Sms.error result))))]).

End WithTwilio.

(** The keys of the [tools] object, and the names in [toolSpecs], in source
    order. *)
Definition toolKeys : list string :=
  ["getPolicy"; "setLanguage"; "getEventInfo"; "getTicketPricing"; "purchaseTickets";
   "getSponsorshipInfo"; "captureSponsorInquiry"; "getPastWinners"; "getChefInfo";
   "getAboutInfo"; "transferToHuman"; "bookAppointment"; "takeMessage";
   "answerQuestion"; "sendTextMessage"].

Definition toolSpecNames : list string :=
  ["getEventInfo"; "getTicketPricing"; "purchaseTickets"; "getSponsorshipInfo";
   "captureSponsorInquiry"; "getPastWinners"; "getChefInfo"; "getAboutInfo";
   "transferToHuman"; "bookAppointment"; "takeMessage"; "answerQuestion";
   "sendTextMessage"].

End MoreTools.

(* ===================================================================== *)
(** * The Redis handle ([getRedis]) *)
(* ===================================================================== *)

Module Redis.

(** The module-level [_redis] variable, and how many times [new Redis(...)]
    has been evaluated. A client is known by the URL it was built with. *)
Record RedisState : Type := mkRedisState {
  _redis : option string;
  constructions : nat
}.

Section WithEnv.

(** [process.env.REDIS_URL], and whether [new Redis(url, ...)] throws. *)
Variable REDIS_URL : option string.
Variable newRedis : string -> Completion unit.

Definition redisUrl : string := default "redis://localhost:6379" (given REDIS_URL).

(** [getRedis()]: [None] is [null]. *)
Definition getRedis (s : RedisState) : option string * RedisState :=
  match _redis s, given REDIS_URL with
  | None, Some _ =>
      match newRedis redisUrl with
      | Normal _ => (Some redisUrl, mkRedisState (Some redisUrl) (S (constructions s)))
      | Throw _ => (None, mkRedisState None (S (constructions s)))
      end
  | client, _ => (client, s)
  end.

End WithEnv.

End Redis.

(* ===================================================================== *)
(** * The keypad menu ([router.post('/voice/route')]) *)
(* ===================================================================== *)

Module VoiceRoutes.

(** The TwiML verbs the route emits, in document order. *)
Inductive Verb : Type :=
| Say (text : string)
| ConnectStream (url : string)
| Redirect (url : string)
| Dial (number : string)
| RecordMessage (maxLength : Z) (transcribeCallback finishOnKey : string).

Fixpoint trimEnd (s : string) : string :=
  match s with
  | String c rest =>
      let rest' := trimEnd rest in
      if (isSpace c && String.eqb rest' "")%bool then EmptyString else String c rest'
  | EmptyString => EmptyString
  end.

Definition trim (s : string) : string := trimEnd (PaymentWebhooks.trimStart s).

(** [/w1|w2|.../i.test(speech)] on a lower-cased [speech]. *)
Definition mentions (words : list string) (speech : string) : bool :=
  existsb (fun w => includes w speech) words.

(** [url.replace(/\/$/, '')]. *)
Fixpoint dropTrailingSlash (s : string) : string :=
  match s with
  | String "/" EmptyString => EmptyString
  | String c rest => String c (dropTrailingSlash rest)
  | EmptyString => EmptyString
  end.

Definition voicemailRecord : Verb := RecordMessage 120 "/voice/voicemail" "#".

Section WithEnv.

Variable PUBLIC_BASE_URL : option string.
Variable TWILIO_AGENT_TRANSFER_NUMBER : option string.
Variable toLocaleDateString : bool -> Z -> string.
Variable decimalToString : Q -> string.

Definition nextEventText (e : Event) : string :=
  ("Our next Soup Cookoff is the " ++ name e ++ " on " ++ toLocaleDateString true (date e)
   ++ " at " ++ location e ++ ". "
   ++ "General admission is $" ++ decimalToString (gaPriceOnline e)
   ++ " online or $" ++ decimalToString (gaPriceGate e) ++ " at the gate. "
   ++ "VIP tickets are $" ++ decimalToString (vipPriceOnline e) ++ " online. "
   ++ "Would you like to purchase tickets? Press 2 now, or visit soup cook off dot com.")%string.

(** The handler of [POST /voice/route]; [now] is [new Date()]. *)
Definition voiceRoute (now : Z) (Digits SpeechResult : option string) : M Db (list Verb) :=
  let slot := trim (default "" Digits) in
  let speech := toLowerCase (default "" SpeechResult) in
  if (String.eqb slot "9" || mentions ["assistant"; "ai"; "voice"; "help"] speech)%bool
  then
    let baseUrl := default "" (given (dropTrailingSlash <$> PUBLIC_BASE_URL)) in
    ret [ConnectStream (baseUrl ++ "/media")%string;
         Say "Connecting you to our voice assistant. One moment please."]
  else if (String.eqb slot "1"
           || mentions ["event"; "when"; "where"; "date"; "location"; "next"] speech)%bool
  then
    do events <- event_findMany now None 2;
    match events with
    | row :: _ => ret [Say (nextEventText (snd row)); Redirect "/voice"]
    | [] =>
        ret [Say "We don't have any upcoming events scheduled right now. Please visit soup cook off dot com for the latest information.";
             Redirect "/voice"]
    end
  else if (String.eqb slot "2" || mentions ["ticket"; "buy"; "purchase"; "order"] speech)%bool
  then
    ret [Say "To purchase tickets with a credit card, press 9 to speak with our voice assistant, or visit soup cook off dot com slash tickets. Online prices are lower than at the gate!";
         Redirect "/voice"]
  else if (String.eqb slot "3"
           || mentions ["sponsor"; "sponsorship"; "vendor"; "booth"] speech)%bool
  then
    ret [Say "We have four sponsorship levels ranging from $250 to $2,500. Benefits include vendor booths, program advertising, complimentary tickets, and more. For details, press 9 to speak with our assistant, visit soup cook off dot com slash sponsor, or press 0 to speak with our team.";
         Redirect "/voice"]
  else if (String.eqb slot "4"
           || mentions ["chef"; "enter"; "compete"; "cook"; "register"] speech)%bool
  then
    ret [Say "We have three chef divisions: Professional, Amateur at $25, and Junior. To register, visit soup cook off dot com slash chef entry. Space is limited, so register early!";
         Redirect "/voice"]
  else if (String.eqb slot "0"
           || mentions ["human"; "person"; "agent"; "talk"; "speak"; "someone"; "transfer"]
                speech)%bool
  then
    match given TWILIO_AGENT_TRANSFER_NUMBER with
    | Some number => ret [Say "Transferring you now. Please hold."; Dial number]
    | None =>
        ret [Say "Transferring you now. Please hold.";
             Say "I'm sorry, no one is available right now. Please leave a message after the tone, or contact us at soup cook off dot com.";
             voicemailRecord]
    end
  else if mentions ["message"; "voicemail"; "leave"] speech
  then
    ret [Say "Please leave your message after the tone. Press pound when finished.";
         voicemailRecord]
  else ret [Say "Sorry, I didn't catch that."; Redirect "/voice"].

End WithEnv.

End VoiceRoutes.

(* ===================================================================== *)
(** * Concrete situations used by the examples below *)
(* ===================================================================== *)

Module Scenarios.

(** 1 January 2025, 00:00 UTC. *)
Definition newYear2025 : Z := 1735689600000.

(** The seeded spring event with every general-admission ticket sold. *)
Definition springSoldOut : Event :=
  mkEvent "2025 Spring Soup Cookoff" 1742036400000 "Downtown Pavilion"
    (Some "123 Main Street, Anytown, TX 75001")
    15 20 35 40 500 100 500 0 true.

(** The same event after one more general-admission sale went through. *)
Definition springOversold : Event :=
  mkEvent "2025 Spring Soup Cookoff" 1742036400000 "Downtown Pavilion"
    (Some "123 Main Street, Anytown, TX 75001")
    15 20 35 40 500 100 501 0 true.

Definition fall : Event :=
  mkEvent "2025 Fall Soup Cookoff" 1760785200000 "Community Center"
    (Some "456 Oak Avenue, Anytown, TX 75001")
    15 20 35 40 600 150 0 0 true.

Definition dbWith (events : gmap string Event) : Db :=
  mkDb events [] [] [] [] [] [].

Definition soldOutDb : Db := dbWith {[ "event-2025-spring" := springSoldOut ]}.

Definition oversoldDb : Db := dbWith {[ "event-2025-spring" := springOversold ]}.

Definition seededDb : Db :=
  dbWith (<[ "event-2025-fall" := fall ]> {[ "event-2025-spring" := springSoldOut ]}).

(** A Stripe account that accepts every card and confirms at once. *)
Definition acceptingStripe : Stripe :=
  mkStripe (fun _ => Normal "pm_1")
           (fun _ => Normal (mkIntent "pi_1" "succeeded" None)).

(** A Stripe account that declines every card. *)
Definition decliningStripe : Stripe :=
  mkStripe (fun _ => Throw (mkError "StripeCardError" "Your card was declined."))
           (fun _ => Throw (mkError "StripeCardError" "Your card was declined.")).

Definition someUuid : string := "9f1c2d3e-0000-4000-8000-000000000000".

Definition oneGA : TicketPurchaseRequest :=
  mkRequest "event-2025-spring" GA 1 "Ada Lovelace" "ada@example.org" "+17175550100" None.

Definition visa : CardDetails := mkCard "4242 4242 4242 4242" "12" "30" "123".

Definition buyOneGA : PurchaseTicketsArgs :=
  mkPurchaseArgs GA 1 "Ada Lovelace" "ada@example.org" "+17175550100" visa None None.

(** Stand-ins for the formatting functions of the runtime. *)
Definition plainDate (withYear : bool) (d : Z) : string := numberToString d.
Definition plainDecimal (q : Q) : string := numberToString (Qfloor q).

(** Twilio and Slack both down, as the tools see it: [sendSMS] and
    [sendSlackNotification] catch the failure and resolve with
    [success: false], so the promise of every notification call is
    fulfilled. *)
Definition servicesDown (e : SideEffect) : Completion unit := Normal tt.

(** The purchase of one general-admission ticket for the sold-out event. *)
Definition soldOutPurchase : Completion JsValue * World :=
  purchaseTickets plainDate plainDecimal acceptingStripe servicesDown
    newYear2025 someUuid buyOneGA (mkWorld soldOutDb []).

(** The general-admission counters of the spring event. *)
Definition springCounters (d : Db) : option (Z * Z) :=
  (fun e => (gaSold e, gaCapacity e)) <$> event d !! "event-2025-spring".

(** A client whose socket has opened. *)
Definition liveClient : Client := on_open (JObj []) (connect newClient).

(** A [JSON.parse] that rejects every text. *)
Definition rejectAll (s : string) : option JsValue := None.

(** A tool call whose argument text is not JSON. *)
Definition pricingCall : ToolCallEvent :=
  mkCall (Some "evt_7") (Some "getTicketPricing") None (Some (ArgString "{"))
         (Some "call_42").

Definition failingHandler : OnToolCall :=
  fun _ _ => Throw (mkError "Error" "database unavailable").

(** A one-tool registry over a store that is not used. *)
Definition aboutRegistry : gmap string (Tool unit) :=
  {[ "getAboutInfo" :=
       fun _ => ret (JObj [("ok", JBool true); ("organization", JStr "The Soup Cookoff")]) ]}.

Definition anyReceiverError (key : string) : string :=
  "Cannot convert undefined or null to object".

(** Retrieval results: a confident one, a doubtful one and an empty one. *)
Definition nextEventHit : KBResult :=
  mkKB "The next Soup Cookoff is on March 15, 2025 at the Downtown Pavilion."
       [mkSource "The next Soup Cookoff is on March 15, 2025." "faq-events" (Some (91 # 100)%Q)].

Definition weatherMiss : KBResult :=
  mkKB "Doors open at 11:00 AM."
       [mkSource "Doors open at 11:00 AM." "faq-hours" (Some (10 # 100)%Q)].

Definition nothingFound : KBResult := mkKB "" [].

Definition kbReturning (res : KBResult) (question lang : string) : Completion KBResult :=
  Normal res.

Definition ask (q : string) : AnswerQuestionArgs := mkQuestion q None None.

Definition seededWorld : World := mkWorld seededDb [].

(** A store whose configuration asks for more confidence than the default
    and for a transfer below it. *)
Definition strictConfig : BusinessConfig := mkBusinessConfig (Some (80 # 100)%Q) (Some "transfer").

Definition strictWorld : World :=
  mkWorld (mkDb (event seededDb) [] [strictConfig] [] [] [] []) [].

(** A retrieval that the default threshold would let through. *)
Definition plausibleHit : KBResult :=
  mkKB "Parking is free at the Downtown Pavilion."
       [mkSource "Parking is free." "faq-parking" (Some (70 # 100)%Q)].

Definition acmeInquiry : SponsorInquiryArgs :=
  mkSponsorArgs "Grace Hopper" (Some "Acme Soups") "+17175550111" None
                (Some "Premium Package") None None.

Definition buyTwoVIP : PurchaseTicketsArgs :=
  mkPurchaseArgs VIP 2 "Ada Lovelace" "ada@example.org" "+17175550100" visa
                 (Some "event-2025-fall") None.

End Scenarios.

Import Scenarios.

(* ===================================================================== *)
(** * Further situations *)
(* ===================================================================== *)

Module MoreScenarios.

(** The success webhook of a checkout of two general-admission tickets for
    the spring event. *)
Definition twoGA : TicketPurchaseRequest :=
  mkRequest "event-2025-fall" GA 2 "Ada Lovelace" "ada@example.org" "+17175550100" None.

Definition twoGAWebhook : PaymentWebhooks.WebhookIntent :=
  PaymentWebhooks.mkWebhookIntent "pi_1"
    (Some [("eventId", "event-2025-fall"); ("ticketType", "GA"); ("quantity", "2");
           ("confirmationCode", "SCO-9F1C2D3E")]).

Definition unsignedRequest : PaymentWebhooks.WebhookRequest :=
  PaymentWebhooks.mkWebhookRequest None "{}".

Definition neverVerified (body sig secret : string)
  : Completion PaymentWebhooks.StripeEvent :=
  Throw (mkError "StripeSignatureVerificationError" "No signatures found").

(** Twilio accepting every message, and Twilio down. *)
Definition twilioUp (m : Sms.MessageOptions) : Completion string := Normal "SM1".
Definition twilioDown (m : Sms.MessageOptions) : Completion string :=
  Throw (mkError "Error" "service unavailable").

Definition shortNumber : Sms.SMSOptions := Sms.mkSMS "555-0100" "Hello" None.
Definition localNumber : Sms.SMSOptions := Sms.mkSMS "(717) 555-0100" "Hello" None.

(** Slack answering 500. *)
Definition slackError (p : Notifications.SlackPost) : Completion Notifications.FetchResponse :=
  Normal (Notifications.mkFetchResponse false 500).

Definition hello : Notifications.SlackMessage :=
  Notifications.mkSlackMessage "Hello" None None (JArr []).

(** A registry with the keys of the [tools] object. *)
Definition fullRegistry : gmap string (Tool unit) :=
  list_to_map (List.map (fun k => (k, fun _ : JsValue => ret (JObj [("ok", JBool true)])))
                 MoreTools.toolKeys).

Definition buyNext : PurchaseTicketsArgs :=
  mkPurchaseArgs GA 1 "Ada Lovelace" "ada@example.org" "+17175550100" visa None None.

Definition emptyWorld : World := mkWorld (dbWith ∅) [].

(** An event that is over, switched off and sold out. *)
Definition retired : Event :=
  mkEvent "2024 Fall Soup Cookoff" 1729335600000 "Community Center" None
    15 20 35 40 600 150 600 150 false.

Definition retiredDb : Db := dbWith {[ "event-2024-fall" := retired ]}.

Definition oneRetiredVIP : TicketPurchaseRequest :=
  mkRequest "event-2024-fall" VIP 1 "Ada Lovelace" "ada@example.org" "+17175550100" None.

Definition confirmedIntent : PaymentIntent := mkIntent "pi_1" "succeeded" None.

(** A Stripe account that asks for a further step before it confirms. *)
Definition challengingStripe : Stripe :=
  mkStripe (fun _ => Normal "pm_1")
           (fun _ => Normal (mkIntent "pi_2" "requires_action" None)).

(** A language tag in upper case and longer than five characters. *)
Definition longTag : option string := Some "EN-US-x-private".

(** A transcript of 301 code units, the first of them outside ASCII. *)
Definition longTranscript : Sms.Utf16 := 233%N :: repeat 97%N 300.

End MoreScenarios.

Import MoreScenarios.

(* ===================================================================== *)
(** * Payments: availability and the sold counters *)
(* ===================================================================== *)

Section PaymentFacts.

Lemma event_update_found (i : string) (f : Event -> Event) (d : Db) (e : Event) :
  event d !! i = Some e ->
  event_update i f d = (Normal tt, with_event (insert i (f e)) d).
Proof. intros H. unfold event_update. now rewrite H. Qed.

(** A purchase that does not report success leaves every event row as it
    was: the counters move only after Stripe reports [succeeded]. *)
Lemma processVoicePayment_failure_keeps_events
  (stripe : Stripe) (uuid : string) (args : TicketPurchaseRequest) (card : CardDetails)
  (d d' : Db) (r : PaymentResult) :
  processVoicePayment stripe uuid args card d = (Normal r, d') ->
  success r = false ->
  event d' = event d.
Proof.
  unfold processVoicePayment, tryCatch, bind, event_findUnique, gets, await, ret.
  destruct (event d !! eventId args) as [e|] eqn:He.
  - destruct (paymentMethods_create stripe _) as [pm|err].
    + destruct (paymentIntents_create stripe _) as [pi|err].
      * destruct (String.eqb (status pi) "succeeded").
        -- unfold ticketPurchase_create, modify.
           rewrite (event_update_found _ _ _ e) by exact He.
           intros [= <- <-]. discriminate.
        -- intros [= <- <-]. reflexivity.
      * intros [= <- <-]. reflexivity.
    + intros [= <- <-]. reflexivity.
  - intros [= <- <-]. reflexivity.
Qed.

(** The checkout path refuses the request the voice path accepts. *)
Lemma createTicketPaymentIntent_refuses_sold_out :
  createTicketPaymentIntent acceptingStripe someUuid oneGA soldOutDb
  = (Normal (failed "Only 0 GA tickets remaining"), soldOutDb).
Proof. vm_compute. reflexivity. Qed.

(** A declined card leaves the store as it was. *)
Lemma processVoicePayment_declined :
  processVoicePayment decliningStripe someUuid oneGA visa soldOutDb
  = (Normal (failed "Your card was declined."), soldOutDb).
Proof. vm_compute. reflexivity. Qed.

End PaymentFacts.

(** C1. A [purchaseTickets] call for one general-admission ticket, made when
    all 500 are sold and the card is accepted, succeeds with a confirmation
    code and leaves [gaSold] at 501, above the capacity of 500: the voice path
    takes the payment and increments the counter without comparing the
    quantity with what is left. *)
Theorem purchaseTickets_oversells :
  springCounters soldOutDb = Some (500, 500)
  /\ (exists r, fst soldOutPurchase = Normal r
                /\ get "ok" r = JBool true
                /\ get "confirmationCode" r = JStr "SCO-9F1C2D3E")
  /\ springCounters (db (snd soldOutPurchase)) = Some (501, 500).
Proof.
  split; [reflexivity|]. split.
  - eexists. split; [vm_compute; reflexivity|]. split; reflexivity.
  - vm_compute. reflexivity.
Qed.

(* ===================================================================== *)
(** * Event queries *)
(* ===================================================================== *)

Section EventQueries.

#[local] Instance date_le_transitive : Transitive date_le.
Proof. intros a b c. unfold date_le. lia. Qed.

#[local] Instance date_le_total : Total date_le.
Proof. intros a b. unfold date_le. lia. Qed.

Lemma findUpcoming_elem (now : Z) (n : option string) (d : Db) (row : EventRow) :
  row ∈ event_findUpcoming now n d
  <-> event d !! fst row = Some (snd row) /\ upcomingWhere now n row = true.
Proof.
  unfold event_findUpcoming.
  rewrite merge_sort_Permutation, list_elem_of_In, filter_In.
  rewrite <- elem_of_map_to_list', list_elem_of_In.
  reflexivity.
Qed.

Lemma findUpcoming_sorted (now : Z) (n : option string) (d : Db) :
  StronglySorted date_le (event_findUpcoming now n d).
Proof. apply StronglySorted_merge_sort; apply _. Qed.

Lemma findUpcoming_NoDup (now : Z) (n : option string) (d : Db) :
  NoDup (event_findUpcoming now n d).
Proof.
  unfold event_findUpcoming. rewrite merge_sort_Permutation.
  apply NoDup_ListNoDup, List.NoDup_filter, NoDup_ListNoDup, NoDup_map_to_list.
Qed.

Lemma take_sorted (n : nat) (l : list EventRow) :
  StronglySorted date_le l -> StronglySorted date_le (take n l).
Proof.
  intros H. rewrite <- (take_drop n l) in H.
  now apply StronglySorted_app_1_l in H.
Qed.

(** What [take] leaves out comes after everything it keeps. *)
Lemma take_earliest (n : nat) (l : list EventRow) (x : EventRow) :
  StronglySorted date_le l -> x ∈ l ->
  x ∈ take n l \/ (length (take n l) = n /\ forall y, y ∈ take n l -> date_le y x).
Proof.
  intros Hs Hx. rewrite <- (take_drop n l) in Hx, Hs.
  apply elem_of_app in Hx as [Hx|Hx]; [now left|right].
  split.
  - apply length_take_le. destruct (decide (n <= length l)%nat) as [|Hn]; [assumption|].
    rewrite drop_ge in Hx by lia. now apply elem_of_nil in Hx.
  - intros y Hy. eapply StronglySorted_app_1_elem_of; eassumption.
Qed.

Lemma upcomingWhere_spec (now : Z) (n : option string) (row : EventRow) :
  upcomingWhere now n row = true
  <-> active (snd row) = true /\ now <= date (snd row)
      /\ match n with Some s => includes s (name (snd row)) = true | None => True end.
Proof.
  unfold upcomingWhere. rewrite !andb_true_iff, Z.leb_le.
  destruct n; intuition.
Qed.

Lemma logIntent_run (i : string) (m : JsValue) (w : World) :
  logIntent i m w
  = (Normal tt,
     mkWorld (with_intentLog (fun rows => rows ++ [mkIntentLog i m]) (db w)) (spawned w)).
Proof. reflexivity. Qed.

Lemma getTicketPrices_found
  (now : Z) (eventId : option string) (d d' : Db) (p : TicketPrices) :
  getTicketPrices now eventId d = (Normal (Some p), d') ->
  event d !! prices_eventId p = Some (prices_event p)
  /\ gaAvailable p = gaCapacity (prices_event p) - gaSold (prices_event p)
  /\ vipAvailable p = vipCapacity (prices_event p) - vipSold (prices_event p).
Proof.
  assert (Hfirst : forall row, head (event_findUpcoming now None d) = Some row ->
                               event d !! fst row = Some (snd row)).
  { intros row H. apply head_Some_elem_of, findUpcoming_elem in H. tauto. }
  unfold getTicketPrices, bind, event_findFirst, event_findUnique, gets, ret.
  destruct eventId as [i|]; [destruct (String.eqb i "")|].
  - destruct (head (event_findUpcoming now None d)) as [row|] eqn:Hh; cbn; [|discriminate].
    intros [= <- _]. cbn. auto.
  - destruct (event d !! i) as [e|] eqn:He; cbn; [|discriminate].
    intros [= <- _]. cbn. auto.
  - destruct (head (event_findUpcoming now None d)) as [row|] eqn:Hh; cbn; [|discriminate].
    intros [= <- _]. cbn. auto.
Qed.

(** [getTicketPrices] reads the store and never throws. *)
Lemma getTicketPrices_total (now : Z) (eventId : option string) (d : Db) :
  exists p, getTicketPrices now eventId d = (Normal p, d).
Proof.
  unfold getTicketPrices, bind, event_findFirst, event_findUnique, gets, ret.
  destruct eventId as [i|]; [destruct (String.eqb i "")|]; eexists; reflexivity.
Qed.

Variable toLocaleDateString : bool -> Z -> string.
Variable decimalToString : Q -> string.

(** C7 (amended). [getEventInfo] answers from at most three rows of the event
    table: every one is active, dated [now] or later and, when a non-empty
    [eventName] is given, has a name containing it; they are in ascending date
    order without repetition; and a row that qualifies but is not among them
    is no earlier than any of the three returned. With no qualifying row the
    answer is [{ok: false, message: "No upcoming events found"}]. *)
Theorem getEventInfo_upcoming (now : Z) (args : option (option string)) (w : World) :
  exists rows : list EventRow,
    fst (getEventInfo toLocaleDateString decimalToString now args w)
    = Normal (match rows with
              | [] => okFalse "message" "No upcoming events found"
              | next :: _ =>
                  JObj [("ok", JBool true);
                        ("events",
                         JArr (List.map (eventView toLocaleDateString decimalToString) rows));
                        ("nextEvent", eventView toLocaleDateString decimalToString next)]
              end)
    /\ (length rows <= 3)%nat
    /\ StronglySorted date_le rows
    /\ NoDup rows
    /\ (forall row, row ∈ rows ->
          event (db w) !! fst row = Some (snd row)
          /\ active (snd row) = true
          /\ now <= date (snd row)
          /\ match given (args ≫= (fun n => n)) with
             | Some s => includes s (name (snd row)) = true
             | None => True
             end)
    /\ (forall i e,
          event (db w) !! i = Some e ->
          active e = true ->
          now <= date e ->
          match given (args ≫= (fun n => n)) with
          | Some s => includes s (name e) = true
          | None => True
          end ->
          (i, e) ∈ rows
          \/ (length rows = 3%nat /\ forall row, row ∈ rows -> date (snd row) <= date e)).
Proof.
  set (n := given (args ≫= (fun n => n))).
  set (d := with_intentLog (fun rows => rows ++ [mkIntentLog "getEventInfo" (eventInfoMeta args)]) (db w)).
  assert (Hall : event_findUpcoming now n d = event_findUpcoming now n (db w)) by reflexivity.
  exists (take 3 (event_findUpcoming now n (db w))).
  split; [|split; [|split; [|split; [|split]]]].
  - unfold getEventInfo, bind. rewrite logIntent_run.
    unfold onDb, event_findMany, gets, ret. cbn [db spawned fst].
    fold d. fold n. rewrite Hall.
    destruct (take 3 (event_findUpcoming now n (db w))); reflexivity.
  - apply firstn_le_length.
  - apply take_sorted, findUpcoming_sorted.
  - pose proof (findUpcoming_NoDup now n (db w)) as Hnd.
    rewrite <- (take_drop 3 (event_findUpcoming now n (db w))) in Hnd.
    apply NoDup_app in Hnd as [Hnd _]. exact Hnd.
  - intros row Hrow.
    assert (Hin : row ∈ event_findUpcoming now n (db w)).
    { rewrite <- (take_drop 3 (event_findUpcoming now n (db w))).
      apply elem_of_app. now left. }
    apply findUpcoming_elem in Hin as [Hrow' Hw].
    apply upcomingWhere_spec in Hw. tauto.
  - intros i e Hie Hact Hdate Hname.
    assert (Hin : (i, e) ∈ event_findUpcoming now n (db w)).
    { apply findUpcoming_elem. split; [exact Hie|].
      apply upcomingWhere_spec. cbn [fst snd]. tauto. }
    destruct (take_earliest 3 _ _ (findUpcoming_sorted now n (db w)) Hin) as [H|[Hlen H]].
    + now left.
    + right. split; [exact Hlen|]. intros row Hrow. exact (H row Hrow).
Qed.

(** C3 (amended). For every event and tier: when the lookup is made with
    the id of an event of the store, or without an id while that event is the
    earliest active one dated [now] or later, [getTicketPrices] prices that
    very event and [getTicketPricing] reports it by name, and the
    availability of each tier is that event's capacity minus its sold count,
    as it is: nothing brings a negative difference back to zero. *)
Theorem getTicketPricing_available
  (now : Z) (args : option (option string)) (w : World) (i : string) (e : Event) :
  match given (args ≫= (fun eventId => eventId)) with
  | Some eventId => eventId = i /\ event (db w) !! i = Some e
  | None => head (event_findUpcoming now None (db w)) = Some (i, e)
  end ->
  (exists p,
      getTicketPrices now (args ≫= (fun eventId => eventId)) (db w) = (Normal (Some p), db w)
      /\ prices_eventId p = i
      /\ prices_event p = e
      /\ gaAvailable p = gaCapacity e - gaSold e
      /\ vipAvailable p = vipCapacity e - vipSold e)
  /\ (exists r,
        fst (getTicketPricing toLocaleDateString now args w) = Normal r
        /\ get "ok" r = JBool true
        /\ get "eventName" r = JStr (name e)
        /\ get "available" (get "generalAdmission" r) = JInt (gaCapacity e - gaSold e)
        /\ get "available" (get "vip" r) = JInt (vipCapacity e - vipSold e)).
Proof.
  intros Hrow.
  assert (Hprices : forall d, event d = event (db w) ->
            getTicketPrices now (args ≫= (fun eventId => eventId)) d
            = (Normal (Some (pricesOf (i, e))), d)).
  { intros d Hd.
    assert (Hup : event_findUpcoming now None d = event_findUpcoming now None (db w)).
    { unfold event_findUpcoming. now rewrite Hd. }
    unfold getTicketPrices, bind, event_findFirst, event_findUnique, gets, ret.
    destruct (args ≫= (fun eventId => eventId)) as [eventId|]; cbn [given] in Hrow.
    - destruct (String.eqb eventId "").
      + now rewrite Hup, Hrow.
      + destruct Hrow as [-> Hrow]. now rewrite Hd, Hrow.
    - now rewrite Hup, Hrow. }
  split.
  - exists (pricesOf (i, e)). split; [apply Hprices; reflexivity|].
    repeat split.
  - unfold getTicketPricing, bind. rewrite logIntent_run.
    unfold onDb. cbn [db spawned]. rewrite Hprices by reflexivity.
    eexists. split; [reflexivity|]. repeat split.
Qed.

End EventQueries.

(** C7, as first stated, fails: an active event dated after [now] exists,
    yet a call that names another event is told there is none. *)
Lemma getEventInfo_name_filter_hides_events :
  event seededDb !! "event-2025-spring" = Some springSoldOut
  /\ active springSoldOut = true
  /\ newYear2025 <= date springSoldOut
  /\ fst (getEventInfo plainDate plainDecimal newYear2025 (Some (Some "Carlisle"))
            (mkWorld seededDb []))
     = Normal (okFalse "message" "No upcoming events found").
Proof.
  split; [reflexivity|]. split; [reflexivity|]. split; [vm_compute; discriminate|].
  vm_compute. reflexivity.
Qed.

(** C3, as first stated, fails: once [gaSold] is above [gaCapacity] the
    lookup reports a negative number of tickets. *)
Lemma getTicketPricing_negative_available :
  springCounters oversoldDb = Some (501, 500)
  /\ exists r,
      fst (getTicketPricing plainDate newYear2025 None (mkWorld oversoldDb [])) = Normal r
      /\ get "available" (get "generalAdmission" r) = JInt (-1)
      /\ -1 < 0.
Proof.
  split; [reflexivity|]. eexists. split; [vm_compute; reflexivity|].
  split; [reflexivity|lia].
Qed.

(** [getTicketPricing_available] on the seeded store: asked for the fall
    event, which is not the next one, the lookup reports the fall event and
    its 600 and 150 tickets; asked without an id it reports the spring event,
    with no general-admission ticket left. *)
Lemma getTicketPricing_available_witness :
  (exists r,
      fst (getTicketPricing plainDate newYear2025 (Some (Some "event-2025-fall"))
             seededWorld) = Normal r
      /\ get "eventName" r = JStr "2025 Fall Soup Cookoff"
      /\ get "available" (get "generalAdmission" r) = JInt 600
      /\ get "available" (get "vip" r) = JInt 150)
  /\ (exists r,
        fst (getTicketPricing plainDate newYear2025 None seededWorld) = Normal r
        /\ get "eventName" r = JStr "2025 Spring Soup Cookoff"
        /\ get "available" (get "generalAdmission" r) = JInt 0
        /\ get "available" (get "vip" r) = JInt 100).
Proof.
  split.
  - assert (Hfall : event (db seededWorld) !! "event-2025-fall" = Some fall)
      by (vm_compute; reflexivity).
    destruct (getTicketPricing_available plainDate newYear2025
                (Some (Some "event-2025-fall")) seededWorld "event-2025-fall" fall
                (conj eq_refl Hfall))
      as (_ & r & Hr & _ & Hname & Hga & Hvip).
    exists r. auto.
  - destruct (getTicketPricing_available plainDate newYear2025 None seededWorld
                "event-2025-spring" springSoldOut ltac:(vm_compute; reflexivity))
      as (_ & r & Hr & _ & Hname & Hga & Hvip).
    exists r. auto.
Defined.

(* ===================================================================== *)
(** * The realtime client: sends, audio buffering and tool replies *)
(* ===================================================================== *)

Section ClientFacts.

Lemma send_not_open (obj : ClientMessage) (c : Client) :
  socketOpen c = false -> send obj c = c.
Proof.
  unfold socketOpen, send. destruct (ws c) as [w|]; [|reflexivity].
  now intros ->.
Qed.

Lemma send_open (obj : ClientMessage) (c : Client) :
  socketOpen c = true ->
  sent (send obj c) = sent c ++ [obj]
  /\ socketOpen (send obj c) = true
  /\ connected (send obj c) = connected c
  /\ pendingBytes (send obj c) = pendingBytes c
  /\ heartbeatTimer (send obj c) = heartbeatTimer c.
Proof.
  unfold socketOpen, send, sent. destruct (ws c) as [w|]; [|discriminate].
  intros H. rewrite H. cbn. unfold isOpen in *. cbn. rewrite H. auto.
Qed.

Lemma close_closes (c : Client) :
  socketOpen (close c) = false
  /\ connected (close c) = false
  /\ heartbeatTimer (close c) = false
  /\ sent (close c) = sent c
  /\ close (close c) = close c.
Proof.
  destruct c as [[[[] ob]|] con pb []]; cbn; auto.
Qed.

(** Both tool-call event types are routed to [handleToolCall]. *)
Lemma routeEvent_tool_call (evt : JsValue) :
  hasType evt "response.function_call" = true \/ hasType evt "tool.call" = true ->
  routeEvent evt
  = ToToolCall (mkCall (stringField "id" evt) (stringField "name" evt)
                  (stringField "tool_name" evt) (argumentsField evt)
                  (stringField "tool_call_id" evt)).
Proof.
  unfold routeEvent, hasType.
  destruct (get "type" evt) as [| | | |s| |]; try (intros [H|H]; discriminate H).
  intros [H|H]; apply String.eqb_eq in H; subst s; reflexivity.
Qed.

Variable JSON_parse : string -> option JsValue.
Variable onToolCall : option OnToolCall.

Lemma applyOp_not_open (op : ClientOp) (c : Client) :
  socketOpen c = false ->
  socketOpen (applyOp JSON_parse onToolCall op c) = false
  /\ sent (applyOp JSON_parse onToolCall op c) = sent c.
Proof.
  intros H.
  destruct op; cbn [applyOp];
    unfold appendAudioBase64, commitAndRespond, maybeAutoFlush, commitAndRespond,
      updateSession, heartbeatTick, Realtime.handleToolCall.
  - destruct (connected c); cbn [negb]; [|auto].
    rewrite send_not_open by exact H. split; [exact H|reflexivity].
  - destruct (connected c); cbn [negb]; [|auto].
    rewrite !(send_not_open _ c H). auto.
  - destruct (_ <=? _); [|auto].
    destruct (connected c); cbn [negb]; [|auto].
    rewrite !(send_not_open _ c H). auto.
  - rewrite !(send_not_open _ c H). auto.
  - destruct (heartbeatTimer c); [|auto]. destruct (connected c); [|auto].
    rewrite !(send_not_open _ c H). auto.
  - rewrite !(send_not_open _ c H). auto.
  - destruct c as [[[[] ob]|] con pb []]; cbn; auto.
  - destruct c as [[[[] ob]|] con pb []]; cbn; auto.
Qed.

Lemma applyOps_not_open (ops : list ClientOp) (c : Client) :
  socketOpen c = false ->
  socketOpen (applyOps JSON_parse onToolCall ops c) = false
  /\ sent (applyOps JSON_parse onToolCall ops c) = sent c.
Proof.
  revert c. induction ops as [|op ops IH]; intros c H; [auto|].
  destruct (applyOp_not_open op c H) as [Ho Hs].
  destruct (IH _ Ho) as [Ho' Hs'].
  cbn. fold (applyOps JSON_parse onToolCall ops (applyOp JSON_parse onToolCall op c)).
  split; [exact Ho'|]. now rewrite Hs'.
Qed.

Lemma appendAudio_step (b64 : string) (c : Client) :
  connected c = true -> socketOpen c = true ->
  pendingBytes (appendAudioBase64 b64 c) = pendingBytes c + base64ByteLength b64
  /\ sent (appendAudioBase64 b64 c) = sent c ++ [input_audio_buffer_append b64]
  /\ connected (appendAudioBase64 b64 c) = true
  /\ socketOpen (appendAudioBase64 b64 c) = true.
Proof.
  intros Hc Ho. unfold appendAudioBase64. rewrite Hc. cbn [negb].
  set (c' := mkClient _ _ _ _).
  destruct (send_open (input_audio_buffer_append b64) c' Ho) as (Hs & Ho' & Hc' & Hp & _).
  rewrite Hs, Ho', Hc', Hp. subst c'. cbn. auto.
Qed.

(** C8. On a connected client with an open socket, a run of appends adds
    the decoded size of every chunk to the pending byte counter and forwards
    every chunk; the auto-flush check that follows sends
    [input_audio_buffer.commit] and then [response.create] and resets the
    counter to 0 when the counter has reached the threshold (32000 unless
    given), and changes nothing when it is below. *)
Theorem append_accumulates_and_auto_flush
  (chunks : list string) (thresholdBytes : option Z) (c : Client) :
  connected c = true ->
  socketOpen c = true ->
  let c1 := appendAll chunks c in
  let threshold := default 32000 thresholdBytes in
  pendingBytes c1 = pendingBytes c + totalBytes chunks
  /\ sent c1 = sent c ++ List.map input_audio_buffer_append chunks
  /\ (threshold <= pendingBytes c1 ->
      sent (maybeAutoFlush thresholdBytes c1)
      = sent c1 ++ [input_audio_buffer_commit; response_create [text; audio]]
      /\ pendingBytes (maybeAutoFlush thresholdBytes c1) = 0)
  /\ (pendingBytes c1 < threshold -> maybeAutoFlush thresholdBytes c1 = c1).
Proof.
  intros Hc Ho c1 threshold.
  assert (Hrun : pendingBytes c1 = pendingBytes c + totalBytes chunks
                 /\ sent c1 = sent c ++ List.map input_audio_buffer_append chunks
                 /\ connected c1 = true /\ socketOpen c1 = true).
  { subst c1. revert c Hc Ho.
    induction chunks as [|b64 chunks IH]; intros c Hc Ho.
    - cbn. rewrite Z.add_0_r, app_nil_r. auto.
    - destruct (appendAudio_step b64 c Hc Ho) as (Hp & Hs & Hc' & Ho').
      destruct (IH _ Hc' Ho') as (Hp2 & Hs2 & Hc2 & Ho2).
      change (appendAll (b64 :: chunks) c)
        with (appendAll chunks (appendAudioBase64 b64 c)).
      change (totalBytes (b64 :: chunks))
        with (base64ByteLength b64 + totalBytes chunks).
      rewrite Hp2, Hs2, Hp, Hs, <- app_assoc.
      repeat split; auto. lia. }
  destruct Hrun as (Hp & Hs & Hc1 & Ho1).
  split; [exact Hp|]. split; [exact Hs|].
  unfold maybeAutoFlush.
  change (match thresholdBytes with Some t => t | None => 32000 end) with threshold.
  split.
  - intros Hge. apply Z.leb_le in Hge. rewrite Hge.
    unfold commitAndRespond. rewrite Hc1. cbn [negb].
    destruct (send_open input_audio_buffer_commit c1 Ho1) as (Hs1 & Ho2 & _).
    destruct (send_open (response_create [text; audio]) _ Ho2) as (Hs2 & _).
    split; [|reflexivity].
    transitivity (sent (send (response_create [text; audio])
                          (send input_audio_buffer_commit c1))); [reflexivity|].
    rewrite Hs2, Hs1, <- app_assoc. reflexivity.
  - intros Hlt. apply Z.leb_gt in Hlt. now rewrite Hlt.
Qed.

(** C9. While the socket of the client is absent or not open, every send
    is dropped and returns normally; whatever the client is asked to do next
    (appends, flushes, keepalives, socket events, further closes) the socket
    stays not open and nothing more is written, so a tool call that settles
    late leaves the client exactly as it finds it. [close] always leaves the
    client in that state, with the keepalive stopped, and closing twice is
    closing once. *)
Theorem closed_session_discards_sends
  (ops : list ClientOp) (call : ToolCallEvent) (obj : ClientMessage) (c : Client) :
  socketOpen c = false ->
  send obj c = c
  /\ (let late := applyOps JSON_parse onToolCall ops c in
      socketOpen late = false
      /\ sent late = sent c
      /\ Realtime.handleToolCall JSON_parse onToolCall call late = late)
  /\ (forall c0 : Client,
        socketOpen (close c0) = false
        /\ connected (close c0) = false
        /\ heartbeatTimer (close c0) = false
        /\ sent (close c0) = sent c0
        /\ close (close c0) = close c0).
Proof.
  intros H. split; [now apply send_not_open|]. split; [|apply close_closes].
  destruct (applyOps_not_open ops c H) as [Ho Hs].
  cbn zeta. split; [exact Ho|]. split; [exact Hs|].
  unfold Realtime.handleToolCall. now apply send_not_open.
Qed.

(** C5 (amended). For a tool call event: a string argument payload is
    parsed as JSON, and is the empty object when it is empty or does not
    parse; when the handler throws, the output is [{ok: false, error}] with
    the message of the error (or its text when the message is empty); and the
    reply is one [tool.output] carrying [tool_call_id || id], written to the
    socket when the socket is open as the handler settles. When the socket is
    absent or not open nothing is written. *)
Theorem handleToolCall_replies (call : ToolCallEvent) (c : Client) :
  let output := toolCallOutput JSON_parse onToolCall call in
  let reply := tool_output (orOpt (tool_call_id call) (id call)) output in
  (socketOpen c = true ->
   sent (Realtime.handleToolCall JSON_parse onToolCall call c) = sent c ++ [reply])
  /\ (socketOpen c = false ->
      sent (Realtime.handleToolCall JSON_parse onToolCall call c) = sent c)
  /\ (forall s, arguments call = Some (ArgString s) ->
        toolCallArgs JSON_parse call
        = match JSON_parse s with
          | Some v => if String.eqb s "" then JObj [] else v
          | None => JObj []
          end)
  /\ (forall handler e,
        onToolCall = Some handler ->
        handler call (toolCallArgs JSON_parse call) = Throw e ->
        output = JObj [("ok", JBool false);
                       ("error", JStr (if String.eqb (message e) ""
                                       then errorToString e else message e))]).
Proof.
  cbn zeta. unfold Realtime.handleToolCall, toolCallId.
  split; [|split; [|split]].
  - intros H. now apply send_open.
  - intros H. now rewrite send_not_open.
  - intros s Hs. unfold toolCallArgs, safeParseJson. rewrite Hs.
    destruct (String.eqb s ""), (JSON_parse s); reflexivity.
  - intros handler e Hh He. unfold toolCallOutput. rewrite Hh, He.
    unfold failure, orElse. reflexivity.
Qed.

End ClientFacts.

(** [append_accumulates_and_auto_flush] on a live client: two chunks of
    three bytes reach a threshold of six and are flushed. *)
Lemma append_accumulates_and_auto_flush_witness :
  connected liveClient = true
  /\ socketOpen liveClient = true
  /\ pendingBytes (appendAll ["AAAA"; "AAA="] liveClient) = 0 + 5
  /\ sent (maybeAutoFlush (Some 5) (appendAll ["AAAA"; "AAA="] liveClient))
     = sent (appendAll ["AAAA"; "AAA="] liveClient)
         ++ [input_audio_buffer_commit; response_create [text; audio]].
Proof.
  destruct (append_accumulates_and_auto_flush ["AAAA"; "AAA="] (Some 5) liveClient
              eq_refl eq_refl) as (Hp & _ & Hflush & _).
  split; [reflexivity|]. split; [reflexivity|]. split; [exact Hp|].
  apply Hflush. vm_compute. discriminate.
Defined.

(** [closed_session_discards_sends] after [close] on a live client: a tool
    call that settles after more audio and the socket's close event writes
    nothing. *)
Lemma closed_session_discards_sends_witness :
  socketOpen (close liveClient) = false
  /\ sent (Realtime.handleToolCall rejectAll (Some failingHandler) pricingCall
             (applyOps rejectAll (Some failingHandler)
                [OpAppendAudio "AAAA"; OpSocketClosed] (close liveClient)))
     = sent liveClient.
Proof.
  destruct (closed_session_discards_sends rejectAll (Some failingHandler)
              [OpAppendAudio "AAAA"; OpSocketClosed] pricingCall
              input_audio_buffer_commit (close liveClient) eq_refl)
    as (_ & (_ & Hs & Hlate) & _).
  split; [reflexivity|]. cbn zeta in Hlate. rewrite Hlate. exact Hs.
Defined.

(** C5, as first stated, fails: on a closed client the handler's failure is
    turned into an output, but no [tool.output] reaches the socket. *)
Lemma tool_reply_dropped_when_closed :
  toolCallOutput rejectAll (Some failingHandler) pricingCall
  = JObj [("ok", JBool false); ("error", JStr "database unavailable")]
  /\ List.filter isToolOutput
       (sent (Realtime.handleToolCall rejectAll (Some failingHandler) pricingCall
                (close liveClient)))
     = [].
Proof. split; reflexivity. Qed.

(** The same call on the live client is answered once, under its
    [tool_call_id]. *)
Lemma tool_reply_sent_when_open :
  List.filter isToolOutput
    (sent (Realtime.handleToolCall rejectAll (Some failingHandler) pricingCall liveClient))
  = [tool_output (Some "call_42")
       (JObj [("ok", JBool false); ("error", JStr "database unavailable")])].
Proof. reflexivity. Qed.

(* ===================================================================== *)
(** * Confidence-gated answers *)
(* ===================================================================== *)

Section AnswerFacts.

Lemma lessThan_spec (a b : Q) : lessThan a b = true <-> (a < b)%Q.
Proof.
  unfold lessThan. rewrite negb_true_iff. split.
  - intros H. apply Qnot_le_lt. intros Hle.
    apply Qle_bool_iff in Hle. congruence.
  - intros H. destruct (Qle_bool b a) eqn:E; [|reflexivity].
    apply Qle_bool_iff in E. exfalso. exact (Qlt_not_le _ _ H E).
Qed.

Lemma lessThan_false (a b : Q) : (b <= a)%Q -> lessThan a b = false.
Proof.
  intros H. unfold lessThan. apply Qle_bool_iff in H. now rewrite H.
Qed.

Variable askKB : string -> string -> Completion KBResult.

(** What [answerQuestion] returns once the knowledge base has answered. *)
Lemma answerQuestion_run (args : AnswerQuestionArgs) (w : World) (res : KBResult) :
  askKB (question args) (languageOf args) = Normal res ->
  let cfg := head (businessConfig (db w)) in
  fst (answerQuestion askKB args w)
  = Normal (if lessThan (topConfidenceOf res) (minConfidenceOf cfg)
            then gatedReply (lowConfidenceActionOf cfg) res
            else approvedReply res (topConfidenceOf res)).
Proof.
  intros Hkb. cbn zeta.
  unfold answerQuestion, bind. rewrite logIntent_run.
  unfold await. rewrite Hkb.
  unfold onDb, businessConfig_findFirst, gets. cbn [db spawned].
  unfold tryCatch, bind, ret, modify, callLog_findUnique, gets.
  destruct (given (q_callSid args)); cbn [db spawned businessConfig with_intentLog
                                            with_citationsLog];
    destruct (lessThan _ _); reflexivity.
Qed.

Lemma gatedReply_fields (action : string) (res : KBResult) :
  get "ok" (gatedReply action res) = JBool false
  /\ get "lowConfidence" (gatedReply action res) = JBool true
  /\ get "action" (gatedReply action res)
     = JStr (if String.eqb action "transfer" then "TRANSFER"
             else if String.eqb action "voicemail" then "VOICEMAIL"
             else "CLARIFY")
  /\ get "confidenceOk" (gatedReply action res) = JUndefined
  /\ get "context" (gatedReply action res) = JUndefined.
Proof.
  unfold gatedReply.
  destruct (String.eqb action "transfer"); [cbn; auto|].
  destruct (String.eqb action "voicemail"); cbn; auto.
Qed.

(** C2. Once the knowledge base has answered, the gate is set by the first
    row of the [BusinessConfig] table: the threshold is its [kbMinConfidence]
    and the action its [lowConfidenceAction], with 0.55 and [ask_clarify]
    for a field left empty or a table without rows. If the top confidence is
    strictly below that threshold, the result has [ok: false] and the action
    TRANSFER for [transfer], VOICEMAIL for [voicemail] and CLARIFY for
    anything else, with no [confidenceOk] flag and no [context] answer field
    (under CLARIFY, and only there, the passage is handed back as
    [partialContext] next to [ok: false]); if the top candidate's score is at
    or above the threshold, the result has
    [ok: true], the passage in [context], the non-empty list of sources and
    [confidenceOk: true]. *)
Theorem answerQuestion_confidence_gate
  (args : AnswerQuestionArgs) (w : World) (res : KBResult) :
  askKB (question args) (languageOf args) = Normal res ->
  let threshold :=
    match businessConfig (db w) with
    | row :: _ => default (55 # 100)%Q (kbMinConfidence row)
    | [] => (55 # 100)%Q
    end in
  let configured :=
    match businessConfig (db w) with
    | row :: _ => default "ask_clarify" (lowConfidenceAction row)
    | [] => "ask_clarify"
    end in
  exists r,
    fst (answerQuestion askKB args w) = Normal r
    /\ ((topConfidenceOf res < threshold)%Q ->
        get "ok" r = JBool false
        /\ get "action" r
           = JStr (if String.eqb configured "transfer" then "TRANSFER"
                   else if String.eqb configured "voicemail" then "VOICEMAIL"
                   else "CLARIFY")
        /\ get "confidenceOk" r = JUndefined
        /\ get "context" r = JUndefined
        /\ get "partialContext" r
           = (if String.eqb configured "transfer" then JUndefined
              else if String.eqb configured "voicemail" then JUndefined
              else JStr (context res)))
    /\ (forall top rest,
          sources res = top :: rest ->
          (threshold <= default 0%Q (score top))%Q ->
          get "ok" r = JBool true
          /\ get "context" r = JStr (context res)
          /\ get "sources" r = JArr (sourceJs top :: List.map sourceJs rest)
          /\ get "confidenceOk" r = JBool true
          /\ get "topConfidence" r = JNum (default 0%Q (score top))).
Proof.
  intros Hkb threshold configured.
  assert (Ht : threshold = minConfidenceOf (head (businessConfig (db w)))).
  { unfold threshold. now destruct (businessConfig (db w)). }
  assert (Ha : configured = lowConfidenceActionOf (head (businessConfig (db w)))).
  { unfold configured. now destruct (businessConfig (db w)). }
  rewrite Ht, Ha. clear Ht Ha threshold configured.
  set (cfg := head (businessConfig (db w))).
  eexists. split; [apply (answerQuestion_run args w res Hkb)|].
  fold cfg. split.
  - intros Hlt. apply lessThan_spec in Hlt. rewrite Hlt.
    destruct (gatedReply_fields (lowConfidenceActionOf cfg) res) as (H1 & _ & H3 & H4 & H5).
    repeat split; try assumption.
    unfold gatedReply.
    destruct (String.eqb (lowConfidenceActionOf cfg) "transfer"); [reflexivity|].
    destruct (String.eqb (lowConfidenceActionOf cfg) "voicemail"); reflexivity.
  - intros top rest Hsrc Hge.
    assert (Htop : topConfidenceOf res = default 0%Q (score top)).
    { unfold topConfidenceOf. now rewrite Hsrc. }
    rewrite Htop, (lessThan_false _ _ Hge).
    unfold approvedReply, kbFields. rewrite Hsrc. cbn. auto.
Qed.

(** C10. When retrieval returns no candidate, the top confidence is 0; with
    no configuration row (threshold 0.55) or with any positive configured
    threshold the result is the gated one: [ok: false], [lowConfidence: true],
    one of the three actions, and no [confidenceOk] flag. *)
Theorem no_candidates_is_gated
  (args : AnswerQuestionArgs) (w : World) (res : KBResult) :
  askKB (question args) (languageOf args) = Normal res ->
  sources res = [] ->
  businessConfig (db w) = []
  \/ (0 < minConfidenceOf (head (businessConfig (db w))))%Q ->
  topConfidenceOf res = 0%Q
  /\ exists r,
      fst (answerQuestion askKB args w) = Normal r
      /\ get "ok" r = JBool false
      /\ get "lowConfidence" r = JBool true
      /\ (get "action" r = JStr "TRANSFER"
          \/ get "action" r = JStr "VOICEMAIL"
          \/ get "action" r = JStr "CLARIFY")
      /\ get "confidenceOk" r = JUndefined.
Proof.
  intros Hkb Hsrc Hcfg.
  assert (Htop : topConfidenceOf res = 0%Q).
  { unfold topConfidenceOf. now rewrite Hsrc. }
  split; [exact Htop|].
  assert (Hpos : (0 < minConfidenceOf (head (businessConfig (db w))))%Q).
  { destruct Hcfg as [Hnone|Hpos]; [|exact Hpos]. rewrite Hnone. reflexivity. }
  eexists. split; [apply (answerQuestion_run args w res Hkb)|].
  rewrite Htop. apply lessThan_spec in Hpos. rewrite Hpos.
  destruct (gatedReply_fields (lowConfidenceActionOf (head (businessConfig (db w)))) res)
    as (H1 & H2 & H3 & H4 & _).
  split; [exact H1|]. split; [exact H2|]. split; [|exact H4].
  rewrite H3.
  destruct (String.eqb _ "transfer"); [auto|].
  destruct (String.eqb _ "voicemail"); auto.
Qed.

End AnswerFacts.

(** [answerQuestion_confidence_gate] on a store configured with a
    threshold of 0.80 and the action [transfer]: a score of 0.70, which the
    default threshold would let through, is met with TRANSFER, and a score
    of 0.91 is answered with its source; and on a store without
    configuration, where a score of 0.70 is answered and one of 0.10 is met
    with CLARIFY. *)
Lemma answerQuestion_confidence_gate_witness :
  (exists r,
      fst (answerQuestion (kbReturning plausibleHit) (ask "is parking free") strictWorld)
      = Normal r
      /\ get "ok" r = JBool false
      /\ get "action" r = JStr "TRANSFER"
      /\ get "context" r = JUndefined)
  /\ (exists r,
        fst (answerQuestion (kbReturning nextEventHit) (ask "when is the next event")
               strictWorld) = Normal r
        /\ get "ok" r = JBool true
        /\ get "context" r = JStr (context nextEventHit)
        /\ get "sources" r = JArr (List.map sourceJs (sources nextEventHit))
        /\ get "confidenceOk" r = JBool true)
  /\ (exists r,
        fst (answerQuestion (kbReturning plausibleHit) (ask "is parking free") seededWorld)
        = Normal r
        /\ get "ok" r = JBool true
        /\ get "context" r = JStr (context plausibleHit))
  /\ (exists r,
        fst (answerQuestion (kbReturning weatherMiss) (ask "what's the weather")
               seededWorld) = Normal r
        /\ get "ok" r = JBool false
        /\ get "action" r = JStr "CLARIFY"
        /\ get "context" r = JUndefined).
Proof.
  split; [|split; [|split]].
  - destruct (answerQuestion_confidence_gate (kbReturning plausibleHit)
                (ask "is parking free") strictWorld plausibleHit eq_refl)
      as (r & Hr & Hlow & _).
    exists r. split; [exact Hr|].
    destruct (Hlow ltac:(vm_compute; reflexivity)) as (H1 & H2 & _ & H4 & _).
    auto.
  - destruct (answerQuestion_confidence_gate (kbReturning nextEventHit)
                (ask "when is the next event") strictWorld nextEventHit eq_refl)
      as (r & Hr & _ & Hhigh).
    exists r. split; [exact Hr|].
    destruct (Hhigh _ _ eq_refl ltac:(vm_compute; discriminate))
      as (H1 & H2 & H3 & H4 & _).
    auto.
  - destruct (answerQuestion_confidence_gate (kbReturning plausibleHit)
                (ask "is parking free") seededWorld plausibleHit eq_refl)
      as (r & Hr & _ & Hhigh).
    exists r. split; [exact Hr|].
    destruct (Hhigh _ _ eq_refl ltac:(vm_compute; discriminate))
      as (H1 & H2 & _).
    auto.
  - destruct (answerQuestion_confidence_gate (kbReturning weatherMiss)
                (ask "what's the weather") seededWorld weatherMiss eq_refl)
      as (r & Hr & Hlow & _).
    exists r. split; [exact Hr|].
    destruct (Hlow ltac:(vm_compute; reflexivity)) as (H1 & H2 & _ & H4 & _).
    auto.
Defined.

(** [no_candidates_is_gated] with an empty retrieval and no configuration
    row. *)
Lemma no_candidates_is_gated_witness :
  exists r,
    fst (answerQuestion (kbReturning nothingFound) (ask "do you sell soup") seededWorld)
    = Normal r
    /\ get "ok" r = JBool false
    /\ get "lowConfidence" r = JBool true.
Proof.
  destruct (no_candidates_is_gated (kbReturning nothingFound) (ask "do you sell soup")
              seededWorld nothingFound eq_refl eq_refl (or_introl eq_refl))
    as (_ & r & Hr & H1 & H2 & _).
  exists r. auto.
Defined.

(* ===================================================================== *)
(** * Dispatch *)
(* ===================================================================== *)

Section DispatchFacts.

Variable S : Type.
Variable receiverErrorText : string -> string.

#[local] Abbreviation dispatch := (Tools.handleToolCall S receiverErrorText).

(** A name that is neither a registered tool nor a member of
    [Object.prototype] is answered with the unknown-tool error. *)
Lemma handleToolCall_unknown
  (tools : gmap string (Tool S)) (name : string) (args : JsValue) (s : S) :
  tools !! name = None ->
  name ∉ objectPrototypeKeys ->
  dispatch tools name args s = (Normal (unknownTool name), s).
Proof.
  intros Hown Hproto. unfold Tools.handleToolCall, lookupProperty.
  rewrite Hown. now rewrite bool_decide_eq_false_2.
Qed.

(** A registered tool that throws is answered with a structured error. *)
Lemma handleToolCall_tool_throws
  (tools : gmap string (Tool S)) (name : string) (args : JsValue) (s s' : S)
  (tool : Tool S) (e : JsError) :
  tools !! name = Some tool ->
  tool args s = (Throw e, s') ->
  dispatch tools name args s = (Normal (toolError e), s').
Proof.
  intros Hown Hthrow. unfold Tools.handleToolCall, lookupProperty, tryCatch.
  now rewrite Hown, Hthrow.
Qed.

(** Dispatch never throws. *)
Lemma handleToolCall_never_throws
  (tools : gmap string (Tool S)) (name : string) (args : JsValue) (s : S) :
  exists r s', dispatch tools name args s = (Normal r, s').
Proof.
  unfold Tools.handleToolCall, tryCatch, await, ret.
  destruct (lookupProperty S tools name) as [tool|key|].
  - destruct (tool args s) as [[r|e] s']; eauto.
  - destruct (callInherited receiverErrorText key args); eauto.
  - eauto.
Qed.

(** C4. The name [toString] is not a tool, yet the registry object inherits
    a member of that name: dispatch calls it and returns its result, the text
    ["[object Undefined]"], where the unknown-tool error is due. *)
Theorem handleToolCall_inherited_name
  (tools : gmap string (Tool S)) (args : JsValue) (s : S) :
  tools !! "toString" = None ->
  dispatch tools "toString" args s = (Normal (JStr "[object Undefined]"), s)
  /\ JStr "[object Undefined]" <> unknownTool "toString".
Proof.
  intros Hown. split; [|discriminate].
  unfold Tools.handleToolCall, lookupProperty. rewrite Hown. reflexivity.
Qed.

End DispatchFacts.

(** [handleToolCall_inherited_name] on a registry with one tool. *)
Lemma handleToolCall_inherited_name_witness :
  aboutRegistry !! "toString" = None
  /\ Tools.handleToolCall unit anyReceiverError aboutRegistry "toString" (JObj []) tt
     = (Normal (JStr "[object Undefined]"), tt).
Proof.
  split; [reflexivity|].
  apply (handleToolCall_inherited_name unit anyReceiverError aboutRegistry (JObj []) tt).
  reflexivity.
Defined.

(* ===================================================================== *)
(** * Detached notifications *)
(* ===================================================================== *)

Section MonadFacts.

Context {S A B : Type}.

Lemma bind_Normal_inv (c : M S A) (k : A -> M S B) (s s' : S) (r : B) :
  bind c k s = (Normal r, s') ->
  exists a s1, c s = (Normal a, s1) /\ k a s1 = (Normal r, s').
Proof.
  unfold bind. destruct (c s) as [[a|e] s1]; [eauto|discriminate].
Qed.

End MonadFacts.

(** The two sends of a purchase and of a sponsor inquiry, settled as
    [deliver] says. *)
#[local] Abbreviation purchaseSends deliver sms slack :=
  [mkDetached (sendTicketConfirmation sms) (deliver (sendTicketConfirmation sms))
     "SMS send failed:";
   mkDetached (notifyTicketPurchase slack) (deliver (notifyTicketPurchase slack))
     "Slack notification failed:"].

#[local] Abbreviation sponsorSends deliver sms slack :=
  [mkDetached (sendSponsorFollowUp sms) (deliver (sendSponsorFollowUp sms))
     "Sponsor SMS send failed:";
   mkDetached (notifySponsorInquiry slack) (deliver (notifySponsorInquiry slack))
     "Slack notification failed:"].

Section SideEffectFacts.

Lemma onDb_spawned {A} (c : M Db A) (w w1 : World) (r : Completion A) :
  onDb c w = (r, w1) -> spawned w1 = spawned w.
Proof.
  unfold onDb. destruct (c (db w)). now intros [= <- <-].
Qed.

Lemma ret_inv {A} (a : A) (w w1 : World) (r : Completion A) :
  ret a w = (r, w1) -> r = Normal a /\ w1 = w.
Proof. now intros [= <- <-]. Qed.

Lemma detach_run (deliver : SideEffect -> Completion unit) (e : SideEffect)
  (label : string) (w : World) :
  detach deliver e label w
  = (Normal tt, mkWorld (db w) (spawned w ++ [mkDetached e (deliver e) label])).
Proof. reflexivity. Qed.

Lemma bind_run {S A B} (c : M S A) (k : A -> M S B) (s s1 : S) (a : A) :
  c s = (Normal a, s1) -> bind c k s = k a s1.
Proof. intros H. unfold bind. now rewrite H. Qed.

(** A sponsor inquiry is recorded, starts its two notifications and answers
    [ok: true]; only the settlement of the two promises depends on
    [deliver]. *)
Lemma captureSponsorInquiry_run (inquiry : SponsorInquiryArgs) (w : World) :
  exists r d sms slack,
    get "ok" r = JBool true
    /\ forall deliver,
         captureSponsorInquiry deliver inquiry w
         = (Normal r, mkWorld d (spawned w ++ sponsorSends deliver sms slack)).
Proof.
  do 4 eexists. split; [|intros deliver; unfold captureSponsorInquiry, bind;
    rewrite logIntent_run; unfold onDb, modify; cbn [db spawned];
    rewrite !detach_run; cbn [db spawned]; rewrite <- app_assoc; reflexivity].
  reflexivity.
Qed.

Variable toLocaleDateString : bool -> Z -> string.
Variable toFixed2 : Q -> string.
Variable stripe : Stripe.

(** A successful purchase has started exactly the two notifications and has
    awaited neither: its result, the store it leaves and the two calls are
    the same however the promises settle. *)
Lemma purchaseTickets_success_run
  (deliver : SideEffect -> Completion unit) (now : Z) (uuid : string)
  (args : PurchaseTicketsArgs) (w w' : World) (r : JsValue) :
  purchaseTickets toLocaleDateString toFixed2 stripe deliver now uuid args w
  = (Normal r, w') ->
  get "ok" r = JBool true ->
  exists sms slack d,
    forall deliver',
      purchaseTickets toLocaleDateString toFixed2 stripe deliver' now uuid args w
      = (Normal r, mkWorld d (spawned w ++ purchaseSends deliver' sms slack)).
Proof.
  intros Hrun Hok. unfold purchaseTickets in Hrun.
  apply bind_Normal_inv in Hrun as ([] & w1 & H1 & Hrun).
  assert (Hs1 : spawned w1 = spawned w).
  { rewrite logIntent_run in H1. now injection H1 as <-. }
  apply bind_Normal_inv in Hrun as (eid & w2 & H2 & Hrun).
  assert (Hs2 : spawned w2 = spawned w1).
  { destruct (given (a_eventId args)).
    - now apply ret_inv in H2 as [_ ->].
    - apply bind_Normal_inv in H2 as (a & w1' & Ha & Hb).
      apply onDb_spawned in Ha. apply ret_inv in Hb as [_ ->]. exact Ha. }
  destruct eid as [eventId|].
  2:{ apply ret_inv in Hrun as [[= ->] _]. discriminate Hok. }
  apply bind_Normal_inv in Hrun as (callLogId & w3 & H3 & Hrun).
  assert (Hs3 : spawned w3 = spawned w2).
  { destruct (given (a_callSid args)).
    - apply bind_Normal_inv in H3 as (a & w2' & Ha & Hb).
      apply onDb_spawned in Ha. apply ret_inv in Hb as [_ ->]. exact Ha.
    - now apply ret_inv in H3 as [_ ->]. }
  apply bind_Normal_inv in Hrun as (result & w4 & H4 & Hrun).
  pose proof (onDb_spawned _ _ _ _ H4) as Hs4.
  destruct (success result) eqn:Hsucc.
  2:{ apply ret_inv in Hrun as [[= ->] _]. discriminate Hok. }
  apply bind_Normal_inv in Hrun as (event & w5 & H5 & Hrun).
  pose proof (onDb_spawned _ _ _ _ H5) as Hs5.
  apply bind_Normal_inv in Hrun as ([] & w6 & H6 & Hrun).
  rewrite detach_run in H6. injection H6 as <-.
  apply bind_Normal_inv in Hrun as ([] & w7 & H7 & Hrun).
  rewrite detach_run in H7. injection H7 as <-.
  apply ret_inv in Hrun as [[= ->] _].
  do 3 eexists. intros deliver'. unfold purchaseTickets.
  erewrite bind_run by exact H1.
  erewrite bind_run by exact H2.
  cbv beta iota.
  erewrite bind_run by exact H3.
  erewrite bind_run by exact H4.
  rewrite Hsucc.
  erewrite bind_run by exact H5.
  unfold bind. rewrite !detach_run. cbn [db spawned]. unfold ret.
  rewrite <- app_assoc, Hs5, Hs4, Hs3, Hs2, Hs1. reflexivity.
Qed.

(** C6. Whatever becomes of the SMS and Slack sends, the tool result is the
    one computed without them. A purchase that returned [ok: true] has made
    its two notification calls and awaited neither; had their promises
    settled in any other way [deliver'], fulfilled or rejected, the same
    purchase would have returned the same result, left the same store and
    made the same two calls, and each rejection would only have put the text
    of its [.catch] handler on the console. A sponsor inquiry returns
    [ok: true] with the same store and the same two calls however its two
    promises settle. A tool that awaited a send would take over its
    rejection; these two do not. *)
Theorem notifications_are_fire_and_forget
  (deliver : SideEffect -> Completion unit) (now : Z) (uuid : string)
  (args : PurchaseTicketsArgs) (inquiry : SponsorInquiryArgs) (w : World) :
  (forall r w',
      purchaseTickets toLocaleDateString toFixed2 stripe deliver now uuid args w
      = (Normal r, w') ->
      get "ok" r = JBool true ->
      exists sms slack,
        spawned w' = spawned w ++ purchaseSends deliver sms slack
        /\ forall deliver',
             invoke (purchaseTickets toLocaleDateString toFixed2 stripe deliver'
                       now uuid args) w
             = (Normal r,
                mkWorld (db w') (spawned w ++ purchaseSends deliver' sms slack),
                omap settle (purchaseSends deliver' sms slack)))
  /\ (exists r2 d2 sms slack,
        get "ok" r2 = JBool true
        /\ forall deliver',
             invoke (captureSponsorInquiry deliver' inquiry) w
             = (Normal r2,
                mkWorld d2 (spawned w ++ sponsorSends deliver' sms slack),
                omap settle (sponsorSends deliver' sms slack))).
Proof.
  split.
  - intros r w' Hrun Hok.
    destruct (purchaseTickets_success_run deliver now uuid args w w' r Hrun Hok)
      as (sms & slack & d & Hall).
    exists sms, slack.
    pose proof (Hall deliver) as Hself. rewrite Hrun in Hself.
    injection Hself as ->. cbn [spawned db]. split; [reflexivity|].
    intros deliver'. unfold invoke, drain. rewrite Hall. cbn [spawned db].
    rewrite drop_app_length. reflexivity.
  - destruct (captureSponsorInquiry_run inquiry w) as (r2 & d2 & sms & slack & Hok2 & Hall).
    exists r2, d2, sms, slack. split; [exact Hok2|].
    intros deliver'. unfold invoke, drain. rewrite Hall. cbn [spawned db].
    rewrite drop_app_length. reflexivity.
Qed.

End SideEffectFacts.

(** [notifications_are_fire_and_forget] with Twilio and Slack both down: two
    VIP tickets are bought, the result is [ok: true], the two calls were
    made, and there is nothing on the console since both promises are
    fulfilled; the sponsor inquiry of the same hour is answered [ok: true]
    as well. *)
Lemma notifications_are_fire_and_forget_witness :
  (exists r w' sms slack,
      purchaseTickets plainDate plainDecimal acceptingStripe servicesDown newYear2025
        someUuid buyTwoVIP seededWorld = (Normal r, w')
      /\ get "ok" r = JBool true
      /\ invoke (purchaseTickets plainDate plainDecimal acceptingStripe servicesDown
                   newYear2025 someUuid buyTwoVIP) seededWorld
         = (Normal r,
            mkWorld (db w')
              [mkDetached (sendTicketConfirmation sms) (Normal tt) "SMS send failed:";
               mkDetached (notifyTicketPurchase slack) (Normal tt)
                 "Slack notification failed:"],
            []))
  /\ (exists r2 w2,
        invoke (captureSponsorInquiry servicesDown acmeInquiry) seededWorld
        = (Normal r2, w2, [])
        /\ get "ok" r2 = JBool true).
Proof.
  destruct (notifications_are_fire_and_forget plainDate plainDecimal acceptingStripe
              servicesDown newYear2025 someUuid buyTwoVIP acmeInquiry seededWorld)
    as (Hpurchase & r2 & d2 & sms2 & slack2 & Hok2 & Hinquiry).
  split.
  - assert (Hrun : purchaseTickets plainDate plainDecimal acceptingStripe servicesDown
                     newYear2025 someUuid buyTwoVIP seededWorld = (Normal _, _))
      by (vm_compute; reflexivity).
    destruct (Hpurchase _ _ Hrun eq_refl) as (sms & slack & _ & Hinv).
    do 2 eexists. exists sms, slack.
    split; [exact Hrun|]. split; [reflexivity|].
    exact (Hinv servicesDown).
  - do 2 eexists. split; [exact (Hinquiry servicesDown)|exact Hok2].
Defined.

(** [handleToolCall_replies] on the live client: the failing handler is
    answered once, under the call's [tool_call_id]. *)
Lemma handleToolCall_replies_witness :
  socketOpen liveClient = true
  /\ sent (Realtime.handleToolCall rejectAll (Some failingHandler) pricingCall liveClient)
     = sent liveClient
         ++ [tool_output (Some "call_42")
               (JObj [("ok", JBool false); ("error", JStr "database unavailable")])].
Proof.
  destruct (handleToolCall_replies rejectAll (Some failingHandler) pricingCall liveClient)
    as (Hopen & _).
  split; [reflexivity|]. exact (Hopen eq_refl).
Defined.

(** [getEventInfo_upcoming] on the seeded store: both events are returned,
    the spring one first. *)
Lemma getEventInfo_upcoming_witness :
  exists rows,
    fst (getEventInfo plainDate plainDecimal newYear2025 None seededWorld)
    = Normal (match rows with
              | [] => okFalse "message" "No upcoming events found"
              | next :: _ =>
                  JObj [("ok", JBool true);
                        ("events", JArr (List.map (eventView plainDate plainDecimal) rows));
                        ("nextEvent", eventView plainDate plainDecimal next)]
              end)
    /\ (length rows <= 3)%nat
    /\ StronglySorted date_le rows.
Proof.
  destruct (getEventInfo_upcoming plainDate plainDecimal newYear2025 None seededWorld)
    as (rows & Hrun & Hlen & Hsorted & _).
  exists rows. auto.
Defined.

(* ===================================================================== *)
(** * Payments: what a purchase changes *)
(* ===================================================================== *)

Section PurchaseEffects.

Variable stripe : Stripe.

Lemma incrementSold_sold (t : TicketType) (n : Z) (e : Event) :
  soldOf t (incrementSold t n e) = soldOf t e + n
  /\ capacityOf GA (incrementSold t n e) = capacityOf GA e
  /\ capacityOf VIP (incrementSold t n e) = capacityOf VIP e
  /\ forall t', t' <> t -> soldOf t' (incrementSold t n e) = soldOf t' e.
Proof.
  destruct t; cbn; repeat split; auto; intros [] H; cbn; congruence.
Qed.

(** X1. A voice payment that reports success found the event, added the
    requested quantity to the sold counter of the requested tier of that
    event and of no other row, recorded one completed purchase under the
    confirmation code it returns, and left capacities alone. *)
Theorem processVoicePayment_success_effect
  (uuid : string) (args : TicketPurchaseRequest) (card : CardDetails)
  (d d' : Db) (r : PaymentResult) :
  processVoicePayment stripe uuid args card d = (Normal r, d') ->
  success r = true ->
  exists e pi,
    event d !! eventId args = Some e
    /\ event d' = <[eventId args := incrementSold (ticketType args) (quantity args) e]> (event d)
    /\ soldOf (ticketType args) (incrementSold (ticketType args) (quantity args) e)
       = soldOf (ticketType args) e + quantity args
    /\ ticketPurchase d'
       = ticketPurchase d
           ++ [purchaseRow args e pi "completed" (makeConfirmationCode uuid)]
    /\ confirmationCode r = Some (makeConfirmationCode uuid).
Proof.
  unfold processVoicePayment, tryCatch, bind, event_findUnique, gets, await, ret.
  destruct (event d !! eventId args) as [e|] eqn:He.
  - destruct (paymentMethods_create stripe _) as [pm|err].
    + destruct (paymentIntents_create stripe _) as [pi|err].
      * destruct (String.eqb (status pi) "succeeded").
        -- unfold ticketPurchase_create, modify.
           rewrite (event_update_found _ _ _ e) by exact He.
           intros [= <- <-] _. exists e, pi.
           split; [reflexivity|]. split; [reflexivity|].
           split; [apply incrementSold_sold|]. split; reflexivity.
        -- intros [= <- <-]. discriminate.
      * intros [= <- <-]. discriminate.
    + intros [= <- <-]. discriminate.
  - intros [= <- <-]. discriminate.
Qed.

(** X2. As long as Stripe does not confirm the payment, whether it throws
    on the card or on the intent or answers with an intent whose status is
    not [succeeded], a voice payment does not throw, reports
    [success: false] without a confirmation code and has written nothing:
    the first write comes after the confirmation. An unknown event is
    answered "Event not found". *)
Theorem processVoicePayment_unconfirmed_writes_nothing
  (uuid : string) (args : TicketPurchaseRequest) (card : CardDetails) (d : Db) :
  (forall p pi, paymentIntents_create stripe p = Normal pi -> status pi <> "succeeded") ->
  exists r,
    processVoicePayment stripe uuid args card d = (Normal r, d)
    /\ success r = false
    /\ confirmationCode r = None
    /\ (event d !! eventId args = None -> r = failed "Event not found").
Proof.
  intros Hnever.
  unfold processVoicePayment, tryCatch, bind, event_findUnique, gets, await, ret.
  destruct (event d !! eventId args) as [e|] eqn:He.
  - destruct (paymentMethods_create stripe _) as [pm|err].
    + destruct (paymentIntents_create stripe _) as [pi|err] eqn:Hpi.
      * apply Hnever in Hpi. apply String.eqb_neq in Hpi. rewrite Hpi.
        eexists. repeat split. discriminate.
      * eexists. repeat split. discriminate.
    + eexists. repeat split. discriminate.
  - eexists. repeat split.
Qed.

(** X3. With a Stripe account that confirms every payment, a voice payment
    for an existing event succeeds whatever the event's [active] flag, its
    date, the tickets left and the quantity asked for. *)
Theorem processVoicePayment_succeeds_when_stripe_confirms
  (uuid : string) (args : TicketPurchaseRequest) (card : CardDetails)
  (d : Db) (e : Event) :
  (forall c, exists pm, paymentMethods_create stripe c = Normal pm) ->
  (forall p, exists pi, paymentIntents_create stripe p = Normal pi
                        /\ status pi = "succeeded") ->
  event d !! eventId args = Some e ->
  exists r d',
    processVoicePayment stripe uuid args card d = (Normal r, d')
    /\ success r = true
    /\ (soldOf (ticketType args) <$> event d' !! eventId args)
       = Some (soldOf (ticketType args) e + quantity args).
Proof.
  intros Hpm Hpi He.
  unfold processVoicePayment, tryCatch, bind, event_findUnique, gets, await, ret.
  rewrite He.
  match goal with |- context [paymentMethods_create stripe ?c] =>
    destruct (Hpm c) as [pm ->] end.
  match goal with |- context [paymentIntents_create stripe ?p] =>
    destruct (Hpi p) as [pi [-> Hs]] end.
  rewrite Hs, String.eqb_refl.
  unfold ticketPurchase_create, modify.
  rewrite (event_update_found _ _ _ e) by exact He.
  do 2 eexists. split; [reflexivity|]. split; [reflexivity|].
  cbn. rewrite lookup_insert_eq. cbn. f_equal. apply incrementSold_sold.
Qed.

(* What a successful result of the checkout path says about the run. *)
Lemma createTicketPaymentIntent_success_inv
  (uuid : string) (request : TicketPurchaseRequest) (d d' : Db) (r : PaymentResult) :
  createTicketPaymentIntent stripe uuid request d = (Normal r, d') ->
  success r = true ->
  exists e pi,
    event d !! eventId request = Some e
    /\ active e = true
    /\ soldOf (ticketType request) e + quantity request <= capacityOf (ticketType request) e
    /\ event d' = event d
    /\ ticketPurchase d'
       = ticketPurchase d
           ++ [purchaseRow request e pi "pending" (makeConfirmationCode uuid)]
    /\ confirmationCode r = Some (makeConfirmationCode uuid)
    /\ paymentIntentId r = Some (pi_id pi).
Proof.
  unfold createTicketPaymentIntent, tryCatch, bind, event_findUnique, gets, await, ret.
  destruct (event d !! eventId request) as [e|] eqn:He; [|intros [= <- <-]; discriminate].
  destruct (active e) eqn:Ha; cbn [negb]; [|intros [= <- <-]; discriminate].
  destruct (_ <? _) eqn:Hfull; [intros [= <- <-]; discriminate|].
  destruct (paymentIntents_create stripe _) as [pi|err]; [|intros [= <- <-]; discriminate].
  unfold ticketPurchase_create, modify. intros [= <- <-] _.
  exists e, pi. apply Z.ltb_ge in Hfull. repeat split; auto.
Qed.

(** X4. The checkout path accepts a request only for an existing, active
    event with enough tickets left at that moment; it then records one
    pending purchase under the returned confirmation code and reserves
    nothing: every event row, counters included, is as before. *)
Theorem createTicketPaymentIntent_accepts
  (uuid : string) (request : TicketPurchaseRequest) (d d' : Db) (r : PaymentResult) :
  createTicketPaymentIntent stripe uuid request d = (Normal r, d') ->
  success r = true ->
  exists e pi,
    event d !! eventId request = Some e
    /\ active e = true
    /\ soldOf (ticketType request) e + quantity request <= capacityOf (ticketType request) e
    /\ event d' = event d
    /\ ticketPurchase d'
       = ticketPurchase d
           ++ [purchaseRow request e pi "pending" (makeConfirmationCode uuid)]
    /\ confirmationCode r = Some (makeConfirmationCode uuid)
    /\ paymentIntentId r = Some (pi_id pi).
Proof. intros. eapply createTicketPaymentIntent_success_inv; eassumption. Qed.

(** X5. The checkout path never throws, and a refused request leaves the
    store untouched. *)
Theorem createTicketPaymentIntent_failure_no_change
  (uuid : string) (request : TicketPurchaseRequest) (d : Db) :
  exists r d',
    createTicketPaymentIntent stripe uuid request d = (Normal r, d')
    /\ (success r = false -> d' = d).
Proof.
  unfold createTicketPaymentIntent, tryCatch, bind, event_findUnique, gets, await, ret.
  destruct (event d !! eventId request) as [e|] eqn:He; [|eauto].
  destruct (active e) eqn:Ha; cbn [negb]; [|eauto].
  destruct (_ <? _) eqn:Hfull; [eauto|].
  destruct (paymentIntents_create stripe _) as [pi|err]; [|eauto].
  unfold ticketPurchase_create, modify.
  do 2 eexists. split; [reflexivity|]. discriminate.
Qed.

(** X6. For an active event, a checkout request for more tickets than are
    left is refused with the number left in the message, before Stripe is
    asked and without any write. *)
Theorem createTicketPaymentIntent_sold_out
  (uuid : string) (request : TicketPurchaseRequest) (d : Db) (e : Event) :
  event d !! eventId request = Some e ->
  active e = true ->
  capacityOf (ticketType request) e < soldOf (ticketType request) e + quantity request ->
  createTicketPaymentIntent stripe uuid request d
  = (Normal (failed ("Only "
                     ++ numberToString (capacityOf (ticketType request) e
                                        - soldOf (ticketType request) e)
                     ++ " " ++ ticketTypeName (ticketType request)
                     ++ " tickets remaining")%string), d).
Proof.
  intros He Ha Hfull. apply Z.ltb_lt in Hfull.
  unfold createTicketPaymentIntent, tryCatch, bind, event_findUnique, gets, await, ret.
  rewrite He, Ha. cbn [negb]. rewrite Hfull. reflexivity.
Qed.

End PurchaseEffects.

(* ===================================================================== *)
(** * Payment webhooks *)
(* ===================================================================== *)

Section WebhookFacts.

Import PaymentWebhooks.

Lemma digitPrefix_uint (d : Decimal.uint) :
  digitPrefix (NilEmpty.string_of_uint d) = NilEmpty.string_of_uint d.
Proof.
  induction d as [|d IH|d IH|d IH|d IH|d IH|d IH|d IH|d IH|d IH|d IH]; [reflexivity|..];
    cbn [NilEmpty.string_of_uint digitPrefix];
    match goal with |- context [isDigit ?c] => change (isDigit c) with true end;
    cbv iota; now rewrite IH.
Qed.

Lemma parseUnsigned_uint (d : Decimal.uint) :
  d <> Decimal.Nil ->
  parseUnsigned (NilEmpty.string_of_uint d) = Some (Z.of_uint d).
Proof.
  intros Hd.
  assert (Hdec : parseDecimal (NilEmpty.string_of_uint d) = Some (Z.of_uint d)).
  { unfold parseDecimal. rewrite digitPrefix_uint.
    destruct (NilEmpty.string_of_uint d) eqn:Hs.
    - destruct d; try discriminate Hs. congruence.
    - rewrite <- Hs, NilEmpty.usu. reflexivity. }
  rewrite <- Hdec.
  destruct d as [|d|d|d|d|d|d|d|d|d|d]; try reflexivity.
  destruct d; reflexivity.
Qed.

(** [parseInt] reads back what a template literal prints for an integer. *)
Lemma parseInt_numberToString (z : Z) : parseInt (numberToString z) = Some z.
Proof.
  unfold numberToString.
  destruct z as [|p|p]; [reflexivity| |].
  - cbn [Z.to_int NilZero.string_of_int].
    pose proof (DecimalPos.Unsigned.to_uint_nonnil p) as Hnn.
    assert (Hs : NilZero.string_of_uint (Pos.to_uint p)
                 = NilEmpty.string_of_uint (Pos.to_uint p)).
    { destruct (Pos.to_uint p); [congruence|reflexivity..]. }
    rewrite Hs.
    assert (Hval : parseUnsigned (NilEmpty.string_of_uint (Pos.to_uint p)) = Some (Z.pos p)).
    { rewrite parseUnsigned_uint by exact Hnn. unfold Z.of_uint.
      now rewrite DecimalPos.Unsigned.of_to. }
    rewrite <- Hval. unfold parseInt.
    destruct (Pos.to_uint p); [congruence|reflexivity..].
  - cbn [Z.to_int NilZero.string_of_int].
    pose proof (DecimalPos.Unsigned.to_uint_nonnil p) as Hnn.
    assert (Hs : NilZero.string_of_uint (Pos.to_uint p)
                 = NilEmpty.string_of_uint (Pos.to_uint p)).
    { destruct (Pos.to_uint p); [congruence|reflexivity..]. }
    rewrite Hs.
    change (parseInt (String "-" (NilEmpty.string_of_uint (Pos.to_uint p))))
      with (Z.opp <$> parseUnsigned (NilEmpty.string_of_uint (Pos.to_uint p))).
    rewrite parseUnsigned_uint by exact Hnn. unfold Z.of_uint.
    now rewrite DecimalPos.Unsigned.of_to.
Qed.

Lemma updateMany_run (i status : string) (d : Db) :
  ticketPurchase_updateMany i status d
  = (Normal tt,
     with_ticketPurchase
       (List.map (fun row => if String.eqb (tp_stripePaymentId row) i
                             then setStatus status row else row)) d).
Proof. reflexivity. Qed.

(* The run of the success handler on well-formed metadata. *)
Lemma handlePaymentSuccess_run
  (pi : WebhookIntent) (d : Db) (i code : string) (q : Z) (e : Event) :
  metadataField "confirmationCode" pi = Some code ->
  code <> "" ->
  metadataField "eventId" pi = Some i ->
  parseInt (default "1" (given (metadataField "quantity" pi))) = Some q ->
  event d !! i = Some e ->
  let tier := if bool_decide (metadataField "ticketType" pi = Some "VIP") then VIP else GA in
  exists d',
    handlePaymentSuccess pi d = (Normal tt, d')
    /\ event d' = <[i := incrementSold tier q e]> (event d)
    /\ ticketPurchase d'
       = List.map (fun row => if String.eqb (tp_stripePaymentId row) (intent_id pi)
                              then setStatus "completed" row else row)
                  (ticketPurchase d).
Proof.
  intros Hcode Hne Hid Hq He tier.
  unfold handlePaymentSuccess. rewrite Hcode. cbn [given].
  destruct (String.eqb code "") eqn:Hc; [apply String.eqb_eq in Hc; contradiction|].
  unfold bind. rewrite updateMany_run, Hid, Hq. subst tier.
  destruct (bool_decide _);
    (rewrite (event_update_found _ _ _ e) by exact He);
    eexists; repeat split; reflexivity.
Qed.

(** X7. A success webhook whose metadata carries a confirmation code, the id
    of an existing event and a quantity that [parseInt] reads marks every
    purchase of that payment intent completed and adds the quantity to the
    sold counter of the tier named in the metadata (general admission unless
    the tier is exactly VIP). *)
Theorem handlePaymentSuccess_effect
  (pi : WebhookIntent) (d : Db) (i code : string) (q : Z) (e : Event) :
  metadataField "confirmationCode" pi = Some code ->
  code <> "" ->
  metadataField "eventId" pi = Some i ->
  parseInt (default "1" (given (metadataField "quantity" pi))) = Some q ->
  event d !! i = Some e ->
  let tier := if bool_decide (metadataField "ticketType" pi = Some "VIP") then VIP else GA in
  exists d',
    handlePaymentSuccess pi d = (Normal tt, d')
    /\ event d' = <[i := incrementSold tier q e]> (event d)
    /\ ticketPurchase d'
       = List.map (fun row => if String.eqb (tp_stripePaymentId row) (intent_id pi)
                              then setStatus "completed" row else row)
                  (ticketPurchase d).
Proof. intros. eapply handlePaymentSuccess_run; eassumption. Qed.

Lemma handlePaymentSuccess_without_code (pi : WebhookIntent) (d : Db) :
  given (metadataField "confirmationCode" pi) = None ->
  handlePaymentSuccess pi d = (Normal tt, d).
Proof. intros H. unfold handlePaymentSuccess. now rewrite H. Qed.

(** X8. Delivering the same success webhook twice counts the tickets
    twice: the sold counter ends two quantities higher. *)
Theorem handlePaymentSuccess_replay_counts_twice
  (pi : WebhookIntent) (d : Db) (i code : string) (q : Z) (e : Event) :
  metadataField "confirmationCode" pi = Some code ->
  code <> "" ->
  metadataField "eventId" pi = Some i ->
  parseInt (default "1" (given (metadataField "quantity" pi))) = Some q ->
  event d !! i = Some e ->
  let tier := if bool_decide (metadataField "ticketType" pi = Some "VIP") then VIP else GA in
  exists d1 d2,
    handlePaymentSuccess pi d = (Normal tt, d1)
    /\ handlePaymentSuccess pi d1 = (Normal tt, d2)
    /\ (soldOf tier <$> event d2 !! i) = Some (soldOf tier e + 2 * q).
Proof.
  intros Hcode Hne Hid Hq He tier.
  destruct (handlePaymentSuccess_run pi d i code q e Hcode Hne Hid Hq He)
    as (d1 & Hrun1 & Hev1 & _).
  assert (He1 : event d1 !! i = Some (incrementSold tier q e)).
  { rewrite Hev1. apply lookup_insert_eq. }
  destruct (handlePaymentSuccess_run pi d1 i code q _ Hcode Hne Hid Hq He1)
    as (d2 & Hrun2 & Hev2 & _).
  exists d1, d2. split; [exact Hrun1|]. split; [exact Hrun2|].
  rewrite Hev2, lookup_insert_eq. cbn. f_equal.
  fold tier.
  destruct (incrementSold_sold tier q (incrementSold tier q e)) as [H2 _].
  destruct (incrementSold_sold tier q e) as [H1 _].
  rewrite H2, H1. lia.
Qed.

(** X9. The checkout round trip: when the success webhook of an accepted
    checkout request arrives with the metadata the request was created with,
    the purchase recorded as pending becomes completed and the sold counter
    of the requested tier grows by the requested quantity. *)
Theorem checkout_then_webhook
  (stripe : Stripe) (uuid : string) (request : TicketPurchaseRequest)
  (d d1 : Db) (r : PaymentResult) (wi : WebhookIntent) :
  createTicketPaymentIntent stripe uuid request d = (Normal r, d1) ->
  success r = true ->
  paymentIntentId r = Some (intent_id wi) ->
  metadataField "eventId" wi = Some (eventId request) ->
  metadataField "ticketType" wi = Some (ticketTypeName (ticketType request)) ->
  metadataField "quantity" wi = Some (numberToString (quantity request)) ->
  metadataField "confirmationCode" wi = confirmationCode r ->
  exists e pi d2,
    event d !! eventId request = Some e
    /\ handlePaymentSuccess wi d1 = (Normal tt, d2)
    /\ (soldOf (ticketType request) <$> event d2 !! eventId request)
       = Some (soldOf (ticketType request) e + quantity request)
    /\ last (ticketPurchase d2)
       = Some (purchaseRow request e pi "completed" (makeConfirmationCode uuid)).
Proof.
  intros Hrun Hok Hpid Hid Htype Hq Hcode.
  destruct (createTicketPaymentIntent_success_inv stripe uuid request d d1 r Hrun Hok)
    as (e & pi & He & _ & _ & Hev & Hrows & Hc & Hp).
  rewrite Hc in Hcode. rewrite Hp in Hpid. injection Hpid as Hpid.
  assert (He1 : event d1 !! eventId request = Some e) by (rewrite Hev; exact He).
  assert (Hparse : parseInt (default "1" (given (metadataField "quantity" wi)))
                   = Some (quantity request)).
  { rewrite Hq. cbn [given].
    destruct (String.eqb (numberToString (quantity request)) "") eqn:Hz.
    - apply String.eqb_eq in Hz.
      pose proof (parseInt_numberToString (quantity request)) as Hp'.
      rewrite Hz in Hp'. discriminate Hp'.
    - cbn. apply parseInt_numberToString. }
  destruct (handlePaymentSuccess_run wi d1 (eventId request) _ (quantity request) e
              Hcode ltac:(discriminate) Hid Hparse He1) as (d2 & Hrun2 & Hev2 & Hrows2).
  assert (Htier : (if bool_decide (metadataField "ticketType" wi = Some "VIP")
                   then VIP else GA) = ticketType request).
  { rewrite Htype. destruct (ticketType request); reflexivity. }
  rewrite Htier in Hev2.
  exists e, pi, d2. split; [exact He|]. split; [exact Hrun2|]. split.
  - rewrite Hev2, lookup_insert_eq. cbn. f_equal. apply incrementSold_sold.
  - rewrite Hrows2, Hrows, map_app. cbn [List.map]. rewrite last_snoc.
    cbn [purchaseRow tp_stripePaymentId]. rewrite Hpid, String.eqb_refl. reflexivity.
Qed.

(** X10. A failure webhook never touches an event row: it only sets the
    status of the purchases of its payment intent to failed, and leaves every
    other purchase as it is. *)
Theorem handlePaymentFailed_effect (pi : WebhookIntent) (d : Db) :
  exists d',
    handlePaymentFailed pi d = (Normal tt, d')
    /\ event d' = event d
    /\ length (ticketPurchase d') = length (ticketPurchase d)
    /\ forall n row,
         ticketPurchase d !! n = Some row ->
         ticketPurchase d' !! n
         = Some (if String.eqb (tp_stripePaymentId row) (intent_id pi)
                 then setStatus "failed" row else row).
Proof.
  eexists. split; [reflexivity|]. split; [reflexivity|]. split.
  - cbn. now rewrite length_map.
  - intros n row Hrow. cbn. rewrite list_lookup_fmap, Hrow. reflexivity.
Qed.

Variable endpointSecret : option string.
Variable constructEvent : string -> string -> string -> Completion StripeEvent.

(** X11. The webhook route changes the store only for an event that
    [constructEvent] has verified: a request without a signature header, or
    received while no webhook secret is configured, is answered 400
    "Missing signature"; a request whose verification throws is answered 400
    with the error's message; in both cases nothing is written. A verified
    event of any other type than the two payment-intent ones is answered
    [{received: true}] with nothing written. *)
Theorem webhook_writes_only_for_verified_events (req : WebhookRequest) (d : Db) :
  (given (stripe_signature req) = None \/ given endpointSecret = None ->
   webhook endpointSecret constructEvent req d
   = (Normal (mkResponse 400 (JStr "Missing signature")), d))
  /\ (forall sig secret err,
        given (stripe_signature req) = Some sig ->
        given endpointSecret = Some secret ->
        constructEvent (rawBody req) sig secret = Throw err ->
        webhook endpointSecret constructEvent req d
        = (Normal (mkResponse 400 (JStr ("Webhook Error: " ++ message err)%string)), d))
  /\ (forall sig secret event,
        given (stripe_signature req) = Some sig ->
        given endpointSecret = Some secret ->
        constructEvent (rawBody req) sig secret = Normal event ->
        (forall pi, event <> payment_intent_succeeded pi) ->
        (forall pi, event <> payment_intent_payment_failed pi) ->
        webhook endpointSecret constructEvent req d
        = (Normal (mkResponse 200 (JObj [("received", JBool true)])), d)).
Proof.
  unfold webhook. split; [|split].
  - intros [H|H]; rewrite H; [reflexivity|].
    destruct (given (stripe_signature req)); reflexivity.
  - intros sig secret err Hs Hk Hc. now rewrite Hs, Hk, Hc.
  - intros sig secret event Hs Hk Hc Hn1 Hn2. rewrite Hs, Hk, Hc.
    destruct event as [pi|pi|c|t]; [destruct (Hn1 pi eq_refl)|destruct (Hn2 pi eq_refl)|..];
      reflexivity.
Qed.

End WebhookFacts.

(* ===================================================================== *)
(** * Text messages and Slack notifications *)
(* ===================================================================== *)

Section StringFacts.

Lemma prefix_append (s t : string) : String.prefix s (s ++ t) = true.
Proof.
  induction s as [|c s IH]; [destruct t; reflexivity|].
  simpl. destruct (ascii_dec c c); [exact IH|congruence].
Qed.

Lemma includes_cons (n : string) (c : ascii) (h : string) :
  includes n (String c h) = (String.prefix n (String c h) || includes n h)%bool.
Proof. reflexivity. Qed.

Lemma includes_here (n t : string) : includes n (n ++ t) = true.
Proof.
  destruct (n ++ t)%string as [|c h] eqn:E.
  - destruct n; [reflexivity|discriminate E].
  - now rewrite includes_cons, <- E, prefix_append.
Qed.

Lemma includes_append_r (n a h : string) :
  includes n h = true -> includes n (a ++ h) = true.
Proof.
  intros H. induction a as [|c a IH]; [exact H|].
  change (String c a ++ h)%string with (String c (a ++ h)%string).
  rewrite includes_cons, IH. apply orb_true_r.
Qed.

Lemma substring_length (n : nat) (s : string) :
  String.length (String.substring 0 n s) = Nat.min n (String.length s).
Proof.
  revert n. induction s as [|c s IH]; intros [|n]; cbn; auto.
Qed.

Lemma substring_all (n : nat) (s : string) :
  (String.length s <= n)%nat -> String.substring 0 n s = s.
Proof.
  revert n. induction s as [|c s IH]; intros [|n] H; cbn in *; try reflexivity; try lia.
  f_equal. apply IH. lia.
Qed.

Lemma append_length (s t : string) :
  String.length (s ++ t) = (String.length s + String.length t)%nat.
Proof. induction s as [|c s IH]; simpl; [reflexivity|now rewrite IH]. Qed.

Lemma append_empty_r (s : string) : (s ++ "")%string = s.
Proof.
  induction s as [|c s IH]; [reflexivity|].
  change (String c s ++ "")%string with (String c (s ++ "")%string). now rewrite IH.
Qed.

Lemma digitsOf_idempotent (s : string) : Sms.digitsOf (Sms.digitsOf s) = Sms.digitsOf s.
Proof.
  induction s as [|c s IH]; [reflexivity|].
  cbn. destruct (PaymentWebhooks.isDigit c) eqn:Hc; [|exact IH].
  cbn. now rewrite Hc, IH.
Qed.

Lemma prefix_one (s : string) :
  String.prefix "1" s = true -> exists rest, s = String "1" rest.
Proof.
  destruct s as [|c s]; [discriminate|].
  change (String.prefix "1" (String c s))
    with (if ascii_dec "1" c then String.prefix "" s else false).
  destruct (ascii_dec "1" c) as [<-|]; intros H; [eauto|discriminate H].
Qed.

End StringFacts.

Ltac includes_search :=
  repeat first [apply includes_here | apply includes_append_r].

Section SmsFacts.

Import Sms.

Variable FROM_NUMBER : option string.
Variable MESSAGING_SERVICE_SID : option string.
Variable twilio : MessageOptions -> Completion string.

#[local] Abbreviation send := (sendSMS FROM_NUMBER MESSAGING_SERVICE_SID twilio).

(* A short number is refused before anything else happens. *)
Lemma sendSMS_short_number (options : SMSOptions) (requests : list MessageOptions) :
  (String.length (digitsOf (to options)) < 10)%nat ->
  send options requests = (Normal (smsFailed "Invalid phone number"), requests).
Proof.
  intros H. unfold sendSMS. apply Nat.ltb_lt in H. now rewrite H.
Qed.

(** X12. A destination with fewer than ten digits is refused as an invalid
    phone number and no request reaches Twilio. *)
Theorem sendSMS_invalid_phone (options : SMSOptions) (requests : list MessageOptions) :
  (String.length (digitsOf (to options)) < 10)%nat ->
  send options requests = (Normal (smsFailed "Invalid phone number"), requests).
Proof. intros. eapply sendSMS_short_number; eassumption. Qed.

(* The shape of every run of [sendSMS]. *)
Lemma sendSMS_run (options : SMSOptions) (requests : list MessageOptions) :
  exists r requests',
    send options requests = (Normal r, requests')
    /\ (requests' = requests /\ success r = false
        \/ exists m ds,
             requests' = requests ++ [m]
             /\ m_body m = body options
             /\ m_to m = ("+1" ++ ds)%string
             /\ digitsOf ds = ds
             /\ (digitsOf (to options) = String "1" ds \/ digitsOf (to options) = ds)
             /\ (success r = true <-> exists s, twilio m = Normal s /\ sid r = Some s)).
Proof.
  unfold sendSMS.
  destruct (Nat.ltb _ 10); [do 2 eexists; split; [reflexivity|left; auto]|].
  assert (Hfmt : exists ds, formatPhone (digitsOf (to options)) = ("+1" ++ ds)%string
                            /\ digitsOf ds = ds
                            /\ (digitsOf (to options) = String "1" ds
                                \/ digitsOf (to options) = ds)).
  { unfold formatPhone.
    destruct (String.prefix "1" (digitsOf (to options))) eqn:Hp.
    - apply prefix_one in Hp as [rest Hrest]. exists rest.
      rewrite Hrest. split; [reflexivity|]. split; [|auto].
      pose proof (digitsOf_idempotent (to options)) as Hi.
      rewrite Hrest in Hi. cbn in Hi. injection Hi as Hi. exact Hi.
    - exists (digitsOf (to options)). split; [reflexivity|].
      split; [apply digitsOf_idempotent|auto]. }
  destruct Hfmt as (ds & Hfmt & Hds & Horig).
  unfold tryCatch, bind, messages_create, ret.
  destruct (given MESSAGING_SERVICE_SID) as [service|];
    [|destruct (given FROM_NUMBER) as [from|]].
  3:{ do 2 eexists. split; [reflexivity|left; auto]. }
  all: match goal with |- context [twilio ?m] => destruct (twilio m) as [s|err] eqn:Ht end;
    do 2 eexists; (split; [reflexivity|]); right; do 2 eexists;
    (split; [reflexivity|]); (split; [reflexivity|]); (split; [exact Hfmt|]);
    (split; [exact Hds|]); (split; [exact Horig|]); cbn [success sid];
    rewrite Ht; split; try discriminate; eauto.
  all: intros (s' & Hs' & _); discriminate.
Qed.

(** X13. [sendSMS] never throws and makes at most one request to Twilio.
    The request carries the text unchanged and a destination of the form
    [+1] followed by digits only: the digits of the given number, with the
    country code 1 put in front unless they already start with 1. It
    reports success exactly when Twilio accepted that request, with the sid
    Twilio returned. *)
Theorem sendSMS_request (options : SMSOptions) (requests : list MessageOptions) :
  exists r requests',
    send options requests = (Normal r, requests')
    /\ (requests' = requests /\ success r = false
        \/ exists m ds,
             requests' = requests ++ [m]
             /\ m_body m = body options
             /\ m_to m = ("+1" ++ ds)%string
             /\ digitsOf ds = ds
             /\ (digitsOf (to options) = String "1" ds \/ digitsOf (to options) = ds)
             /\ (success r = true <-> exists s, twilio m = Normal s /\ sid r = Some s)).
Proof. intros. eapply sendSMS_run; eassumption. Qed.

(** X14. The messaging service, when configured, is the sender and no
    [from] number is given; otherwise the voice number is; with neither
    configured the message is refused before Twilio is asked. *)
Theorem sendSMS_sender (options : SMSOptions) (requests requests' : list MessageOptions)
  (r : SmsResult) :
  (10 <= String.length (digitsOf (to options)))%nat ->
  send options requests = (Normal r, requests') ->
  match given MESSAGING_SERVICE_SID, given FROM_NUMBER with
  | Some service, _ =>
      exists m, requests' = requests ++ [m]
                /\ m_messagingServiceSid m = Some service /\ m_from m = None
  | None, Some from =>
      exists m, requests' = requests ++ [m]
                /\ m_messagingServiceSid m = None /\ m_from m = Some from
  | None, None => requests' = requests /\ r = smsFailed "No SMS sender configured"
  end.
Proof.
  intros Hlen. unfold sendSMS. apply Nat.ltb_ge in Hlen. rewrite Hlen.
  unfold tryCatch, bind, messages_create, ret.
  destruct (given MESSAGING_SERVICE_SID) as [service|];
    [|destruct (given FROM_NUMBER) as [from|]].
  3:{ intros [= <- <-]. auto. }
  all: match goal with |- context [twilio ?m] => destruct (twilio m) end;
    intros [= <- <-]; eexists; repeat split; reflexivity.
Qed.

(** X15. The ticket confirmation text contains the confirmation code, the
    customer's name, the event name and the total. *)
Theorem ticketConfirmationBody_contents (o : TicketConfirmation) :
  includes (tc_confirmationCode o) (ticketConfirmationBody o) = true
  /\ includes (tc_customerName o) (ticketConfirmationBody o) = true
  /\ includes (tc_eventName o) (ticketConfirmationBody o) = true
  /\ includes (tc_totalPrice o) (ticketConfirmationBody o) = true.
Proof.
  unfold ticketConfirmationBody. repeat split; includes_search.
Qed.

(** X16. The transcript quoted in a voicemail notification, counted in
    UTF-16 code units as [length] and [substring] count, is the transcript
    itself when it has at most 300 of them, and otherwise its first 300
    followed by the three of an ellipsis: never more than 303. *)
Theorem transcriptExcerpt_bounded (transcript : Utf16) :
  (length (transcriptExcerpt transcript) <= 303)%nat
  /\ ((length transcript <= 300)%nat -> transcriptExcerpt transcript = transcript)
  /\ ((300 < length transcript)%nat ->
      transcriptExcerpt transcript = firstn 300 transcript ++ units "..."
      /\ length (transcriptExcerpt transcript) = 303%nat).
Proof.
  unfold transcriptExcerpt.
  destruct (Nat.ltb 300 (length transcript)) eqn:Hlong.
  - apply Nat.ltb_lt in Hlong.
    assert (Hlen : length (firstn 300 transcript ++ units "...") = 303%nat).
    { rewrite length_app, length_take. cbn [units list_ascii_of_string List.map length]. lia. }
    split; [lia|]. split; [lia|]. intros _. split; [reflexivity|exact Hlen].
  - apply Nat.ltb_ge in Hlong. rewrite app_nil_r.
    split; [rewrite length_take; lia|]. split; [|lia].
    intros _. apply firstn_all2. exact Hlong.
Qed.

End SmsFacts.

Section SlackFacts.

Import Notifications.

Variable SLACK_WEBHOOK_URL : option string.
Variable fetch : SlackPost -> Completion FetchResponse.

#[local] Abbreviation slack := (sendSlackNotification SLACK_WEBHOOK_URL fetch).

(* The shape of every run of [sendSlackNotification]. *)
Lemma sendSlackNotification_run (message : SlackMessage) (requests : list SlackPost) :
  (given SLACK_WEBHOOK_URL = None ->
   slack message requests = (Normal (mkSlackResult true None), requests))
  /\ (forall webhook, given SLACK_WEBHOOK_URL = Some webhook ->
      exists r p,
        slack message requests = (Normal r, requests ++ [p])
        /\ url p = webhook
        /\ (success r = true <-> exists resp, fetch p = Normal resp /\ ok resp = true)
        /\ (forall resp, fetch p = Normal resp -> ok resp = false ->
            error r = Some ("Slack returned " ++ numberToString (status resp))%string)).
Proof.
  unfold sendSlackNotification. split.
  - intros ->. reflexivity.
  - intros webhook ->. unfold tryCatch, bind, post, ret, throw.
    match goal with |- context [fetch ?p] => destruct (fetch p) as [resp|err] eqn:Hf end.
    + destruct (ok resp) eqn:Hok; cbn [negb]; do 2 eexists;
        (split; [reflexivity|]); (split; [reflexivity|]); rewrite Hf; cbn [success error].
      * split; [split; eauto|]. intros resp' [= <-]. congruence.
      * split; [split; [discriminate|]|].
        -- intros (resp' & [= <-] & Hok'). congruence.
        -- intros resp' [= <-] _. reflexivity.
    + do 2 eexists. (split; [reflexivity|]); (split; [reflexivity|]).
      rewrite Hf. cbn [success]. split; [split; [discriminate|]|discriminate].
      intros (resp & Hresp & _). discriminate.
Qed.

(** X17. Without a Slack webhook URL a notification succeeds without any
    request. With one, exactly one request goes to that URL, nothing is
    thrown, and the result is a success exactly when the request resolved
    with an ok response; a response that is not ok is reported as
    "Slack returned <status>". *)
Theorem sendSlackNotification_result (message : SlackMessage) (requests : list SlackPost) :
  (given SLACK_WEBHOOK_URL = None ->
   slack message requests = (Normal (mkSlackResult true None), requests))
  /\ (forall webhook, given SLACK_WEBHOOK_URL = Some webhook ->
      exists r p,
        slack message requests = (Normal r, requests ++ [p])
        /\ url p = webhook
        /\ (success r = true <-> exists resp, fetch p = Normal resp /\ ok resp = true)
        /\ (forall resp, fetch p = Normal resp -> ok resp = false ->
            error r = Some ("Slack returned " ++ numberToString (status resp))%string)).
Proof. intros. eapply sendSlackNotification_run; eassumption. Qed.

Lemma sendSlackNotification_total (message : SlackMessage) (requests : list SlackPost) :
  exists r requests',
    slack message requests = (Normal r, requests')
    /\ (length requests' <= S (length requests))%nat.
Proof.
  destruct (sendSlackNotification_run message requests) as [Hnone Hsome].
  destruct (given SLACK_WEBHOOK_URL) as [webhook|] eqn:Hu.
  - destruct (Hsome webhook eq_refl) as (r & p & Hrun & _).
    exists r, (requests ++ [p]). split; [exact Hrun|]. rewrite length_app. cbn. lia.
  - exists (mkSlackResult true None), requests. split; [now apply Hnone|]. lia.
Qed.

(** X18. The three notifications the tools start never reject: whether
    Slack is unconfigured, unreachable or answers with an error, each
    resolves normally after at most one request. *)
Theorem notifications_never_reject (now : Z) (requests : list SlackPost)
  (customerName customerPhone eventName ticketType totalPrice confirmationCode : string)
  (quantity : Z) (contactName phone tier fromNumber : string)
  (companyName email callerName reason : option string) :
  (exists requests',
      notifyTicketPurchase SLACK_WEBHOOK_URL fetch now customerName customerPhone
        eventName ticketType quantity totalPrice confirmationCode requests
      = (Normal tt, requests')
      /\ (length requests' <= S (length requests))%nat)
  /\ (exists requests',
        notifySponsorInquiry SLACK_WEBHOOK_URL fetch now contactName companyName phone
          email tier requests
        = (Normal tt, requests')
        /\ (length requests' <= S (length requests))%nat)
  /\ (exists requests',
        notifyTransferRequest SLACK_WEBHOOK_URL fetch now fromNumber callerName reason
          requests
        = (Normal tt, requests')
        /\ (length requests' <= S (length requests))%nat).
Proof.
  unfold notifyTicketPurchase, notifySponsorInquiry, notifyTransferRequest, bind, ret.
  repeat split;
    match goal with |- context [sendSlackNotification _ _ ?m ?q] =>
      destruct (sendSlackNotification_total m q) as (r & q' & -> & Hlen) end;
    eauto.
Qed.

End SlackFacts.

(* ===================================================================== *)
(** * More of the tool registry *)
(* ===================================================================== *)

Section MoreToolFacts.

Import MoreTools.

Lemma lowerAscii_idempotent (c : ascii) : lowerAscii (lowerAscii c) = lowerAscii c.
Proof. destruct c as [[] [] [] [] [] [] [] []]; reflexivity. Qed.

Lemma toLowerCase_idempotent (s : string) : toLowerCase (toLowerCase s) = toLowerCase s.
Proof.
  induction s as [|c s IH]; [reflexivity|].
  cbn [toLowerCase]. now rewrite lowerAscii_idempotent, IH.
Qed.

Lemma toLowerCase_length (s : string) : String.length (toLowerCase s) = String.length s.
Proof. induction s as [|c s IH]; [reflexivity|]. cbn [toLowerCase String.length]. now rewrite IH. Qed.

Lemma isAscii_substring (n m : nat) (s : string) :
  isAscii s = true -> isAscii (String.substring n m s) = true.
Proof.
  revert n m. induction s as [|c s IH]; intros n m H.
  - destruct n, m; reflexivity.
  - unfold isAscii in H. cbn [list_ascii_of_string forallb] in H.
    apply andb_true_iff in H as [Hc Hs].
    destruct n as [|n]; destruct m as [|m]; cbn [String.substring]; try reflexivity.
    + unfold isAscii. cbn [list_ascii_of_string forallb].
      rewrite Hc. exact (IH 0%nat m Hs).
    + exact (IH n 0%nat Hs).
    + exact (IH n (S m) Hs).
Qed.

Lemma lowerAscii_ascii (c : ascii) :
  Nat.ltb (nat_of_ascii c) 128 = true -> Nat.ltb (nat_of_ascii (lowerAscii c)) 128 = true.
Proof. destruct c as [[] [] [] [] [] [] [] []]; vm_compute; congruence. Qed.

Lemma isAscii_toLowerCase (s : string) :
  isAscii s = true -> isAscii (toLowerCase s) = true.
Proof.
  induction s as [|c s IH]; [reflexivity|].
  unfold isAscii. cbn [toLowerCase list_ascii_of_string forallb].
  intros H. apply andb_true_iff in H as [Hc Hs].
  rewrite (lowerAscii_ascii c Hc). exact (IH Hs).
Qed.

(** X19. For a language tag within ASCII, [setLanguage] does not throw,
    and it stores and returns the same language code: the first five
    characters of the tag in lower case, so at most five characters, within
    ASCII, unchanged by another lower-casing, and [en] when no language is
    given; [answerQuestion] asks the knowledge base under the same
    normalisation. *)
Theorem setLanguage_normalizes (lang : option string) (s : World * list string) :
  isAscii (default "" lang) = true ->
  let code := normalizeLanguage lang in
  (exists w',
      setLanguage lang s
      = (Normal (JObj [("ok", JBool true); ("lang", JStr code)]), (w', snd s ++ [code])))
  /\ (String.length code <= 5)%nat
  /\ isAscii code = true
  /\ toLowerCase code = code
  /\ (given lang = None -> code = "en")
  /\ (forall args, language args = lang -> languageOf args = code).
Proof.
  intros Hascii. cbn zeta. split; [eexists; reflexivity|]. unfold normalizeLanguage.
  split; [|split; [|split; [|split]]].
  - rewrite toLowerCase_length, substring_length. lia.
  - apply isAscii_toLowerCase, isAscii_substring.
    destruct lang as [l|]; [|reflexivity]. cbn [given default].
    destruct (String.eqb l ""); [reflexivity|exact Hascii].
  - apply toLowerCase_idempotent.
  - intros ->. reflexivity.
  - intros args <-. reflexivity.
Qed.

Variable FROM_NUMBER : option string.
Variable MESSAGING_SERVICE_SID : option string.
Variable twilio : Sms.MessageOptions -> Completion string.

(** X20. [sendTextMessage] never throws. A destination with fewer than ten
    digits is answered [{ok: false, error: "Invalid phone number"}] with no
    request to Twilio; and the tool answers [ok: true] only after Twilio has
    accepted the one request it made. *)
Theorem sendTextMessage_result (to message : string) (s : World * list Sms.MessageOptions) :
  exists r s',
    sendTextMessage FROM_NUMBER MESSAGING_SERVICE_SID twilio to message s = (Normal r, s')
    /\ ((String.length (Sms.digitsOf to) < 10)%nat ->
        r = JObj [("ok", JBool false); ("error", JStr "Invalid phone number")]
        /\ snd s' = snd s)
    /\ (get "ok" r = JBool true ->
        exists m sid, snd s' = snd s ++ [m]
                      /\ twilio m = Normal sid
                      /\ Sms.m_body m = message).
Proof.
  unfold sendTextMessage, bind, onFst, onSnd. rewrite logIntent_run. cbn [fst snd].
  destruct (sendSMS_run FROM_NUMBER MESSAGING_SERVICE_SID twilio
              (Sms.mkSMS to message None) (snd s)) as (r & req' & Hrun & Hshape).
  rewrite Hrun. destruct (Sms.success r) eqn:Hok.
  - do 2 eexists. split; [reflexivity|]. cbn [snd]. split.
    + intros Hshort.
      rewrite (sendSMS_short_number FROM_NUMBER MESSAGING_SERVICE_SID twilio
                 (Sms.mkSMS to message None) (snd s) Hshort) in Hrun.
      injection Hrun as <- _. discriminate Hok.
    + intros _. destruct Hshape as [[_ Hf]|(m & ds & Hreq & Hbody & _ & _ & _ & Hiff)];
        [congruence|].
      destruct (proj1 Hiff eq_refl) as (sid & Hsid & _). exists m, sid. auto.
  - do 2 eexists. split; [reflexivity|]. cbn [snd]. split; [|discriminate].
    intros Hshort.
    rewrite (sendSMS_short_number FROM_NUMBER MESSAGING_SERVICE_SID twilio
               (Sms.mkSMS to message None) (snd s) Hshort) in Hrun.
    injection Hrun as <- <-. auto.
Qed.

Variable toLocaleDateString : bool -> Z -> string.
Variable decimalToString : Q -> string.
Variable toFixed2 : Q -> string.
Variable stripe : Stripe.
Variable deliver : SideEffect -> Completion unit.

Lemma findUpcoming_ignores_intentLog (now : Z) (n : option string) (d : Db)
  (f : list IntentLog -> list IntentLog) :
  event_findUpcoming now n (with_intentLog f d) = event_findUpcoming now n d.
Proof. reflexivity. Qed.

(** X21. The tools agree on what the next event is: when the earliest
    active event dated [now] or later is row [i], a purchase without an
    event id is the purchase for [i], [getEventInfo] without a name reports
    that row as [nextEvent], and [getTicketPricing] without an id prices
    it. *)
Theorem tools_agree_on_next_event
  (now : Z) (uuid : string) (args : PurchaseTicketsArgs) (w : World)
  (i : string) (e : Event) :
  head (event_findUpcoming now None (db w)) = Some (i, e) ->
  i <> "" ->
  given (a_eventId args) = None ->
  purchaseTickets toLocaleDateString toFixed2 stripe deliver now uuid args w
  = purchaseTickets toLocaleDateString toFixed2 stripe deliver now uuid
      (mkPurchaseArgs (a_ticketType args) (a_quantity args) (a_customerName args)
         (a_customerEmail args) (a_customerPhone args) (a_card args) (Some i)
         (a_callSid args)) w
  /\ (exists r, fst (getEventInfo toLocaleDateString decimalToString now None w) = Normal r
                /\ get "nextEvent" r = eventView toLocaleDateString decimalToString (i, e))
  /\ (exists r, fst (getTicketPricing toLocaleDateString now None w) = Normal r
                /\ get "eventName" r = JStr (name e)
                /\ get "available" (get "generalAdmission" r)
                   = JInt (gaCapacity e - gaSold e)).
Proof.
  intros Hhead Hi Hnone. split; [|split].
  - unfold purchaseTickets, bind. rewrite !logIntent_run.
    cbn [a_eventId a_ticketType a_quantity a_customerName a_customerEmail
         a_customerPhone a_card a_callSid].
    rewrite Hnone. cbn [given].
    destruct (String.eqb i "") eqn:E; [apply String.eqb_eq in E; contradiction|].
    unfold onDb at 1, event_findFirst, gets, ret. cbn [db spawned].
    rewrite findUpcoming_ignores_intentLog, Hhead. reflexivity.
  - unfold getEventInfo, bind. rewrite logIntent_run.
    unfold onDb, event_findMany, gets, ret. cbn [db spawned given mbind option_bind].
    rewrite findUpcoming_ignores_intentLog.
    destruct (event_findUpcoming now None (db w)) as [|row rest]; [discriminate|].
    injection Hhead as ->. cbn [take List.firstn]. eexists. split; reflexivity.
  - unfold getTicketPricing, bind. rewrite logIntent_run.
    unfold onDb, getTicketPrices, bind, event_findFirst, gets, ret.
    cbn [db spawned mbind option_bind].
    rewrite findUpcoming_ignores_intentLog, Hhead. eexists.
    split; [reflexivity|]. split; reflexivity.
Qed.

(** X22. With no event id given and no active event dated [now] or later, a
    purchase is refused with "No upcoming events available": Stripe is not
    asked, no purchase is recorded and nothing is started; only the intent is
    logged. *)
Theorem purchaseTickets_no_upcoming_event
  (now : Z) (uuid : string) (args : PurchaseTicketsArgs) (w : World) :
  given (a_eventId args) = None ->
  event_findUpcoming now None (db w) = [] ->
  exists w',
    purchaseTickets toLocaleDateString toFixed2 stripe deliver now uuid args w
    = (Normal (okFalse "error" "No upcoming events available"), w')
    /\ event (db w') = event (db w)
    /\ ticketPurchase (db w') = ticketPurchase (db w)
    /\ spawned w' = spawned w
    /\ length (intentLog (db w')) = S (length (intentLog (db w))).
Proof.
  intros Hnone Hempty.
  unfold purchaseTickets, bind. rewrite logIntent_run, Hnone.
  unfold onDb at 1, event_findFirst, gets, ret. cbn [db spawned].
  rewrite findUpcoming_ignores_intentLog, Hempty.
  eexists. split; [reflexivity|]. cbn. rewrite length_app. cbn.
  repeat split; lia.
Qed.

Variable askKB : string -> string -> Completion KBResult.

(** X23. Every question the knowledge base answers is recorded once for
    audit, whatever the confidence: the citations log gains one row with the
    question, the normalised language, the full source list, the call sid
    when given and the id of the matching call log when there is one. *)
Theorem answerQuestion_audit_record (args : AnswerQuestionArgs) (w : World) (res : KBResult) :
  askKB (question args) (languageOf args) = Normal res ->
  citationsLog (db (snd (answerQuestion askKB args w)))
  = citationsLog (db w)
      ++ [mkCitationsLog
            (match given (q_callSid args) with
             | Some sid =>
                 match find (fun c => String.eqb (callSid c) sid) (callLog (db w)) with
                 | Some c => given (Some (callLog_id c))
                 | None => None
                 end
             | None => None
             end)
            (given (q_callSid args)) (question args) (languageOf args)
            (JArr (List.map sourceJs (sources res)))].
Proof.
  intros Hkb. unfold answerQuestion, bind. rewrite logIntent_run.
  unfold await. rewrite Hkb.
  unfold onDb, businessConfig_findFirst, gets. cbn [db spawned].
  unfold tryCatch, bind, ret, modify, callLog_findUnique, gets.
  destruct (given (q_callSid args)) as [sid|];
    cbn [db spawned businessConfig with_intentLog with_citationsLog callLog];
    destruct (lessThan _ _); cbn; try reflexivity.
  all: destruct (find _ _); reflexivity.
Qed.

End MoreToolFacts.

Section RegistryFacts.

Import MoreTools.

Variable S : Type.

(** X24. Every tool advertised in [toolSpecs] is a key of the [tools]
    object and none bears the name of an inherited member, so on any registry
    with those keys an advertised name is dispatched to its own tool;
    [getPolicy] and [setLanguage] are registered without being advertised. *)
Theorem advertised_tools_are_registered (tools : gmap string (Tool S)) (n : string) :
  dom tools = list_to_set toolKeys ->
  n ∈ toolSpecNames ->
  (exists tool, tools !! n = Some tool /\ lookupProperty S tools n = OwnTool S tool)
  /\ (n ∉ objectPrototypeKeys)
  /\ NoDup toolSpecNames
  /\ (forall k, k ∈ toolKeys -> k ∉ toolSpecNames -> k = "getPolicy" \/ k = "setLanguage").
Proof.
  intros Hdom Hn.
  assert (Hsub : Forall (fun k => k ∈ toolKeys /\ k ∉ objectPrototypeKeys) toolSpecNames).
  { apply (bool_decide_unpack _). vm_compute. exact I. }
  rewrite Forall_forall in Hsub. destruct (Hsub n Hn) as [Hkey Hproto].
  assert (Hin : n ∈ dom tools) by (rewrite Hdom; now apply elem_of_list_to_set).
  apply elem_of_dom in Hin as [tool Htool].
  split; [exists tool; split; [exact Htool|]; unfold lookupProperty; now rewrite Htool|].
  split; [exact Hproto|]. split.
  - apply (bool_decide_unpack _). vm_compute. exact I.
  - assert (Hall : Forall (fun k => k ∈ toolSpecNames \/ k = "getPolicy" \/ k = "setLanguage")
                          toolKeys).
    { apply (bool_decide_unpack _). vm_compute. exact I. }
    rewrite Forall_forall in Hall. intros k Hk Hnot.
    destruct (Hall k Hk) as [H|H]; [contradiction|exact H].
Qed.

End RegistryFacts.

(* ===================================================================== *)
(** * More of the realtime client *)
(* ===================================================================== *)

Section MoreClientFacts.

Lemma send_extends (obj : ClientMessage) (c : Client) :
  (exists more, sent (send obj c) = sent c ++ more)
  /\ pendingBytes (send obj c) = pendingBytes c
  /\ connected (send obj c) = connected c.
Proof.
  destruct (socketOpen c) eqn:Ho.
  - destruct (send_open obj c Ho) as (Hs & _ & Hc & Hp & _). eauto.
  - rewrite (send_not_open obj c Ho). split; [exists []; now rewrite app_nil_r|auto].
Qed.

Lemma base64ByteLength_nonneg (b64 : string) : 0 <= base64ByteLength b64.
Proof.
  unfold base64ByteLength. destruct (_ =? 0); [lia|].
  apply Z.shiftr_nonneg, Z.mod_pos_bound. reflexivity.
Qed.

Variable JSON_parse : string -> option JsValue.
Variable onToolCall : option OnToolCall.

Lemma applyOp_extends (op : ClientOp) (c : Client) :
  0 <= pendingBytes c ->
  (exists more, sent (applyOp JSON_parse onToolCall op c) = sent c ++ more)
  /\ 0 <= pendingBytes (applyOp JSON_parse onToolCall op c).
Proof.
  intros Hp.
  assert (Hid : (exists more, sent c = sent c ++ more) /\ 0 <= pendingBytes c)
    by (split; [exists []; now rewrite app_nil_r|exact Hp]).
  assert (Hflush : forall m,
             (exists more, sent (commitAndRespond m c) = sent c ++ more)
             /\ 0 <= pendingBytes (commitAndRespond m c)).
  { intros m. unfold commitAndRespond. destruct (connected c); cbn [negb]; [|exact Hid].
    cbn [pendingBytes]. split; [|lia].
    destruct (send_extends input_audio_buffer_commit c) as ([m1 H1] & _).
    destruct (send_extends (response_create (default [text; audio] m))
                (send input_audio_buffer_commit c)) as ([m2 H2] & _).
    exists (m1 ++ m2).
    transitivity (sent (send (response_create (default [text; audio] m))
                          (send input_audio_buffer_commit c)));
      [destruct m; reflexivity|].
    now rewrite H2, H1, app_assoc. }
  destruct op; cbn [applyOp].
  - unfold appendAudioBase64. destruct (connected c); cbn [negb]; [|exact Hid].
    match goal with |- context [send ?o ?c'] =>
      destruct (send_extends o c') as (Hs & Hpb & _) end.
    split; [exact Hs|]. rewrite Hpb. cbn [pendingBytes].
    pose proof (base64ByteLength_nonneg b64). lia.
  - apply Hflush.
  - unfold maybeAutoFlush. destruct (_ <=? _); [apply Hflush|exact Hid].
  - unfold updateSession. destruct (send_extends (session_update patch) c) as (Hs & Hpb & _).
    split; [exact Hs|]. now rewrite Hpb.
  - unfold heartbeatTick. destruct (heartbeatTimer c); [|exact Hid].
    destruct (connected c); [|exact Hid].
    match goal with |- context [send ?o c] =>
      destruct (send_extends o c) as (Hs & Hpb & _) end.
    split; [exact Hs|]. now rewrite Hpb.
  - unfold Realtime.handleToolCall.
    match goal with |- context [send ?o c] =>
      destruct (send_extends o c) as (Hs & Hpb & _) end.
    split; [exact Hs|]. now rewrite Hpb.
  - split; [exists []|]; destruct c as [[[[] ob]|] con pb []]; cbn in *;
      rewrite ?app_nil_r; auto.
  - split; [exists []|]; destruct c as [[[[] ob]|] con pb []]; cbn in *;
      rewrite ?app_nil_r; auto.
Qed.

(** X25. Whatever a client does on the socket it has, in any number and
    order (audio appends, commits, auto-flush checks, session updates,
    keepalive ticks, tool replies that settle, the socket's close event and
    [close()]; not [connect()], which replaces the socket by a new one),
    frames already written stay written and in place, new ones only follow
    them, and the pending byte counter never becomes negative. *)
Theorem outbox_only_grows (ops : list ClientOp) (c : Client) :
  0 <= pendingBytes c ->
  (exists more, sent (applyOps JSON_parse onToolCall ops c) = sent c ++ more)
  /\ 0 <= pendingBytes (applyOps JSON_parse onToolCall ops c).
Proof.
  revert c. induction ops as [|op ops IH]; intros c Hp.
  - split; [exists []; now rewrite app_nil_r|exact Hp].
  - destruct (applyOp_extends op c Hp) as ([m1 H1] & Hp1).
    destruct (IH _ Hp1) as ([m2 H2] & Hp2).
    change (applyOps JSON_parse onToolCall (op :: ops) c)
      with (applyOps JSON_parse onToolCall ops (applyOp JSON_parse onToolCall op c)).
    split; [exists (m1 ++ m2); now rewrite H2, H1, app_assoc|exact Hp2].
Qed.

End MoreClientFacts.

Section FlushFacts.

(** X26. With a positive threshold the auto-flush check is idempotent: a
    second check right after the first changes nothing, so one crossing of
    the threshold commits the buffer once. *)
Theorem maybeAutoFlush_idempotent (thresholdBytes : option Z) (c : Client) :
  0 < default 32000 thresholdBytes ->
  maybeAutoFlush thresholdBytes (maybeAutoFlush thresholdBytes c)
  = maybeAutoFlush thresholdBytes c.
Proof.
  intros Hpos. unfold maybeAutoFlush.
  change (match thresholdBytes with Some t => t | None => 32000 end)
    with (default 32000 thresholdBytes).
  set (t := default 32000 thresholdBytes) in *.
  destruct (t <=? pendingBytes c) eqn:H1; [|now rewrite H1].
  assert (Hcases : commitAndRespond (Some [text; audio]) c = c
                   \/ pendingBytes (commitAndRespond (Some [text; audio]) c) = 0).
  { unfold commitAndRespond. destruct (connected c); cbn [negb]; [right|left]; reflexivity. }
  destruct Hcases as [Hsame|Hzero].
  - rewrite Hsame, H1. exact Hsame.
  - rewrite Hzero. assert (H0 : (t <=? 0) = false) by (apply Z.leb_gt; lia).
    now rewrite H0.
Qed.

Lemma endsWithPad_true (str : string) (bytes : Z) :
  0 < bytes ->
  String.get (Z.to_nat (bytes - 1)) str = Some "="%char ->
  endsWithPad str bytes = true.
Proof.
  intros Hb Hg. unfold endsWithPad. rewrite Hg.
  apply Z.ltb_lt in Hb. now rewrite Hb.
Qed.

Lemma endsWithPad_false (str : string) (bytes : Z) :
  (forall ch, String.get (Z.to_nat (bytes - 1)) str = Some ch -> ch <> "="%char) ->
  endsWithPad str bytes = false.
Proof.
  intros H. unfold endsWithPad.
  destruct (String.get _ str) as [ch|]; [|reflexivity].
  specialize (H ch eq_refl). apply Ascii.eqb_neq in H. rewrite H. apply andb_false_r.
Qed.

Lemma quarter (x q r : Z) :
  0 <= x < 2 ^ 32 -> x = 4 * q + r -> 0 <= r < 4 ->
  Z.shiftr (x mod 2 ^ 32) 2 = q.
Proof.
  intros Hx Hq Hr. rewrite Z.mod_small by exact Hx.
  rewrite Z.shiftr_div_pow2 by lia. change (2 ^ 2) with 4.
  symmetry. apply (Z.div_unique_pos x 4 q r); lia.
Qed.

(** X27. A chunk with the shape of the base64 text of [n] bytes, that is
    [4k] characters of which the last 0, 1 or 2 are [=] padding, adds
    exactly the number of bytes it encodes, [3k] minus the padding, to the
    pending byte counter of a connected client. *)
Theorem base64_chunk_counts_its_bytes (body pad : string) (k : Z) (c : Client) :
  connected c = true ->
  pad = "" \/ pad = "=" \/ pad = "==" ->
  Z.of_nat (String.length body + String.length pad) = 4 * k ->
  0 < k ->
  12 * k < 2 ^ 32 ->
  (forall ch, String.get (String.length body - 1) body = Some ch -> ch <> "="%char) ->
  base64ByteLength (body ++ pad) = 3 * k - Z.of_nat (String.length pad)
  /\ pendingBytes (appendAudioBase64 (body ++ pad) c)
     = pendingBytes c + (3 * k - Z.of_nat (String.length pad)).
Proof.
  intros Hc Hpad Hlen Hk Hbound Hlast.
  assert (Hval : base64ByteLength (body ++ pad) = 3 * k - Z.of_nat (String.length pad)).
  { unfold base64ByteLength. rewrite append_length, Hlen.
    assert (H0 : (4 * k =? 0) = false) by (apply Z.eqb_neq; lia). rewrite H0.
    destruct Hpad as [->|[->| ->]]; cbn [String.length] in *.
    - rewrite append_empty_r.
      assert (Hidx : Z.to_nat (4 * k - 1) = (String.length body - 1)%nat) by lia.
      rewrite (endsWithPad_false body (4 * k)) by (rewrite Hidx; exact Hlast).
      rewrite (endsWithPad_false body (4 * k)) by (rewrite Hidx; exact Hlast).
      rewrite andb_false_r.
      rewrite (quarter (4 * k * 3) (3 * k) 0) by lia. lia.
    - assert (Hi1 : Z.to_nat (4 * k - 1) = (0 + String.length body)%nat) by lia.
      assert (Hi2 : Z.to_nat (4 * k - 1 - 1) = (String.length body - 1)%nat) by lia.
      rewrite (endsWithPad_true (body ++ "=") (4 * k)); [|lia|].
      2:{ rewrite Hi1, <- append_correct2. reflexivity. }
      rewrite (endsWithPad_false (body ++ "=") (4 * k - 1)).
      2:{ intros ch. rewrite Hi2, <- append_correct1 by lia. apply Hlast. }
      rewrite andb_false_r.
      rewrite (quarter ((4 * k - 1) * 3) (3 * k - 1) 1) by lia. lia.
    - assert (Hi1 : Z.to_nat (4 * k - 1) = (1 + String.length body)%nat) by lia.
      assert (Hi2 : Z.to_nat (4 * k - 1 - 1) = (0 + String.length body)%nat) by lia.
      rewrite (endsWithPad_true (body ++ "==") (4 * k)); [|lia|].
      2:{ rewrite Hi1, <- append_correct2. reflexivity. }
      rewrite (endsWithPad_true (body ++ "==") (4 * k - 1)); [|lia|].
      2:{ rewrite Hi2, <- append_correct2. reflexivity. }
      assert (H1 : (1 <? 4 * k - 1) = true) by (apply Z.ltb_lt; lia).
      rewrite H1. cbn [andb].
      rewrite (quarter ((4 * k - 1 - 1) * 3) (3 * k - 2) 2) by lia. lia. }
  split; [exact Hval|].
  unfold appendAudioBase64. rewrite Hc. cbn [negb].
  match goal with |- context [send ?o ?c'] =>
    destruct (send_extends o c') as (_ & Hp & _) end.
  rewrite Hp. cbn [pendingBytes]. now rewrite Hval.
Qed.

End FlushFacts.

(* ===================================================================== *)
(** * The Redis handle *)
(* ===================================================================== *)

Section RedisFacts.

Import Redis.

Variable REDIS_URL : option string.
Variable newRedis : string -> Completion unit.

(** X28. The Redis client is built lazily and at most once: without
    [REDIS_URL] no client is ever built and the handle stays [null]; once a
    call has returned a client, every later call returns that same client
    without building another. *)
Theorem getRedis_builds_once (s : RedisState) :
  (given REDIS_URL = None -> _redis s = None -> getRedis REDIS_URL newRedis s = (None, s))
  /\ (forall client s1,
        getRedis REDIS_URL newRedis s = (Some client, s1) ->
        getRedis REDIS_URL newRedis s1 = (Some client, s1)
        /\ (constructions s1 <= S (constructions s))%nat).
Proof.
  unfold getRedis. split.
  - intros -> ->. reflexivity.
  - intros client s1.
    destruct (_redis s) as [c0|] eqn:Hr.
    + intros [= <- <-]. rewrite Hr. split; [reflexivity|lia].
    + destruct (given REDIS_URL) as [u|]; [|discriminate].
      destruct (newRedis _); [|discriminate].
      intros [= <- <-]. cbn. split; [reflexivity|lia].
Qed.

End RedisFacts.

(* ===================================================================== *)
(** * The keypad menu *)
(* ===================================================================== *)

Section VoiceRouteFacts.

Import VoiceRoutes.

Variable PUBLIC_BASE_URL : option string.
Variable TWILIO_AGENT_TRANSFER_NUMBER : option string.
Variable toLocaleDateString : bool -> Z -> string.
Variable decimalToString : Q -> string.

#[local] Abbreviation route :=
  (voiceRoute PUBLIC_BASE_URL TWILIO_AGENT_TRANSFER_NUMBER toLocaleDateString decimalToString).

(** X29. Whatever was pressed or said, the menu answers without writing to
    the store, says something, and leaves the caller with a next step: a
    stream to the assistant, a redirect back to the menu, a dial or a
    recording. *)
Theorem voiceRoute_next_step (now : Z) (Digits SpeechResult : option string) (d : Db) :
  exists verbs,
    route now Digits SpeechResult d = (Normal verbs, d)
    /\ Exists (fun v => exists t, v = Say t) verbs
    /\ Exists (fun v => match v with Say _ => False | _ => True end) verbs.
Proof.
  unfold voiceRoute, bind, event_findMany, gets, ret.
  repeat match goal with
         | |- context [if (?a || ?b)%bool then _ else _] => destruct (a || b)%bool
         | |- context [if mentions ?a ?b then _ else _] => destruct (mentions a b)
         | |- context [match take 2 ?l with _ => _ end] => destruct (take 2 l)
         | |- context [match given ?o with _ => _ end] => destruct (given o)
         end;
    (eexists; split; [reflexivity|]; split;
     [repeat first [apply Exists_cons_hd; eexists; reflexivity | apply Exists_cons_tl]
     |repeat first [apply Exists_cons_hd; exact I | apply Exists_cons_tl]]).
Qed.

Lemma mentions_one (w speech : string) (before after : list string) :
  includes w speech = true -> mentions (before ++ w :: after) speech = true.
Proof.
  intros H. unfold mentions. apply existsb_exists. exists w.
  split; [apply in_or_app; right; now left|exact H].
Qed.

(** X30. The assistant comes first: a caller whose words contain the
    letters "ai" anywhere (as in "email" or "wait") is connected to the voice
    assistant whatever key was pressed and whatever else was said. *)
Theorem voiceRoute_ai_anywhere (now : Z) (Digits SpeechResult : option string) (d : Db) :
  includes "ai" (toLowerCase (default "" SpeechResult)) = true ->
  route now Digits SpeechResult d
  = (Normal [ConnectStream
               (default "" (given (dropTrailingSlash <$> PUBLIC_BASE_URL)) ++ "/media")%string;
             Say "Connecting you to our voice assistant. One moment please."], d).
Proof.
  intros H. unfold voiceRoute.
  assert (Hm : mentions ["assistant"; "ai"; "voice"; "help"]
                 (toLowerCase (default "" SpeechResult)) = true)
    by exact (mentions_one "ai" _ ["assistant"] ["voice"; "help"] H).
  rewrite Hm, orb_true_r. reflexivity.
Qed.

End VoiceRouteFacts.

(* ===================================================================== *)
(** * The properties above at concrete inputs *)
(* ===================================================================== *)

(** [processVoicePayment_success_effect] on the sold-out spring event. *)
Lemma processVoicePayment_success_effect_witness :
  exists e,
    event soldOutDb !! "event-2025-spring" = Some e
    /\ soldOf GA (incrementSold GA 1 e) = soldOf GA e + 1.
Proof.
  destruct (processVoicePayment_success_effect acceptingStripe someUuid oneGA visa
              soldOutDb _ _ ltac:(vm_compute; reflexivity) eq_refl)
    as (e & pi & He & _ & Hsold & _).
  exists e. split; [exact He|exact Hsold].
Defined.

(** [processVoicePayment_unconfirmed_writes_nothing] with a Stripe account
    that asks for a further step. *)
Lemma processVoicePayment_unconfirmed_writes_nothing_witness :
  exists r,
    processVoicePayment challengingStripe someUuid oneGA visa soldOutDb
    = (Normal r, soldOutDb)
    /\ success r = false.
Proof.
  destruct (processVoicePayment_unconfirmed_writes_nothing challengingStripe someUuid
              oneGA visa soldOutDb)
    as (r & Hrun & Hfailed & _).
  - intros p pi [= <-]. cbn. discriminate.
  - exists r. split; [exact Hrun|exact Hfailed].
Defined.

(** [processVoicePayment_succeeds_when_stripe_confirms] on an event that is
    over, switched off and sold out. *)
Lemma processVoicePayment_succeeds_when_stripe_confirms_witness :
  exists r d',
    processVoicePayment acceptingStripe someUuid oneRetiredVIP visa retiredDb = (Normal r, d')
    /\ success r = true
    /\ (soldOf VIP <$> event d' !! "event-2024-fall") = Some (150 + 1).
Proof.
  exact (processVoicePayment_succeeds_when_stripe_confirms acceptingStripe someUuid
           oneRetiredVIP visa retiredDb retired
           (fun c => ex_intro _ "pm_1" eq_refl)
           (fun p => ex_intro _ confirmedIntent (conj eq_refl eq_refl))
           eq_refl).
Defined.

(** [createTicketPaymentIntent_accepts] for two tickets of the fall event. *)
Lemma createTicketPaymentIntent_accepts_witness :
  exists e,
    event seededDb !! "event-2025-fall" = Some e
    /\ active e = true
    /\ soldOf GA e + 2 <= capacityOf GA e.
Proof.
  destruct (createTicketPaymentIntent_accepts acceptingStripe someUuid twoGA seededDb
              _ _ ltac:(vm_compute; reflexivity) eq_refl)
    as (e & pi & He & Ha & Hroom & _).
  exists e. auto.
Defined.

(** [createTicketPaymentIntent_sold_out] on the sold-out spring event. *)
Lemma createTicketPaymentIntent_sold_out_witness :
  createTicketPaymentIntent decliningStripe someUuid oneGA soldOutDb
  = (Normal (failed "Only 0 GA tickets remaining"), soldOutDb).
Proof.
  exact (createTicketPaymentIntent_sold_out decliningStripe someUuid oneGA soldOutDb
           springSoldOut eq_refl eq_refl eq_refl).
Defined.

(** [handlePaymentSuccess_effect] for the webhook of two fall tickets. *)
Lemma handlePaymentSuccess_effect_witness :
  exists d',
    PaymentWebhooks.handlePaymentSuccess twoGAWebhook seededDb = (Normal tt, d')
    /\ event d' = <["event-2025-fall" := incrementSold GA 2 fall]> (event seededDb).
Proof.
  destruct (handlePaymentSuccess_effect twoGAWebhook seededDb "event-2025-fall"
              "SCO-9F1C2D3E" 2 fall eq_refl ltac:(discriminate) eq_refl
              ltac:(vm_compute; reflexivity) ltac:(vm_compute; reflexivity))
    as (d' & Hrun & Hev & _).
  exists d'. auto.
Defined.

(** [handlePaymentSuccess_replay_counts_twice]: two deliveries, four
    tickets. *)
Lemma handlePaymentSuccess_replay_counts_twice_witness :
  exists d1 d2,
    PaymentWebhooks.handlePaymentSuccess twoGAWebhook seededDb = (Normal tt, d1)
    /\ PaymentWebhooks.handlePaymentSuccess twoGAWebhook d1 = (Normal tt, d2)
    /\ (soldOf GA <$> event d2 !! "event-2025-fall") = Some (0 + 2 * 2).
Proof.
  exact (handlePaymentSuccess_replay_counts_twice twoGAWebhook seededDb "event-2025-fall"
           "SCO-9F1C2D3E" 2 fall eq_refl ltac:(discriminate) eq_refl
           ltac:(vm_compute; reflexivity) ltac:(vm_compute; reflexivity)).
Defined.

(** [checkout_then_webhook] for two tickets of the fall event. *)
Lemma checkout_then_webhook_witness :
  exists e d2,
    event seededDb !! "event-2025-fall" = Some e
    /\ (soldOf GA <$> event d2 !! "event-2025-fall") = Some (soldOf GA e + 2).
Proof.
  destruct (checkout_then_webhook acceptingStripe someUuid twoGA seededDb _ _ twoGAWebhook
              ltac:(vm_compute; reflexivity) eq_refl eq_refl eq_refl eq_refl
              ltac:(vm_compute; reflexivity) eq_refl)
    as (e & pi & d2 & He & _ & Hsold & _).
  exists e, d2. auto.
Defined.

(** [sendSMS_invalid_phone] on a seven-digit number. *)
Lemma sendSMS_invalid_phone_witness :
  Sms.sendSMS None (Some "MG1") twilioUp shortNumber []
  = (Normal (Sms.smsFailed "Invalid phone number"), []).
Proof.
  exact (sendSMS_invalid_phone None (Some "MG1") twilioUp shortNumber []
           ltac:(vm_compute; lia)).
Defined.

(** [sendSMS_sender] with a messaging service and a voice number both
    configured. *)
Lemma sendSMS_sender_witness :
  exists m,
    snd (Sms.sendSMS (Some "+17175550000") (Some "MG1") twilioUp localNumber [])
    = [] ++ [m]
    /\ Sms.m_messagingServiceSid m = Some "MG1"
    /\ Sms.m_from m = None.
Proof.
  destruct (sendSMS_sender (Some "+17175550000") (Some "MG1") twilioUp localNumber
              [] _ _ ltac:(vm_compute; lia) ltac:(vm_compute; reflexivity))
    as (m & Hreq & Hsid & Hfrom).
  exists m. split; [exact Hreq|auto].
Defined.

(** [setLanguage_normalizes] on a tag in upper case and longer than five
    characters. *)
Lemma setLanguage_normalizes_witness :
  exists w',
    MoreTools.setLanguage longTag (emptyWorld, [])
    = (Normal (JObj [("ok", JBool true); ("lang", JStr "en-us")]), (w', ["en-us"])).
Proof.
  destruct (setLanguage_normalizes longTag (emptyWorld, []) eq_refl) as ((w' & Hrun) & _).
  exists w'. exact Hrun.
Defined.

(** [transcriptExcerpt_bounded] on a transcript of 301 code units. *)
Lemma transcriptExcerpt_bounded_witness :
  length (Sms.transcriptExcerpt longTranscript) = 303%nat.
Proof.
  destruct (transcriptExcerpt_bounded longTranscript) as (_ & _ & Hlong).
  destruct (Hlong ltac:(vm_compute; lia)) as (_ & Hlen).
  exact Hlen.
Defined.

(** [tools_agree_on_next_event] on the seeded store. *)
Lemma tools_agree_on_next_event_witness :
  exists r,
    fst (getEventInfo plainDate plainDecimal newYear2025 None seededWorld) = Normal r
    /\ get "nextEvent" r
       = eventView plainDate plainDecimal ("event-2025-spring", springSoldOut).
Proof.
  destruct (tools_agree_on_next_event plainDate plainDecimal plainDecimal acceptingStripe
              servicesDown newYear2025 someUuid buyNext seededWorld "event-2025-spring" springSoldOut
              ltac:(vm_compute; reflexivity) ltac:(discriminate) eq_refl)
    as (_ & Hinfo & _).
  exact Hinfo.
Defined.

(** [purchaseTickets_no_upcoming_event] on an empty store. *)
Lemma purchaseTickets_no_upcoming_event_witness :
  exists w',
    purchaseTickets plainDate plainDecimal acceptingStripe servicesDown newYear2025
      someUuid buyNext emptyWorld
    = (Normal (okFalse "error" "No upcoming events available"), w')
    /\ spawned w' = [].
Proof.
  destruct (purchaseTickets_no_upcoming_event plainDate plainDecimal acceptingStripe
              servicesDown newYear2025 someUuid buyNext emptyWorld eq_refl
              ltac:(vm_compute; reflexivity))
    as (w' & Hrun & _ & _ & Hsp & _).
  exists w'. auto.
Defined.

(** [answerQuestion_audit_record] for a confident answer. *)
Lemma answerQuestion_audit_record_witness :
  citationsLog (db (snd (answerQuestion (kbReturning nextEventHit)
                           (ask "when is the next event") seededWorld)))
  = [mkCitationsLog None None "when is the next event" "en"
       (JArr (List.map sourceJs (sources nextEventHit)))].
Proof.
  exact (answerQuestion_audit_record (kbReturning nextEventHit)
           (ask "when is the next event") seededWorld nextEventHit eq_refl).
Defined.

(** [advertised_tools_are_registered] for [answerQuestion]. *)
Lemma advertised_tools_are_registered_witness :
  exists tool, fullRegistry !! "answerQuestion" = Some tool.
Proof.
  destruct (advertised_tools_are_registered unit fullRegistry "answerQuestion"
              ltac:(apply (bool_decide_unpack _); vm_compute; exact I)
              ltac:(apply (bool_decide_unpack _); vm_compute; exact I))
    as ((tool & Htool & _) & _).
  exists tool. exact Htool.
Defined.

(** [outbox_only_grows] on the live client. *)
Lemma outbox_only_grows_witness :
  exists more,
    sent (applyOps rejectAll (Some failingHandler)
            [OpAppendAudio "AAAA"; OpMaybeAutoFlush (Some 3); OpToolCallSettles pricingCall;
             OpClose; OpAppendAudio "AAAA"] liveClient)
    = sent liveClient ++ more.
Proof.
  destruct (outbox_only_grows rejectAll (Some failingHandler)
              [OpAppendAudio "AAAA"; OpMaybeAutoFlush (Some 3); OpToolCallSettles pricingCall;
               OpClose; OpAppendAudio "AAAA"] liveClient ltac:(vm_compute; discriminate))
    as (Hmore & _).
  exact Hmore.
Defined.

(** [maybeAutoFlush_idempotent] after three bytes with a threshold of
    three. *)
Lemma maybeAutoFlush_idempotent_witness :
  maybeAutoFlush (Some 3) (maybeAutoFlush (Some 3) (appendAll ["AAAA"] liveClient))
  = maybeAutoFlush (Some 3) (appendAll ["AAAA"] liveClient).
Proof.
  exact (maybeAutoFlush_idempotent (Some 3) (appendAll ["AAAA"] liveClient)
           ltac:(vm_compute; reflexivity)).
Defined.

(** [base64_chunk_counts_its_bytes] for a chunk of two bytes. *)
Lemma base64_chunk_counts_its_bytes_witness :
  base64ByteLength ("AAA" ++ "=") = 3 * 1 - Z.of_nat (String.length "=")
  /\ pendingBytes (appendAudioBase64 ("AAA" ++ "=") liveClient)
     = pendingBytes liveClient + (3 * 1 - Z.of_nat (String.length "=")).
Proof.
  refine (base64_chunk_counts_its_bytes "AAA" "=" 1 liveClient eq_refl
            (or_intror (or_introl eq_refl)) eq_refl ltac:(lia) ltac:(vm_compute; reflexivity) _).
  intros ch [= <-]. discriminate.
Defined.

(** [voiceRoute_ai_anywhere]: key 2 and a question about email. *)
Lemma voiceRoute_ai_anywhere_witness :
  VoiceRoutes.voiceRoute (Some "https://example.org/") None plainDate plainDecimal
    newYear2025 (Some "2") (Some "Can I buy tickets by email?") seededDb
  = (Normal [VoiceRoutes.ConnectStream "https://example.org/media";
             VoiceRoutes.Say "Connecting you to our voice assistant. One moment please."],
     seededDb).
Proof.
  exact (voiceRoute_ai_anywhere (Some "https://example.org/") None plainDate plainDecimal
           newYear2025 (Some "2") (Some "Can I buy tickets by email?") seededDb
           ltac:(vm_compute; reflexivity)).
Defined.
